(** * LightRAG Streamlit front end: session state, activity log, request pipeline

    A shallow embedding of [notebooks/streamlit-app-lightrag.py].  The script
    keeps all of its state in [st.session_state] and talks to three outside
    parties: the Streamlit widgets, the OpenAI client used by the credential
    probe, and the LightRAG engine.  The embedding threads the session state
    through a small state-and-exception monad and takes the answers of the
    outside parties as an explicit environment. *)

From Stdlib Require Import ZArith NArith List String Ascii Lia PrimFloat DecimalString.
From stdpp Require Import base option list strings gmap.

(** ** Python values *)

(** A Python [str] is a sequence of Unicode code points.  Text that reaches the
    script comes from widgets and HTTP clients and is well-formed Unicode
    (code points below 0x110000, no lone surrogates). *)
Definition pystr := list N.

(** An ASCII literal of the source, as a [pystr]. *)
Fixpoint py (s : string) : pystr :=
  match s with
  | EmptyString => []
  | String c r => N_of_ascii c :: py r
  end.

(** [str(n)] for a non-negative [int]. *)
Definition str_int (n : nat) : pystr :=
  py (NilEmpty.string_of_uint (Nat.to_uint n)).

(** [sep.join(parts)] *)
Fixpoint join (sep : pystr) (parts : list pystr) : pystr :=
  match parts with
  | [] => []
  | [p] => p
  | p :: rest => p ++ sep ++ join sep rest
  end.

(** [l[-n:]] for a positive literal [n]: the whole list when it is short. *)
Definition slice_last {A} (n : nat) (l : list A) : list A :=
  skipn (length l - n) l.

(** [s.startswith(p)] *)
Fixpoint startswith (s p : pystr) : bool :=
  match p, s with
  | [], _ => true
  | c :: p', d :: s' => N.eqb c d && startswith s' p'
  | _ :: _, [] => false
  end.

Definition NL : pystr := [10%N].

(** ** [str.encode()]: UTF-8 *)

Definition utf8_char (c : N) : list N :=
  if (c <? 0x80)%N then [c]
  else if (c <? 0x800)%N then
    [N.lor 0xC0 (N.shiftr c 6); N.lor 0x80 (N.land c 0x3F)]
  else if (c <? 0x10000)%N then
    [N.lor 0xE0 (N.shiftr c 12);
     N.lor 0x80 (N.land (N.shiftr c 6) 0x3F);
     N.lor 0x80 (N.land c 0x3F)]
  else
    [N.lor 0xF0 (N.shiftr c 18);
     N.lor 0x80 (N.land (N.shiftr c 12) 0x3F);
     N.lor 0x80 (N.land (N.shiftr c 6) 0x3F);
     N.lor 0x80 (N.land c 0x3F)].

Definition encode (s : pystr) : list N := flat_map utf8_char s.

(** ** [xxhash.xxh64(data).hexdigest()]

    The 64-bit xxHash with seed 0, on 64-bit words kept in [Z] with the
    wrap-around written out. *)
Module XXH64.

Local Open Scope Z_scope.

Definition w64 (x : Z) : Z := x mod 2 ^ 64.

Definition PRIME1 : Z := 0x9E3779B185EBCA87.
Definition PRIME2 : Z := 0xC2B2AE3D27D4EB4F.
Definition PRIME3 : Z := 0x165667B19E3779F9.
Definition PRIME4 : Z := 0x85EBCA77C2B2AE63.
Definition PRIME5 : Z := 0x27D4EB2F165667C5.

Definition rotl (x r : Z) : Z :=
  w64 (Z.lor (Z.shiftl x r) (Z.shiftr x (64 - r))).

(** little-endian read of the first [n] bytes *)
Fixpoint read_le (n : nat) (bs : list N) : Z :=
  match n, bs with
  | S n', b :: bs' => Z.of_N b + 256 * read_le n' bs'
  | _, _ => 0
  end.

Definition round (acc input : Z) : Z :=
  w64 (rotl (w64 (acc + input * PRIME2)) 31 * PRIME1).

Definition merge_round (acc val : Z) : Z :=
  w64 (Z.lxor acc (round 0 val) * PRIME1 + PRIME4).

(** the four accumulators over the 32-byte stripes; returns what is left *)
Fixpoint stripes (fuel : nat) (v1 v2 v3 v4 : Z) (bs : list N)
  : Z * Z * Z * Z * list N :=
  match fuel with
  | O => (v1, v2, v3, v4, bs)
  | S fuel' =>
      if (length bs <? 32)%nat then (v1, v2, v3, v4, bs)
      else stripes fuel'
             (round v1 (read_le 8 bs))
             (round v2 (read_le 8 (skipn 8 bs)))
             (round v3 (read_le 8 (skipn 16 bs)))
             (round v4 (read_le 8 (skipn 24 bs)))
             (skipn 32 bs)
  end.

Fixpoint tail8 (fuel : nat) (h : Z) (bs : list N) : Z * list N :=
  match fuel with
  | O => (h, bs)
  | S fuel' =>
      if (length bs <? 8)%nat then (h, bs)
      else tail8 fuel'
             (w64 (rotl (Z.lxor h (round 0 (read_le 8 bs))) 27 * PRIME1 + PRIME4))
             (skipn 8 bs)
  end.

Definition tail4 (h : Z) (bs : list N) : Z * list N :=
  if (length bs <? 4)%nat then (h, bs)
  else (w64 (rotl (Z.lxor h (w64 (read_le 4 bs * PRIME1))) 23 * PRIME2 + PRIME3),
        skipn 4 bs).

Fixpoint tail1 (h : Z) (bs : list N) : Z :=
  match bs with
  | [] => h
  | b :: bs' => tail1 (w64 (rotl (Z.lxor h (w64 (Z.of_N b * PRIME5))) 11 * PRIME1)) bs'
  end.

Definition avalanche (h : Z) : Z :=
  let h := w64 (Z.lxor h (Z.shiftr h 33) * PRIME2) in
  let h := w64 (Z.lxor h (Z.shiftr h 29) * PRIME3) in
  Z.lxor h (Z.shiftr h 32).

Definition intdigest (data : list N) : Z :=
  let len := Z.of_nat (length data) in
  let '(h, rest) :=
    if (length data <? 32)%nat then (w64 PRIME5, data)
    else
      let '(v1, v2, v3, v4, rest) :=
        stripes (length data) (w64 (PRIME1 + PRIME2)) PRIME2 0 (w64 (0 - PRIME1)) data in
      let h := w64 (rotl v1 1 + rotl v2 7 + rotl v3 12 + rotl v4 18) in
      let h := merge_round h v1 in
      let h := merge_round h v2 in
      let h := merge_round h v3 in
      let h := merge_round h v4 in
      (h, rest) in
  let h := w64 (h + len) in
  let '(h, rest) := tail8 (length rest) h rest in
  let '(h, rest) := tail4 h rest in
  avalanche (tail1 h rest).

Definition hex_digit (d : Z) : N :=
  if d <? 10 then Z.to_N (48 + d) else Z.to_N (87 + d).

(** [n] hexadecimal digits of [h], most significant first *)
Fixpoint hex (n : nat) (h : Z) : pystr :=
  match n with
  | O => []
  | S n' => hex_digit (Z.land (Z.shiftr h (4 * Z.of_nat n')) 15) :: hex n' h
  end.

Definition hexdigest (data : list N) : pystr := hex 16 (intdigest data).

End XXH64.

(** ** Exceptions *)

Inductive pyexc :=
| PyException (msg : pystr)   (* an instance of [Exception]; [msg] is [str(e)] *)
| RerunException.             (* raised by [st.rerun()]; not an [Exception] *)

Inductive result (A : Type) :=
| Ok (a : A)
| Exc (e : pyexc).
Arguments Ok {A} a.
Arguments Exc {A} e.

(** What a call that leaves the script does: return a value or raise an
    [Exception] whose [str] is [msg]. *)
Inductive outcome (A : Type) :=
| Returns (a : A)
| Raises (msg : pystr).
Arguments Returns {A} a.
Arguments Raises {A} msg.

(** ** Session data *)

(** [st.session_state.settings], a dict with six fixed keys. *)
Record Settings := mkSettings {
  search_mode : pystr;
  llm_model : pystr;
  embedding_model : pystr;
  system_prompt : pystr;
  temperature : float;
  api_key : pystr
}.

Inductive pyval :=
| VStr (s : pystr)
| VFloat (f : float).

(** An element of [st.session_state.messages]. *)
Record Message := mkMessage {
  role : pystr;
  content : pystr;
  metadata : gmap string pyval
}.

Inductive LlmFunc := gpt_4o_mini_complete.

(** [EmbeddingFunc(embedding_dim, max_token_size, func)]; [func] closes over
    the model name and reads the credential when it is called. *)
Record EmbeddingFunc := mkEmbeddingFunc {
  embedding_dim : Z;
  max_token_size : Z;
  func_model : pystr
}.

Record LlmKwargs := mkLlmKwargs {
  kw_temperature : float;
  kw_system_prompt : pystr;
  kw_api_key : pystr
}.

(** The arguments a [LightRAG] object was built from, and which construction
    of the session it came from (object identity). *)
Record LightRAG := mkLightRAG {
  working_dir : pystr;
  llm_model_func : LlmFunc;
  llm_model_name : pystr;
  llm_model_max_async : Z;
  llm_model_max_token_size : Z;
  llm_model_kwargs : LlmKwargs;
  embedding_func : EmbeddingFunc;
  instance : nat
}.

(** ** Journal: what a run does, in program order

    The journal is the embedding's record of a run: every call that leaves the
    script (widgets, the OpenAI client, the file system, the engine, the
    logger) and every append to the two histories, in the order in which the
    script performs them. *)

Inductive UiCall :=
| st_error (msg : pystr)
| st_error_icon (msg icon : pystr)
| st_success (msg : pystr)
| st_write (text : pystr)
| st_sidebar_markdown (text : pystr)
| st_api_key_form
| st_spinner (text : pystr)
| st_status (label : pystr)
| st_expander (label : pystr) (lines : list pystr)
| st_download_button (label data file_name mime key : pystr)
| st_rerun
| st_markdown (text : pystr)
| st_warning (msg : pystr)
| st_download_button_nokey (label data file_name mime : pystr).

Inductive Event :=
| Ui (u : UiCall)
| EmbeddingsCreate (key : pystr)
| ChatCompletionsCreate (key : pystr)
| Makedirs (path : pystr)
| NewLightRAG (e : LightRAG)
| Aquery (e : LightRAG) (prompt mode : pystr)
| Ainsert (e : LightRAG) (text : pystr)
| LoggerError (msg : pystr)
| LoggerException (msg : pystr)
| LogAppend (entry : pystr)
| MsgAppend (m : Message).

(** [st.session_state] together with the journal. *)
Record World := mkWorld {
  initialized : bool;
  settings : Settings;
  rag : option LightRAG;
  messages : list Message;
  activity_log : list pystr;
  journal : list Event
}.

Definition set_initialized (b : bool) (w : World) : World :=
  mkWorld b (settings w) (rag w) (messages w) (activity_log w) (journal w).
Definition set_settings (s : Settings) (w : World) : World :=
  mkWorld (initialized w) s (rag w) (messages w) (activity_log w) (journal w).
Definition set_rag (r : option LightRAG) (w : World) : World :=
  mkWorld (initialized w) (settings w) r (messages w) (activity_log w) (journal w).
Definition set_messages (ms : list Message) (w : World) : World :=
  mkWorld (initialized w) (settings w) (rag w) ms (activity_log w) (journal w).
Definition set_activity_log (l : list pystr) (w : World) : World :=
  mkWorld (initialized w) (settings w) (rag w) (messages w) l (journal w).
Definition set_journal (j : list Event) (w : World) : World :=
  mkWorld (initialized w) (settings w) (rag w) (messages w) (activity_log w) j.

Definition set_search_mode (v : pystr) (s : Settings) : Settings :=
  mkSettings v (llm_model s) (embedding_model s) (system_prompt s) (temperature s) (api_key s).
Definition set_llm_model (v : pystr) (s : Settings) : Settings :=
  mkSettings (search_mode s) v (embedding_model s) (system_prompt s) (temperature s) (api_key s).
Definition set_embedding_model (v : pystr) (s : Settings) : Settings :=
  mkSettings (search_mode s) (llm_model s) v (system_prompt s) (temperature s) (api_key s).
Definition set_system_prompt (v : pystr) (s : Settings) : Settings :=
  mkSettings (search_mode s) (llm_model s) (embedding_model s) v (temperature s) (api_key s).
Definition set_temperature (v : float) (s : Settings) : Settings :=
  mkSettings (search_mode s) (llm_model s) (embedding_model s) (system_prompt s) v (api_key s).
Definition set_api_key (v : pystr) (s : Settings) : Settings :=
  mkSettings (search_mode s) (llm_model s) (embedding_model s) (system_prompt s) (temperature s) v.

(** ** What the outside answers during one interaction *)

(** The values in the settings dialog's widgets and its button. *)
Record SettingsForm := mkSettingsForm {
  w_api_key : pystr;
  w_llm_model : pystr;
  w_embedding_model : pystr;
  w_search_mode : pystr;
  w_temperature : float;
  w_system_prompt : pystr;
  w_apply : bool
}.

Record Env := mkEnv {
  (* the credential form: text typed and whether its button was pressed *)
  form_new_api_key : pystr;
  form_submitted : bool;
  (* the credential probe: the client and its embedding request; then the
     chat request up to the text of its reply *)
  embeddings_create : outcome unit;
  chat_completions_create : outcome pystr;
  (* [os.path.exists("./dickens")] *)
  working_dir_exists : bool;
  (* the engine: its constructor, the size of its graph, its two calls;
     [ainsert] is read for its truth value *)
  lightrag_new : outcome unit;
  graph_nodes : nat;
  graph_edges : nat;
  aquery : outcome pystr;
  ainsert : outcome bool;
  (* the clock and the runtime's formatting of floats and of [repr] *)
  strftime : string -> pystr;
  str_float : float -> pystr;
  py_repr : pystr -> pystr
}.

(** ** The monad: session state threaded through, exceptions propagated *)

Definition M (A : Type) : Type := World -> result A * World.

Definition ret {A} (a : A) : M A := fun w => (Ok a, w).

Definition bind {A B} (m : M A) (k : A -> M B) : M B :=
  fun w =>
    match m w with
    | (Ok a, w') => k a w'
    | (Exc e, w') => (Exc e, w')
    end.

Definition raise {A} (e : pyexc) : M A := fun w => (Exc e, w).

(** [try: body  except Exception as e: handler(str(e))] *)
Definition try_except {A} (body : M A) (handler : pystr -> M A) : M A :=
  fun w =>
    match body w with
    | (Exc (PyException msg), w') => handler msg w'
    | r => r
    end.

Definition get : M World := fun w => (Ok w, w).

Definition modify (f : World -> World) : M unit := fun w => (Ok tt, f w).

Definition emit (e : Event) : M unit :=
  modify (fun w => set_journal (journal w ++ [e]) w).

Definition call {A} (o : outcome A) : M A :=
  match o with
  | Returns a => ret a
  | Raises msg => raise (PyException msg)
  end.

Declare Scope py_scope.
Delimit Scope py_scope with py.
Notation "x <- c1 ;; c2" := (bind c1 (fun x => c2))
  (at level 100, c1 at next level, right associativity) : py_scope.
Notation "c1 ;; c2" := (bind c1 (fun _ => c2))
  (at level 100, right associativity) : py_scope.
Open Scope py_scope.

Definition truthy (s : pystr) : bool :=
  match s with [] => false | _ => true end.

(** ** Constants of the script *)

Definition DEFAULT_LLM_MODEL : pystr := py "gpt-4o-mini-2024-07-18".
Definition DEFAULT_EMBEDDER_MODEL : pystr := py "text-embedding-ada-002".
Definition AVAILABLE_LLM_MODELS : list pystr := [DEFAULT_LLM_MODEL; py "gpt-4o-mini"].
Definition AVAILABLE_EMBEDDER_MODELS : list pystr :=
  [DEFAULT_EMBEDDER_MODEL; py "text-embedding-3-small"].
Definition SEARCH_MODES : list pystr := [py "naive"; py "local"; py "global"; py "hybrid"].
Definition WORKING_DIR : pystr := py "./dickens".

Definition WARNING_SIGN : pystr := [0x26A0; 0xFE0F]%N.
Definition INFO_SIGN : pystr := [0x2139; 0xFE0F]%N.
Definition INDENT : pystr := py "        ".

(** ** [get_llm_config], [get_embedding_config] *)

Definition get_llm_config (model_name : pystr) : M (LlmFunc * pystr) :=
  if bool_decide (model_name ∈ [DEFAULT_LLM_MODEL; py "gpt-4o-mini"])
  then ret (gpt_4o_mini_complete, model_name)
  else raise (PyException (py "Unsupported LLM model: " ++ model_name)).

Definition embedding_configs : list (pystr * (Z * Z)) :=
  [(py "text-embedding-ada-002", (1536, 8192)%Z);
   (py "text-embedding-3-small", (1536, 8191)%Z)].

Fixpoint lookup_config (k : pystr) (l : list (pystr * (Z * Z))) : option (Z * Z) :=
  match l with
  | [] => None
  | (k', v) :: l' => if bool_decide (k = k') then Some v else lookup_config k l'
  end.

Definition get_embedding_config (model_name : pystr) : M EmbeddingFunc :=
  match lookup_config model_name embedding_configs with
  | None => raise (PyException (py "Unsupported embedding model: " ++ model_name))
  | Some (dim, max_tokens) => ret (mkEmbeddingFunc dim max_tokens model_name)
  end.

(** ** [add_activity_log]

    The list always exists: the session start creates it, so the function's
    own creation of a missing list never runs. *)

Definition add_activity_log (message : pystr) : M unit :=
  modify (fun w => set_activity_log (activity_log w ++ [message]) w) ;;
  modify (fun w => set_activity_log (slice_last 50 (activity_log w)) w) ;;
  emit (LogAppend message) ;;
  emit (Ui (st_sidebar_markdown (py "```" ++ NL ++ message ++ NL ++ py "```"))).

(** [st.session_state.messages.append(m)] *)
Definition append_message (m : Message) : M unit :=
  modify (fun w => set_messages (messages w ++ [m]) w) ;;
  emit (MsgAppend m).

(** ** [show_api_key_form], [test_api_key]

    The form is drawn on the failure paths of [test_api_key] only.  A key
    typed into it reaches the script in the run that follows the click, when
    the form is drawn again: it is then stored and the run restarted. *)

Definition show_api_key_form (env : Env) : M unit :=
  emit (Ui st_api_key_form) ;;
  if form_submitted env && truthy (form_new_api_key env) then
    modify (fun w => set_settings (set_api_key (form_new_api_key env) (settings w)) w) ;;
    modify (set_initialized false) ;;
    emit (Ui st_rerun) ;;
    raise RerunException
  else ret tt.

Definition key_required_message : pystr :=
  NL ++ INDENT ++ WARNING_SIGN ++ py " OpenAI API key is required." ++
  NL ++ INDENT ++ py "Please enter your API key in the form below." ++
  NL ++ INDENT.

Definition api_error_message (e : pystr) : pystr :=
  NL ++ INDENT ++ WARNING_SIGN ++ py " API Error. Please ensure:" ++
  NL ++ INDENT ++ py "1. You have entered a valid OpenAI API key" ++
  NL ++ INDENT ++ py "2. Your API key has access to the text-embedding-ada-002 model" ++
  NL ++ INDENT ++
  NL ++ INDENT ++ py "Error details: " ++ e ++
  NL ++ INDENT.

Definition test_api_key (env : Env) : M bool :=
  w <- get ;;
  if negb (truthy (api_key (settings w))) then
    emit (Ui (st_error key_required_message)) ;;
    show_api_key_form env ;;
    ret false
  else
    try_except
      (emit (EmbeddingsCreate (api_key (settings w))) ;;
       call (embeddings_create env) ;;
       emit (ChatCompletionsCreate (api_key (settings w))) ;;
       test_response <- call (chat_completions_create env) ;;
       add_activity_log
         (py "[T] Test prompt: What is LightRAG?" ++ NL ++
          py "[@] " ++ firstn 100 test_response ++ py "...") ;;
       ret true)
      (fun e =>
         emit (Ui (st_error (api_error_message e))) ;;
         show_api_key_form env ;;
         ret false).

(** ** [init_rag] and the guard that runs it *)

Definition is_construction (e : Event) : bool :=
  match e with NewLightRAG _ => true | _ => false end.

(** how many times [LightRAG(...)] has been called *)
Definition constructions (j : list Event) : nat :=
  length (List.filter is_construction j).

Definition new_LightRAG (env : Env) (llm_func : LlmFunc) (llm_name : pystr)
    (llm_kwargs : LlmKwargs) (embedding_config : EmbeddingFunc) : M LightRAG :=
  w <- get ;;
  let e := mkLightRAG WORKING_DIR llm_func llm_name 4 32768 llm_kwargs
             embedding_config (constructions (journal w)) in
  emit (NewLightRAG e) ;;
  call (lightrag_new env) ;;
  ret e.

Definition init_rag (env : Env) : M bool :=
  ok <- test_api_key env ;;
  if negb ok then ret false else
  (if negb (working_dir_exists env) then emit (Makedirs WORKING_DIR) else ret tt) ;;
  w <- get ;;
  cfg <- get_llm_config (llm_model (settings w)) ;;
  embedding_config <- get_embedding_config (embedding_model (settings w)) ;;
  let llm_kwargs :=
    mkLlmKwargs (temperature (settings w)) (system_prompt (settings w))
                (api_key (settings w)) in
  e <- new_LightRAG env (fst cfg) (snd cfg) llm_kwargs embedding_config ;;
  modify (set_rag (Some e)) ;;
  modify (set_initialized true) ;;
  (* [if graph:] a networkx graph is true when it has a node *)
  (if negb (Nat.eqb (graph_nodes env) 0) then
     add_activity_log
       (py "[*] Records: " ++ str_int (graph_nodes env) ++ py " nodes, " ++
        str_int (graph_edges env) ++ py " edges")
   else ret tt) ;;
  ret true.

(** [if not st.session_state.initialized: init_rag()], run on every script run *)
Definition ensure_ready (env : Env) : M unit :=
  w <- get ;;
  if negb (initialized w) then init_rag env ;; ret tt else ret tt.

(** ** Settings dialog

    One run of the dialog body with the values its widgets hold.  The
    credential is compared and stored first; every other widget value is
    stored as it is read; the flag is cleared for a changed credential and by
    the Apply Settings button. *)

Definition handle_settings_update : M unit :=
  modify (set_initialized false).

(** [options.index(current)]: raises [ValueError] when absent *)
Definition check_index (env : Env) (options : list pystr) (current : pystr) : M unit :=
  if bool_decide (current ∈ options) then ret tt
  else raise (PyException (py_repr env current ++ py " is not in list")).

Definition show_settings_dialog (env : Env) (form : SettingsForm) : M unit :=
  w <- get ;;
  (if negb (bool_decide (w_api_key form = api_key (settings w))) then
     modify (fun w => set_settings (set_api_key (w_api_key form) (settings w)) w) ;;
     modify (set_initialized false)
   else ret tt) ;;
  w <- get ;;
  check_index env AVAILABLE_LLM_MODELS (llm_model (settings w)) ;;
  modify (fun w => set_settings (set_llm_model (w_llm_model form) (settings w)) w) ;;
  check_index env AVAILABLE_EMBEDDER_MODELS (embedding_model (settings w)) ;;
  modify (fun w => set_settings (set_embedding_model (w_embedding_model form) (settings w)) w) ;;
  check_index env SEARCH_MODES (search_mode (settings w)) ;;
  modify (fun w => set_settings (set_search_mode (w_search_mode form) (settings w)) w) ;;
  modify (fun w => set_settings (set_temperature (w_temperature form) (settings w)) w) ;;
  modify (fun w => set_settings (set_system_prompt (w_system_prompt form) (settings w)) w) ;;
  if w_apply form then
    handle_settings_update ;;
    emit (Ui st_rerun) ;;
    raise RerunException
  else ret tt.

(** ** The chat turn *)

Definition FALLBACK_RESPONSE : pystr :=
  py "I apologize, but I encountered an error while processing your request.".

(** [s[:50] + "..."] when [s] is longer than 50, else [s], after a prefix *)
Definition log_line (prefix s : pystr) : pystr :=
  if (50 <? length s)%nat then prefix ++ firstn 50 s ++ py "..." else prefix ++ s.

(** [st.session_state.rag.aquery(prompt, param=QueryParam(mode=mode))] *)
Definition rag_aquery (env : Env) (prompt mode : pystr) : M pystr :=
  w <- get ;;
  match rag w with
  | None => raise (PyException (py "'NoneType' object has no attribute 'aquery'"))
  | Some e => emit (Aquery e prompt mode) ;; call (aquery env)
  end.

Definition prompt_fingerprint (prompt : pystr) : pystr :=
  firstn 8 (XXH64.hexdigest (encode prompt)).

Definition render_query_info (s : Settings) (prompt_hash : pystr) : pystr :=
  search_mode s ++ py "@" ++ llm_model s ++ py " #" ++ prompt_hash.

Definition success_metadata (env : Env) (s : Settings) (prompt_hash query_info : pystr)
  : gmap string pyval :=
  list_to_map
    [("timestamp", VStr (strftime env "%H:%M:%S"));
     ("search_mode", VStr (search_mode s));
     ("llm_model", VStr (llm_model s));
     ("embedding_model", VStr (embedding_model s));
     ("temperature", VFloat (temperature s));
     ("prompt_hash", VStr prompt_hash);
     ("query_info", VStr query_info)].

Definition error_metadata (s : Settings) (e : pystr) : gmap string pyval :=
  list_to_map
    [("search_mode", VStr (search_mode s));
     ("llm_model", VStr (llm_model s));
     ("embedding_model", VStr (embedding_model s));
     ("error", VStr e)].

(** The body run when [st.chat_input] delivers a prompt. *)
Definition chat_turn (env : Env) (prompt : pystr) : M unit :=
  if negb (truthy prompt) then ret tt else
  emit (Ui (st_write prompt)) ;;
  add_activity_log (log_line (py "[?] Q: ") prompt) ;;
  emit (Ui (st_status (py "Searching and generating response..."))) ;;
  w <- get ;;
  let query_param := search_mode (settings w) in
  try_except
    (response <- rag_aquery env prompt query_param ;;
     w <- get ;;
     let prompt_hash := prompt_fingerprint prompt in
     let query_info := render_query_info (settings w) prompt_hash in
     emit (Ui (st_expander query_info
       [py "**Query Details:**";
        py "- Search Mode: " ++ search_mode (settings w);
        py "- LLM Model: " ++ llm_model (settings w);
        py "- Embedding Model: " ++ embedding_model (settings w);
        py "- Temperature: " ++ str_float env (temperature (settings w));
        py "- Prompt Hash: " ++ prompt_hash])) ;;
     append_message
       (mkMessage (py "assistant") response
          (success_metadata env (settings w) prompt_hash query_info)) ;;
     emit (Ui (st_write response)) ;;
     add_activity_log (log_line (py "[@] A: ") response))
    (fun e =>
       let error_msg := py "Error generating response: " ++ e in
       emit (LoggerError error_msg) ;;
       add_activity_log (py "[!] " ++ error_msg) ;;
       w <- get ;;
       append_message
         (mkMessage (py "assistant") FALLBACK_RESPONSE (error_metadata (settings w) e)) ;;
       emit (Ui (st_write FALLBACK_RESPONSE)) ;;
       add_activity_log (py "[!] " ++ error_msg)).

(** One run of the script body: the guard, then the chat input. *)
Definition script_run (env : Env) (prompt : option pystr) : M unit :=
  ensure_ready env ;;
  match prompt with
  | Some p => chat_turn env p
  | None => ret tt
  end.

(** ** Insertion *)

(** [st.session_state.rag.ainsert(content)] *)
Definition rag_ainsert (env : Env) (text : pystr) : M bool :=
  w <- get ;;
  match rag w with
  | None => raise (PyException (py "'NoneType' object has no attribute 'ainsert'"))
  | Some e => emit (Ainsert e text) ;; call (ainsert env)
  end.

Definition handle_insert (env : Env) (text : pystr) : M unit :=
  w <- get ;;
  match rag w with
  | None => ret tt
  | Some _ =>
    try_except
      (ok <- test_api_key env ;;
       if negb ok then ret tt else
       emit (Ui (st_spinner (py "Inserting content..."))) ;;
       add_activity_log
         (py "[*] Processing content (" ++ str_int (length text) ++ py " chars)...") ;;
       success <- rag_ainsert env text ;;
       if success : bool then
         emit (Ui (st_success (py "Content inserted successfully!"))) ;;
         add_activity_log
           (py "[+] Added content (" ++ str_int (length text) ++ py " chars)")
       else
         emit (Ui (st_error (py "Failed to insert content - no relationships extracted"))) ;;
         add_activity_log (py "[-] Failed to extract relationships from content"))
      (fun e =>
         emit (LoggerException (py "An error occurred during insertion.")) ;;
         emit (Ui (st_error (py "An error occurred: " ++ e))) ;;
         add_activity_log (py "[!] Insert error: " ++ e))
  end.

(** The Paste tab of the insert dialog: the text area and its button. *)
Definition show_insert_dialog_paste (env : Env) (text_input : pystr) (clicked : bool)
  : M unit :=
  if clicked then
    if truthy text_input then handle_insert env text_input else ret tt
  else ret tt.

(** ** Markdown export *)

Definition str_val (env : Env) (v : pyval) : pystr :=
  match v with
  | VStr s => s
  | VFloat f => str_float env f
  end.

Definition md_header (env : Env) (s : Settings) : list pystr :=
  [py "# LightRAG Chat Session" ++ NL;
   py "*Exported on " ++ strftime env "%Y-%m-%d %H:%M:%S" ++ py "*" ++ NL;
   NL ++ py "## Settings" ++ NL;
   py "- Search Mode: " ++ search_mode s;
   py "- LLM Model: " ++ llm_model s;
   py "- Embedding Model: " ++ embedding_model s;
   py "- Temperature: " ++ str_float env (temperature s);
   py "- System Prompt: " ++ system_prompt s ++ NL;
   NL ++ py "## Conversation" ++ NL].

Definition md_message (env : Env) (msg : Message) : list pystr :=
  let role_name :=
    if bool_decide (role msg = py "user") then py "User" else py "Assistant" in
  let stamp :=
    match metadata msg !! "timestamp" with
    | Some v => str_val env v
    | None => py "N/A"
    end in
  [NL ++ py "### " ++ role_name ++ py " (" ++ stamp ++ py ")";
   NL ++ content msg ++ NL]
  ++ (if bool_decide (role msg = py "assistant") then
        match metadata msg !! "query_info" with
        | Some v => [NL ++ py "> " ++ str_val env v]
        | None => []
        end ++
        match metadata msg !! "error" with
        | Some v => [NL ++ py "> " ++ WARNING_SIGN ++ py " Error: " ++ str_val env v]
        | None => []
        end
      else []).

Definition md_content (env : Env) (s : Settings) (msgs : list Message) : pystr :=
  join NL (md_header env s ++ flat_map (md_message env) msgs).

Definition handle_chat_download (env : Env) : M unit :=
  w <- get ;;
  match messages w with
  | [] =>
      emit (Ui (st_error_icon
                  (py "No messages to download yet! Start a conversation first.")
                  INFO_SIGN))
  | _ =>
      emit (Ui (st_download_button
                  (py "Download Chat")
                  (md_content env (settings w) (messages w))
                  (py "chat_session_" ++ strftime env "%Y%m%d_%H%M%S" ++ py ".md")
                  (py "text/markdown")
                  (py "download_chat")))
  end.

(** ** Session start *)

Definition DEFAULT_SYSTEM_PROMPT : pystr :=
  py "You are a helpful AI assistant that answers questions based on the provided records in Obsidian markdown format with use of #wikitags and [[wikilinks]].".

(** the temperature literal is the binary64 value of [0.7] *)
Definition default_settings (openai_api_key : pystr) : Settings :=
  mkSettings (py "hybrid") DEFAULT_LLM_MODEL DEFAULT_EMBEDDER_MODEL
             DEFAULT_SYSTEM_PROMPT 0x1.6666666666666p-1%float openai_api_key.

(** The state after the block under [if "initialized" not in st.session_state];
    the argument is [os.getenv("OPENAI_API_KEY", "")]. *)
Definition new_session (openai_api_key : pystr) : World :=
  let w := mkWorld false (default_settings openai_api_key) None [] [] [] in
  if truthy openai_api_key then
    snd (add_activity_log
           (INFO_SIGN ++ py " Using OpenAI API key from environment") w)
  else w.

(** Appending a whole sequence of entries, one call each. *)
Fixpoint add_all (entries : list pystr) : M unit :=
  match entries with
  | [] => ret tt
  | e :: rest => add_activity_log e ;; add_all rest
  end.

(** ** Fixtures: concrete environments and sessions *)

Definition clock_noon (fmt : string) : pystr :=
  if bool_decide (fmt = "%H:%M:%S") then py "12:00:00"
  else if bool_decide (fmt = "%Y-%m-%d %H:%M:%S") then py "2024-11-09 12:00:00"
  else py "20241109_120000".

Definition quote_repr (s : pystr) : pystr := py "'" ++ s ++ py "'".

(** Everything answers: the probe passes, the engine is built over a graph of
    3 nodes and 2 edges, a query returns "world", an insert reports true. *)
Definition env_ok : Env :=
  mkEnv [] false (Returns tt) (Returns (py "LightRAG is a retrieval framework."))
        true (Returns tt) 3 2 (Returns (py "world")) (Returns true)
        clock_noon (fun _ => py "0.7") quote_repr.

Definition with_probe (e : outcome unit) (env : Env) : Env :=
  mkEnv (form_new_api_key env) (form_submitted env) e (chat_completions_create env)
        (working_dir_exists env) (lightrag_new env) (graph_nodes env) (graph_edges env)
        (aquery env) (ainsert env) (strftime env) (str_float env) (py_repr env).

Definition with_aquery (r : outcome pystr) (env : Env) : Env :=
  mkEnv (form_new_api_key env) (form_submitted env) (embeddings_create env)
        (chat_completions_create env) (working_dir_exists env) (lightrag_new env)
        (graph_nodes env) (graph_edges env) r (ainsert env)
        (strftime env) (str_float env) (py_repr env).

Definition with_ainsert (r : outcome bool) (env : Env) : Env :=
  mkEnv (form_new_api_key env) (form_submitted env) (embeddings_create env)
        (chat_completions_create env) (working_dir_exists env) (lightrag_new env)
        (graph_nodes env) (graph_edges env) (aquery env) r
        (strftime env) (str_float env) (py_repr env).

(** The provider rejects the credential. *)
Definition env_rejected : Env :=
  with_probe (Raises (py "Error code: 401 - Incorrect API key provided")) env_ok.

(** A session started with a key in the environment. *)
Definition session0 : World := new_session (py "sk-live").

(** The same session after its first script run: the engine is built. *)
Definition session1 : World := snd (script_run env_ok None session0).

(** ** Vocabulary of the statements *)

(** Both calls of the credential probe return. *)
Definition probe_passes (env : Env) : bool :=
  match embeddings_create env, chat_completions_create env with
  | Returns _, Returns _ => true
  | _, _ => false
  end.

(** The credential is present and the probe accepts it. *)
Definition credential_ok (env : Env) (w : World) : bool :=
  truthy (api_key (settings w)) && probe_passes env.

(** A new key is being submitted through the credential form. *)
Definition resubmitting (env : Env) : bool :=
  form_submitted env && truthy (form_new_api_key env).

(** The journal entries of one [add_activity_log] call. *)
Definition logged (message : pystr) : list Event :=
  [LogAppend message;
   Ui (st_sidebar_markdown (py "```" ++ NL ++ message ++ NL ++ py "```"))].

Definition probe_log_entry (test_response : pystr) : pystr :=
  py "[T] Test prompt: What is LightRAG?" ++ NL ++
  py "[@] " ++ firstn 100 test_response ++ py "...".

(** The activity-log entries appended by a stretch of the journal. *)
Fixpoint log_appends (j : list Event) : list pystr :=
  match j with
  | [] => []
  | LogAppend m :: j' => m :: log_appends j'
  | _ :: j' => log_appends j'
  end.

(** The messages appended to the history by a stretch of the journal. *)
Fixpoint msg_appends (j : list Event) : list Message :=
  match j with
  | [] => []
  | MsgAppend m :: j' => m :: msg_appends j'
  | _ :: j' => msg_appends j'
  end.

(** The calls into the engine made by a stretch of the journal. *)
Definition is_engine_call (e : Event) : bool :=
  match e with
  | NewLightRAG _ | Aquery _ _ _ | Ainsert _ _ => true
  | _ => false
  end.

Definition engine_calls (j : list Event) : list Event :=
  List.filter is_engine_call j.

(** How many entries carry a given prefix. *)
Definition count_prefixed (p : pystr) (entries : list pystr) : nat :=
  length (List.filter (fun s => startswith s p) entries).

(** The error texts shown to the user by a stretch of the journal. *)
Fixpoint errors_shown (j : list Event) : list pystr :=
  match j with
  | [] => []
  | Ui (st_error m) :: j' => m :: errors_shown j'
  | Ui (st_error_icon m _) :: j' => m :: errors_shown j'
  | _ :: j' => errors_shown j'
  end.

(** The engine [init_rag] builds from settings [s], as construction number [n]
    of the session, for an embedding model of the given dimension and size. *)
Definition engine_for (s : Settings) (dim max_tokens : Z) (n : nat) : LightRAG :=
  mkLightRAG WORKING_DIR gpt_4o_mini_complete (llm_model s) 4 32768
    (mkLlmKwargs (temperature s) (system_prompt s) (api_key s))
    (mkEmbeddingFunc dim max_tokens (embedding_model s)) n.

(** The settings that the dialog's widgets hold. *)
Definition form_settings (form : SettingsForm) : Settings :=
  mkSettings (w_search_mode form) (w_llm_model form) (w_embedding_model form)
             (w_system_prompt form) (w_temperature form) (w_api_key form).

(** The dialog filled with settings [s], with the credential replaced by [key]
    and the model by [model]; [apply] is the Apply Settings button. *)
Definition form_of (s : Settings) (key model : pystr) (apply : bool) : SettingsForm :=
  mkSettingsForm key model (embedding_model s) (search_mode s) (temperature s)
                 (system_prompt s) apply.

(** The user mistypes a new key and applies. *)
Definition form_typo : SettingsForm :=
  form_of (settings session1) (py "sk-typo") (llm_model (settings session1)) true.

(** The user picks the other model and applies. *)
Definition form_model : SettingsForm :=
  form_of (settings session1) (api_key (settings session1)) (py "gpt-4o-mini") true.

(** The [str] of the exception that [st.session_state.rag.aquery(...)] raises
    in session [w] under [env], if it raises: an [AttributeError] when there
    is no engine, else whatever the engine raises. *)
Definition aquery_raises (env : Env) (w : World) : option pystr :=
  match rag w with
  | None => Some (py "'NoneType' object has no attribute 'aquery'")
  | Some _ =>
      match aquery env with
      | Raises msg => Some msg
      | Returns _ => None
      end
  end.

(** The journal entry of the call into the engine, when there is an engine. *)
Definition aquery_event (w : World) (prompt : pystr) : list Event :=
  match rag w with
  | Some e => [Aquery e prompt (search_mode (settings w))]
  | None => []
  end.

Definition fallback_message (s : Settings) (e : pystr) : Message :=
  mkMessage (py "assistant") FALLBACK_RESPONSE (error_metadata s e).

Definition success_message (env : Env) (s : Settings) (prompt response : pystr) : Message :=
  mkMessage (py "assistant") response
    (success_metadata env s (prompt_fingerprint prompt)
       (render_query_info s (prompt_fingerprint prompt))).

Definition processing_entry (text : pystr) : pystr :=
  py "[*] Processing content (" ++ str_int (length text) ++ py " chars)...".

Definition error_entry (e : pystr) : pystr :=
  py "[!] " ++ py "Error generating response: " ++ e.

(** a lower-case hexadecimal digit: [0-9a-f] *)
Definition is_hex (c : N) : bool :=
  ((48 <=? c) && (c <=? 57) || (97 <=? c) && (c <=? 102))%N.

(** The engine ingests the text but reports no relationships. *)
Definition env_no_relationships : Env := with_ainsert (Returns false) env_ok.

(** The engine's query fails with a message. *)
Definition env_rejected_query : Env := with_aquery (Raises (py "Connection error.")) env_ok.

(** The engine raises an exception whose [str] is empty. *)
Definition env_silent_failure : Env := with_aquery (Raises []) env_ok.

(** The session after two chat turns: one answered, one failed. *)
Definition session3 : World :=
  snd (chat_turn env_rejected_query (py "and then?")
         (snd (chat_turn env_ok (py "hello") session1))).

(** The activity log is within its cap. *)
Definition log_capped (w : World) : Prop := length (activity_log w) <= 50.

(** [m] never takes the session out of [P]. *)
Definition keeps (P : World -> Prop) {A} (m : M A) : Prop :=
  forall w, P w -> P (snd (m w)).

(** ** The other tabs of the insert dialog

    What a tab reads from outside the session (the uploaded file, the web
    page, the two test documents) is an argument of its function. *)

(** [c.isspace()] for one character *)
Definition is_space (c : N) : bool :=
  ((9 <=? c) && (c <=? 13) || (28 <=? c) && (c <=? 32) ||
   (c =? 0x85) || (c =? 0xA0) || (c =? 0x1680) ||
   (0x2000 <=? c) && (c <=? 0x200A) ||
   (c =? 0x2028) || (c =? 0x2029) || (c =? 0x202F) || (c =? 0x205F) ||
   (c =? 0x3000))%N.

Fixpoint lstrip (s : pystr) : pystr :=
  match s with
  | [] => []
  | c :: r => if is_space c then lstrip r else s
  end.

Definition rstrip (s : pystr) : pystr := rev (lstrip (rev s)).

(** [s.strip()] *)
Definition strip (s : pystr) : pystr := rstrip (lstrip s).

(** The Upload tab.  [uploaded_file] is [None] while nothing is uploaded,
    else what [uploaded_file.read()] followed by [decode('utf-8')] yields. *)
Definition show_insert_dialog_upload (env : Env)
    (uploaded_file : option (outcome pystr)) (clicked : bool) : M unit :=
  match uploaded_file with
  | None => ret tt
  | Some file =>
      if clicked then
        try_except
          (text <- call file ;; handle_insert env text)
          (fun e => emit (Ui (st_error (py "Error inserting file: " ++ e))))
      else ret tt
  end.

(** The Website tab.  [response] is what [requests.get(url)],
    [raise_for_status()] and [.text] yield. *)
Definition show_insert_dialog_website (env : Env) (url : pystr) (clicked : bool)
    (response : outcome pystr) : M unit :=
  if clicked then
    if truthy url then
      try_except
        (text <- call response ;; handle_insert env text)
        (fun e => emit (Ui (st_error (py "Error inserting website content: " ++ e))))
    else ret tt
  else ret tt.

(** The Test tab, first button.  [book] is what opening and reading
    [dickens/inbox/book.txt] yields. *)
Definition show_insert_dialog_book (env : Env) (clicked : bool)
    (book : outcome pystr) : M unit :=
  if clicked then
    try_except
      (text <- call book ;; handle_insert env text)
      (fun e => emit (Ui (st_error (py "Error inserting Dickens test book: " ++ e))))
  else ret tt.

(** What opening the PDF and extracting the text of its pages yields: the
    file is missing, something else raises, or the texts of the pages. *)
Inductive PdfRead :=
| PdfNotFound
| PdfFailed (msg : pystr)
| PdfPages (texts : list pystr).

(** The Test tab, second button. *)
Definition show_insert_dialog_paper (env : Env) (clicked : bool) (pdf : PdfRead)
  : M unit :=
  if clicked then
    match pdf with
    | PdfNotFound =>
        emit (Ui (st_error
          (py "PDF file not found. Please ensure the file exists in dickens/inbox/")))
    | PdfFailed msg =>
        emit (Ui (st_error (py "Error inserting LightRAG whitepaper: " ++ msg)))
    | PdfPages texts =>
        match List.filter (fun text => truthy (strip text)) texts with
        | [] => emit (Ui (st_error (py "No text could be extracted from the PDF")))
        | pages => handle_insert env (join (NL ++ NL) pages)
        end
    end
  else ret tt.

(** The widgets of the insert dialog and what its tabs would read. *)
Record InsertForm := mkInsertForm {
  text_input : pystr;
  insert_clicked : bool;
  uploaded_file : option (outcome pystr);
  insert_file_clicked : bool;
  url : pystr;
  insert_url_clicked : bool;
  url_response : outcome pystr;
  book_clicked : bool;
  book_file : outcome pystr;
  paper_clicked : bool;
  paper_pdf : PdfRead
}.

(** One run of the dialog body: the four tabs in order. *)
Definition show_insert_dialog (env : Env) (form : InsertForm) : M unit :=
  show_insert_dialog_paste env (text_input form) (insert_clicked form) ;;
  show_insert_dialog_upload env (uploaded_file form) (insert_file_clicked form) ;;
  show_insert_dialog_website env (url form) (insert_url_clicked form) (url_response form) ;;
  show_insert_dialog_book env (book_clicked form) (book_file form) ;;
  show_insert_dialog_paper env (paper_clicked form) (paper_pdf form).

(** ** Sessions as sequences of interactions *)

Inductive Action :=
| RunScript (prompt : option pystr)
| OpenSettings (form : SettingsForm)
| OpenInsert (form : InsertForm)
| DownloadChat.

Definition perform (env : Env) (a : Action) : M unit :=
  match a with
  | RunScript prompt => script_run env prompt
  | OpenSettings form => show_settings_dialog env form
  | OpenInsert form => show_insert_dialog env form
  | DownloadChat => handle_chat_download env
  end.

(** The select boxes of the settings dialog only hold offered options. *)
Definition form_offered (form : SettingsForm) : Prop :=
  w_llm_model form ∈ AVAILABLE_LLM_MODELS /\
  w_embedding_model form ∈ AVAILABLE_EMBEDDER_MODELS /\
  w_search_mode form ∈ SEARCH_MODES.

Definition action_offered (a : Action) : Prop :=
  match a with
  | OpenSettings form => form_offered form
  | _ => True
  end.

(** The sessions a user can bring about. *)
Inductive reachable : World -> Prop :=
| reachable_start (openai_api_key : pystr) :
    reachable (new_session openai_api_key)
| reachable_step (env : Env) (a : Action) (w : World) :
    reachable w -> action_offered a -> reachable (snd (perform env a w)).

(** ** Weakest preconditions

    [wp m Q E w]: run from [w], [m] ends in a state satisfying [Q] with its
    result when it returns and [E] with its exception when it raises. *)
Definition wp {A} (m : M A) (Q : A -> World -> Prop) (E : pyexc -> World -> Prop)
    (w : World) : Prop :=
  match m w with
  | (Ok a, w') => Q a w'
  | (Exc e, w') => E e w'
  end.

(** The exception clause of [try_except]. *)
Definition handled {A} (handler : pystr -> M A) (Q : A -> World -> Prop)
    (E : pyexc -> World -> Prop) (e : pyexc) (w : World) : Prop :=
  match e with
  | PyException msg => wp (handler msg) Q E w
  | RerunException => E RerunException w
  end.

(** ** Invariants of a session *)

Definition settings_offered (s : Settings) : Prop :=
  llm_model s ∈ AVAILABLE_LLM_MODELS /\
  embedding_model s ∈ AVAILABLE_EMBEDDER_MODELS /\
  search_mode s ∈ SEARCH_MODES.

(** While the flag is set there is an engine, and it holds the session's
    credential, which is not empty. *)
Definition engine_current (w : World) : Prop :=
  initialized w = true ->
  exists e, rag w = Some e /\
            kw_api_key (llm_model_kwargs e) = api_key (settings w) /\
            truthy (api_key (settings w)) = true.

(** The session's engine came from one of the constructions journalled. *)
Definition engine_numbered (w : World) : Prop :=
  forall e, rag w = Some e -> instance e < constructions (journal w).

Definition assistant_only (w : World) : Prop :=
  Forall (fun m => role m = py "assistant") (messages w).

Definition session_inv (w : World) : Prop :=
  settings_offered (settings w) /\
  engine_current w /\
  engine_numbered w /\
  assistant_only w /\
  log_capped w.

(** The requests a stretch of the journal sends to the provider. *)
Definition is_request (e : Event) : bool :=
  match e with
  | EmbeddingsCreate _ | ChatCompletionsCreate _ => true
  | _ => false
  end.

Definition requests_sent (j : list Event) : list Event := List.filter is_request j.

(** What a run from [w] to [w'] added to the journal. *)
Definition added (w w' : World) : list Event :=
  skipn (length (journal w)) (journal w').

(** The entry that closes an insertion, by what the engine did. *)
Definition insert_verdict (text : pystr) (o : outcome bool) : pystr :=
  match o with
  | Returns true => py "[+] Added content (" ++ str_int (length text) ++ py " chars)"
  | Returns false => py "[-] Failed to extract relationships from content"
  | Raises msg => py "[!] Insert error: " ++ msg
  end.

(** The message a chat turn appends, by what the engine does. *)
Definition turn_message (env : Env) (w : World) (prompt : pystr) : Message :=
  match aquery_raises env w, aquery env with
  | Some msg, _ => fallback_message (settings w) msg
  | None, Returns response => success_message env (settings w) prompt response
  | None, Raises msg => fallback_message (settings w) msg
  end.

(** The entries a chat turn logs. *)
Definition turn_log (env : Env) (w : World) (prompt : pystr) : list pystr :=
  log_line (py "[?] Q: ") prompt ::
  match aquery_raises env w, aquery env with
  | Some msg, _ => [error_entry msg; error_entry msg]
  | None, Returns response => [log_line (py "[@] A: ") response]
  | None, Raises msg => [error_entry msg; error_entry msg]
  end.

(** The reply of the probe's chat request, when it returns. *)
Definition probe_reply (env : Env) : pystr :=
  match chat_completions_create env with
  | Returns reply => reply
  | Raises _ => []
  end.

(** The error an insertion shows, by what the engine did. *)
Definition insert_errors (o : outcome bool) : list pystr :=
  match o with
  | Returns true => []
  | Returns false => [py "Failed to insert content - no relationships extracted"]
  | Raises msg => [py "An error occurred: " ++ msg]
  end.

(** What an insertion leaves alone: the engine reference, the history, every
    setting but the credential, and the number of engines built. *)
Definition untouched_by_insert (w w' : World) : Prop :=
  rag w' = rag w /\
  messages w' = messages w /\
  set_api_key (api_key (settings w)) (settings w') = settings w /\
  constructions (journal w') = constructions (journal w).

(** The world after [st.error(text)]. *)
Definition after_error (text : pystr) (w : World) : World :=
  set_journal (journal w ++ [Ui (st_error text)]) w.

(** A page with no character other than white space. *)
Definition blank (text : pystr) : bool := forallb is_space text.

(** The part of the export that one message contributes. *)
Definition md_section (env : Env) (msg : Message) : pystr :=
  NL ++ join NL (md_message env msg).

(** ** The table of the most connected nodes

    [degrees] stands for [dict(graph.degree()).items()]: the nodes with their
    degrees, in the order of the graph's nodes. *)

(** One step of a stable sort by decreasing degree: [x], which precedes all of
    [l] in the input, goes before the first item whose degree is not greater
    than its own. *)
Fixpoint insert_by_degree (x : pystr * nat) (l : list (pystr * nat))
  : list (pystr * nat) :=
  match l with
  | [] => [x]
  | y :: r => if (snd x <? snd y)%nat then y :: insert_by_degree x r else x :: l
  end.

(** [sorted(items, key=lambda x: x[1], reverse=True)]; Python's sort is stable,
    also with [reverse=True]. *)
Definition sorted_by_degree (items : list (pystr * nat)) : list (pystr * nat) :=
  fold_right insert_by_degree [] items.

Definition top_nodes (degrees : list (pystr * nat)) : list (pystr * nat) :=
  firstn 5 (sorted_by_degree degrees).

(** [xxhash.xxh64(node.encode()).hexdigest()[:12]] *)
Definition sha_hash (node : pystr) : pystr :=
  firstn 12 (XXH64.hexdigest (encode node)).

Definition table_row (item : pystr * nat) : pystr :=
  py "| `" ++ fst item ++ py "` | `" ++ sha_hash (fst item) ++ py "` | " ++
  str_int (snd item) ++ py " |".

Definition table_lines (degrees : list (pystr * nat)) : list pystr :=
  [py "| Node ID | SHA-12 | Connections |";
   py "|---------|--------|-------------|"] ++
  map table_row (top_nodes degrees).

(** Degrees do not increase along the list. *)
Fixpoint descending (l : list (pystr * nat)) : Prop :=
  match l with
  | [] => True
  | x :: r => Forall (fun y => snd y <= snd x) r /\ descending r
  end.

(** The items of degree [k], in the order of the list. *)
Definition of_degree (k : nat) (l : list (pystr * nat)) : list (pystr * nat) :=
  List.filter (fun x => Nat.eqb (snd x) k) l.

(** ** The download dialog

    The graph file is read by networkx; what [nx.read_graphml] yields is an
    argument, and so is [json.dumps]. *)

(** A GraphML attribute value. *)
Inductive attr :=
| AStr (s : pystr)
| AInt (z : Z)
| AFloat (f : float)
| ABool (b : bool).

(** The graph as the code walks it: [graph.nodes(data=True)] and, for a node,
    [graph.edges(node_id, data=True)] as triples of source, target and data. *)
Record Graph := mkGraph {
  nodes_data : list (pystr * gmap string attr);
  edges_data : pystr -> list (pystr * pystr * gmap string attr)
}.

(** An element of a record's [relationships]. *)
Record Relationship := mkRelationship {
  rel_target : pystr;
  rel_type : attr;
  rel_weight : attr
}.

(** A record: [id], [content] and, under [metadata], [type], [timestamp] and
    [relationships]. *)
Record GraphRecord := mkGraphRecord {
  record_id : pystr;
  record_content : attr;
  record_type : attr;
  record_timestamp : attr;
  record_relationships : list Relationship
}.

(** [data.get('type') == 'chunk'] *)
Definition is_chunk (data : gmap string attr) : bool :=
  match data !! "type" with
  | Some (AStr s) => bool_decide (s = py "chunk")
  | _ => false
  end.

(** The relationships of one node: an edge without data is left out. *)
Definition relationships_of (g : Graph) (node_id : pystr) : list Relationship :=
  flat_map
    (fun edge : pystr * pystr * gmap string attr =>
       let '(_, target, edge_data) := edge in
       if Nat.eqb (size edge_data) 0 then []
       else [mkRelationship target
               (default (AStr []) (edge_data !! "type"))
               (default (AFloat 1%float) (edge_data !! "weight"))])
    (edges_data g node_id).

(** The loop over the nodes of the graph. *)
Definition records_of (g : Graph) : list GraphRecord :=
  flat_map
    (fun node : pystr * gmap string attr =>
       let '(node_id, data) := node in
       if is_chunk data then
         [mkGraphRecord node_id
            (default (AStr []) (data !! "content"))
            (default (AStr []) (data !! "type"))
            (default (AStr []) (data !! "timestamp"))
            (relationships_of g node_id)]
       else [])
    (nodes_data g).

(** [graph_file] is [None] when the graph file does not exist, else what
    [nx.read_graphml] yields. *)
Definition get_all_records_from_graph (graph_file : option (outcome Graph))
  : M (list GraphRecord) :=
  try_except
    (match graph_file with
     | None => ret []
     | Some read => graph <- call read ;; ret (records_of graph)
     end)
    (fun e => emit (LoggerError (py "Error reading graph file: " ++ e)) ;; ret []).

(** The Download Records button and what the tab would read. *)
Record DownloadForm := mkDownloadForm {
  download_records_clicked : bool;
  graph_file : option (outcome Graph);
  json_dumps : list GraphRecord -> outcome pystr
}.

Definition DOWN_ARROW : pystr := [0x2193%N].

Definition show_download_dialog (env : Env) (form : DownloadForm) : M unit :=
  emit (Ui (st_markdown (py "### Download Options"))) ;;
  emit (Ui (st_markdown (py "Download the current chat session as a markdown file."))) ;;
  handle_chat_download env ;;
  emit (Ui (st_markdown (py "Download all inserted records as a JSON file."))) ;;
  if download_records_clicked form then
    try_except
      (w <- get ;;
       match rag w with
       | None => emit (Ui (st_error (py "No records available. Initialize RAG first.")))
       | Some _ =>
           records <- get_all_records_from_graph (graph_file form) ;;
           match records with
           | [] => emit (Ui (st_warning (py "No records found to download.")))
           | _ :: _ =>
               records_json <- call (json_dumps form records) ;;
               emit (Ui (st_download_button_nokey
                           (py "Download JSON") records_json
                           (py "lightrag_records_" ++ strftime env "%Y%m%d_%H%M%S" ++
                            py ".json")
                           (py "application/json"))) ;;
               add_activity_log
                 (py "[" ++ DOWN_ARROW ++ py "] Downloaded " ++
                  str_int (length records) ++ py " records")
           end
       end)
      (fun e =>
         emit (LoggerError (py "Error downloading records: " ++ e)) ;;
         emit (Ui (st_error (py "Error downloading records: " ++ e))) ;;
         add_activity_log (py "[!] Download error: " ++ e))
  else ret tt.

(** The sessions a user can bring about, the download dialog included. *)
Inductive reachable_with_downloads : World -> Prop :=
| with_downloads_start (openai_api_key : pystr) :
    reachable_with_downloads (new_session openai_api_key)
| with_downloads_step (env : Env) (a : Action) (w : World) :
    reachable_with_downloads w -> action_offered a ->
    reachable_with_downloads (snd (perform env a w))
| with_downloads_dialog (env : Env) (form : DownloadForm) (w : World) :
    reachable_with_downloads w ->
    reachable_with_downloads (snd (show_download_dialog env form w)).

(** A graph of one chunk node and one other node, joined by an edge. *)
Definition graph_two_nodes : Graph :=
  mkGraph
    [(py "chunk-1",
      list_to_map [("type", AStr (py "chunk")); ("content", AStr (py "Marley was dead."))]);
     (py "MARLEY", list_to_map [("type", AStr (py "entity"))])]
    (fun node_id =>
       if bool_decide (node_id = py "chunk-1")
       then [(py "chunk-1", py "MARLEY", list_to_map [("type", AStr (py "mentions"))]);
             (py "chunk-1", py "SCROOGE", ∅)]
       else []).

(** The dialog with Download Records pressed on that graph. *)
Definition form_records : DownloadForm :=
  mkDownloadForm true (Some (Returns graph_two_nodes)) (fun _ => Returns (py "[...]")).

(** * Properties *)

Arguments py : simpl never.
Arguments NL : simpl never.
Arguments str_int : simpl never.
Arguments slice_last : simpl never.
Arguments startswith : simpl never.
Arguments constructions : simpl never.
Arguments lookup_config : simpl never.
Arguments prompt_fingerprint : simpl never.
Arguments log_line : simpl never.
Arguments success_metadata : simpl never.
Arguments error_metadata : simpl never.
Arguments key_required_message : simpl never.
Arguments api_error_message : simpl never.

(** ** The hash and the encoder on known values *)

Example utf8_ascii : encode (py "abc") = [97; 98; 99]%N.
Proof. reflexivity. Qed.

Example utf8_warning_sign : encode WARNING_SIGN = [0xE2; 0x9A; 0xA0; 0xEF; 0xB8; 0x8F]%N.
Proof. reflexivity. Qed.

Example utf8_four_bytes : encode [0x1F60E%N] = [0xF0; 0x9F; 0x98; 0x8E]%N.
Proof. reflexivity. Qed.

Example xxh64_empty : XXH64.hexdigest (encode (py "")) = py "ef46db3751d8e999".
Proof. vm_compute. reflexivity. Qed.

Example xxh64_a : XXH64.hexdigest (encode (py "a")) = py "d24ec4f1a98c6e5b".
Proof. vm_compute. reflexivity. Qed.

Example xxh64_abc : XXH64.hexdigest (encode (py "abc")) = py "44bc2cf5ad770999".
Proof. vm_compute. reflexivity. Qed.

Example xxh64_xxhash : XXH64.hexdigest (encode (py "xxhash")) = py "32dd38952c4bc720".
Proof. vm_compute. reflexivity. Qed.

Example xxh64_fox :
  XXH64.hexdigest (encode (py "The quick brown fox jumps over the lazy dog"))
  = py "0b242d361fda71bc".
Proof. vm_compute. reflexivity. Qed.

Example fingerprint_hello : prompt_fingerprint (py "hello") = py "26c7827d".
Proof. vm_compute. reflexivity. Qed.

Example str_int_values : str_int 0 = py "0" /\ str_int 1234 = py "1234".
Proof. split; reflexivity. Qed.

Example slice_last_values :
  slice_last 2 [1; 2; 3] = [2; 3] /\ slice_last 5 [1; 2; 3] = [1; 2; 3].
Proof. split; reflexivity. Qed.

Example join_values : join (py ", ") [py "a"; py "b"; py "c"] = py "a, b, c".
Proof. reflexivity. Qed.

(** ** Lists and slices *)

Lemma slice_last_length {A} (n : nat) (l : list A) :
  length (slice_last n l) = Nat.min n (length l).
Proof. unfold slice_last. rewrite length_drop. lia. Qed.

Lemma slice_last_short {A} (n : nat) (l : list A) :
  length l <= n -> slice_last n l = l.
Proof.
  intros H. unfold slice_last.
  replace (length l - n) with 0 by lia. reflexivity.
Qed.

Lemma slice_last_absorb {A} (n : nat) (a b : list A) :
  slice_last n (slice_last n a ++ b) = slice_last n (a ++ b).
Proof.
  unfold slice_last.
  rewrite !length_app, length_drop.
  destruct (decide (length a <= n)) as [Hle | Hgt].
  - replace (length a - n) with 0 by lia. simpl.
    now rewrite Nat.sub_0_r.
  - replace (length a - (length a - n) + length b - n) with (length b) by lia.
    replace (length a + length b - n) with ((length a - n) + length b) by lia.
    rewrite <- drop_drop.
    rewrite (drop_app_le a b (length a - n)) by lia.
    reflexivity.
Qed.

Lemma slice_last_app_long {A} (n : nat) (a b : list A) :
  n <= length b -> slice_last n (a ++ b) = slice_last n b.
Proof.
  intros H. unfold slice_last.
  rewrite length_app, drop_app_ge by lia.
  f_equal. lia.
Qed.

Lemma constructions_app (j k : list Event) :
  constructions (j ++ k) = constructions j + constructions k.
Proof. unfold constructions. now rewrite List.filter_app, length_app. Qed.

(** ** The activity log *)

Lemma add_activity_log_run (message : pystr) (w : World) :
  add_activity_log message w =
  (Ok tt,
   mkWorld (initialized w) (settings w) (rag w) (messages w)
     (slice_last 50 (activity_log w ++ [message]))
     ((journal w ++ [LogAppend message]) ++
      [Ui (st_sidebar_markdown (py "```" ++ NL ++ message ++ NL ++ py "```"))])).
Proof. reflexivity. Qed.

Lemma add_all_run (entries : list pystr) (w : World) :
  fst (add_all entries w) = Ok tt /\
  activity_log (snd (add_all entries w)) =
  fold_left (fun l m => slice_last 50 (l ++ [m])) entries (activity_log w).
Proof.
  revert w. induction entries as [| e rest IH]; intros w.
  - split; reflexivity.
  - change (add_all (e :: rest) w)
      with (add_all rest (snd (add_activity_log e w))).
    destruct (IH (snd (add_activity_log e w))) as [H1 H2].
    split; [exact H1 |]. rewrite H2. reflexivity.
Qed.

Lemma fold_cap (entries l0 : list pystr) :
  length l0 <= 50 ->
  fold_left (fun l m => slice_last 50 (l ++ [m])) entries l0
  = slice_last 50 (l0 ++ entries).
Proof.
  revert l0. induction entries as [| e rest IH]; intros l0 H; simpl.
  - rewrite app_nil_r. symmetry. now apply slice_last_short.
  - rewrite IH by (rewrite slice_last_length; lia).
    rewrite slice_last_absorb. now rewrite <- app_assoc.
Qed.

(** ** The cap is an invariant of every operation *)

Lemma keeps_ret P {A} (a : A) : keeps P (ret a).
Proof. intros w H. exact H. Qed.

Lemma keeps_raise P {A} (e : pyexc) : keeps P (@raise A e).
Proof. intros w H. exact H. Qed.

Lemma keeps_get P : keeps P get.
Proof. intros w H. exact H. Qed.

Lemma keeps_call P {A} (o : outcome A) : keeps P (call o).
Proof. destruct o; intros w H; exact H. Qed.

Lemma keeps_bind P {A B} (m : M A) (k : A -> M B) :
  keeps P m -> (forall a, keeps P (k a)) -> keeps P (bind m k).
Proof.
  intros Hm Hk w H. unfold bind. specialize (Hm w H).
  destruct (m w) as [[a | e] w']; cbn in *; [apply Hk; exact Hm | exact Hm].
Qed.

Lemma keeps_try_except P {A} (body : M A) (handler : pystr -> M A) :
  keeps P body -> (forall msg, keeps P (handler msg)) -> keeps P (try_except body handler).
Proof.
  intros Hb Hh w H. unfold try_except. specialize (Hb w H).
  destruct (body w) as [[a | [msg |]] w']; cbn in *; [exact Hb | apply Hh; exact Hb | exact Hb].
Qed.

Lemma keeps_modify (P : World -> Prop) (f : World -> World) :
  (forall w, P w -> P (f w)) -> keeps P (modify f).
Proof. intros Hf w H. apply Hf, H. Qed.

Lemma keeps_cap_emit (e : Event) : keeps log_capped (emit e).
Proof. intros w H. exact H. Qed.

Lemma keeps_cap_add_activity_log (message : pystr) :
  keeps log_capped (add_activity_log message).
Proof.
  intros w _. rewrite add_activity_log_run. unfold log_capped. cbn.
  rewrite slice_last_length. lia.
Qed.

Ltac keeps_cap_step :=
  lazymatch goal with
  | |- keeps _ (ret _) => apply keeps_ret
  | |- keeps _ (raise _) => apply keeps_raise
  | |- keeps _ get => apply keeps_get
  | |- keeps _ (call _) => apply keeps_call
  | |- keeps _ (emit _) => apply keeps_cap_emit
  | |- keeps _ (add_activity_log _) => apply keeps_cap_add_activity_log
  | |- keeps _ (modify _) => apply keeps_modify; intros ? Hcap; exact Hcap
  | |- keeps _ (bind _ _) => apply keeps_bind; [| intro]
  | |- keeps _ (try_except _ _) => apply keeps_try_except; [| intro]
  | |- keeps _ (if ?b then _ else _) => destruct b
  | |- keeps _ (match ?x with _ => _ end) => destruct x
  end.

Ltac keeps_cap := repeat keeps_cap_step.

Lemma keeps_cap_show_api_key_form env : keeps log_capped (show_api_key_form env).
Proof. unfold show_api_key_form. keeps_cap. Qed.

Lemma keeps_cap_test_api_key env : keeps log_capped (test_api_key env).
Proof.
  unfold test_api_key. keeps_cap; apply keeps_cap_show_api_key_form.
Qed.

Lemma keeps_cap_init_rag env : keeps log_capped (init_rag env).
Proof.
  unfold init_rag, new_LightRAG, get_llm_config, get_embedding_config.
  apply keeps_bind; [apply keeps_cap_test_api_key | intro ok].
  keeps_cap.
Qed.

Lemma keeps_cap_ensure_ready env : keeps log_capped (ensure_ready env).
Proof.
  unfold ensure_ready. apply keeps_bind; [apply keeps_get | intro w].
  destruct (negb (initialized w)); [| apply keeps_ret].
  apply keeps_bind; [apply keeps_cap_init_rag | intro; apply keeps_ret].
Qed.

Lemma keeps_cap_chat_turn env prompt : keeps log_capped (chat_turn env prompt).
Proof. unfold chat_turn, rag_aquery, append_message. keeps_cap. Qed.

Lemma keeps_cap_script_run env prompt : keeps log_capped (script_run env prompt).
Proof.
  unfold script_run. apply keeps_bind; [apply keeps_cap_ensure_ready | intros _].
  destruct prompt; [apply keeps_cap_chat_turn | apply keeps_ret].
Qed.

Lemma keeps_cap_handle_insert env text : keeps log_capped (handle_insert env text).
Proof.
  unfold handle_insert, rag_ainsert.
  apply keeps_bind; [apply keeps_get | intro w].
  destruct (rag w); [| apply keeps_ret].
  apply keeps_try_except; [| intro; keeps_cap].
  apply keeps_bind; [apply keeps_cap_test_api_key | intro ok].
  keeps_cap.
Qed.

Lemma keeps_cap_show_settings_dialog env form :
  keeps log_capped (show_settings_dialog env form).
Proof. unfold show_settings_dialog, check_index, handle_settings_update. keeps_cap. Qed.

Lemma keeps_cap_handle_chat_download env : keeps log_capped (handle_chat_download env).
Proof. unfold handle_chat_download. keeps_cap. Qed.

Lemma new_session_capped (key : pystr) : log_capped (new_session key).
Proof.
  unfold new_session, log_capped. destruct (truthy key); [| cbn; lia].
  rewrite add_activity_log_run. cbn. rewrite slice_last_length. lia.
Qed.

(** C3.  The activity log is a FIFO buffer of at most 50 entries.  Starting
    from a log within the cap (the session starts with an empty or one-entry
    log), after any sequence of [add_activity_log] calls the log holds at most
    50 entries, namely the last 50 of everything logged so far; once more
    than 50 entries were appended it is exactly the last 50 of those, in
    order.  The cap also survives every operation of the script: a script
    run, the settings dialog, an insertion and the export. *)
Theorem activity_log_fifo_cap (w : World) (entries : list pystr) :
  length (activity_log w) <= 50 ->
  (fst (add_all entries w) = Ok tt /\
   length (activity_log (snd (add_all entries w))) <= 50 /\
   activity_log (snd (add_all entries w)) = slice_last 50 (activity_log w ++ entries) /\
   (50 < length entries ->
    activity_log (snd (add_all entries w)) = skipn (length entries - 50) entries)) /\
  (forall env prompt, length (activity_log (snd (script_run env prompt w))) <= 50) /\
  (forall env form, length (activity_log (snd (show_settings_dialog env form w))) <= 50) /\
  (forall env text, length (activity_log (snd (handle_insert env text w))) <= 50) /\
  (forall env, length (activity_log (snd (handle_chat_download env w))) <= 50).
Proof.
  intros Hcap.
  destruct (add_all_run entries w) as [Hok Hlog].
  rewrite Hlog, fold_cap by exact Hcap.
  split; [| split; [| split; [| split]]].
  - split; [exact Hok |]. split; [| split].
    + rewrite slice_last_length. lia.
    + reflexivity.
    + intros Hlong. rewrite slice_last_app_long by lia. reflexivity.
  - intros env prompt. apply (keeps_cap_script_run env prompt w Hcap).
  - intros env form. apply (keeps_cap_show_settings_dialog env form w Hcap).
  - intros env text. apply (keeps_cap_handle_insert env text w Hcap).
  - intros env. apply (keeps_cap_handle_chat_download env w Hcap).
Qed.

Lemma activity_log_fifo_cap_witness :
  length (activity_log session0) <= 50 /\
  activity_log (snd (add_all (map str_int (seq 1 60)) session0))
  = map str_int (seq 11 50) /\
  length (activity_log (snd (script_run env_ok (Some (py "hello")) session0))) <= 50.
Proof.
  assert (H : length (activity_log session0) <= 50) by (vm_compute; lia).
  split; [exact H |].
  destruct (activity_log_fifo_cap session0 (map str_int (seq 1 60)) H)
    as ((_ & _ & _ & Hlast) & Hrun & _).
  split; [| apply Hrun].
  rewrite Hlast by (vm_compute; lia).
  vm_compute. reflexivity.
Defined.

(** ** Insertion before the engine exists *)

(** C9.  While [st.session_state.rag] is [None], [handle_insert] does nothing
    at all: it returns normally and leaves the session and the journal as they
    were, so no credential probe, no engine call, no log entry and no error
    message happen. *)
Theorem handle_insert_without_engine (env : Env) (text : pystr) (w : World) :
  rag w = None -> handle_insert env text w = (Ok tt, w).
Proof.
  intros H. unfold handle_insert, bind, get. rewrite H. reflexivity.
Qed.

Lemma handle_insert_without_engine_witness :
  rag session0 = None /\
  handle_insert env_ok (py "Marley was dead: to begin with.") session0 = (Ok tt, session0).
Proof.
  split; [reflexivity |].
  apply (handle_insert_without_engine env_ok _ session0). reflexivity.
Defined.

Lemma constructions_cons (e : Event) (j : list Event) :
  constructions (e :: j) = (if is_construction e then 1 else 0) + constructions j.
Proof. unfold constructions. cbn. destruct (is_construction e); reflexivity. Qed.

Lemma constructions_nil : constructions [] = 0.
Proof. reflexivity. Qed.

(** bring a journal to the shape [old ++ e1 :: e2 :: ...] and count *)
Ltac norm_journal :=
  unfold logged in *;
  rewrite <- ?(@List.app_assoc Event); cbn [app];
  rewrite ?constructions_app, ?constructions_cons, ?constructions_nil;
  cbn [is_construction Nat.add];
  rewrite ?Nat.add_0_r.

(** bring a log to the shape [slice_last 50 (old ++ [e1; e2; ...])] *)
Ltac norm_log :=
  repeat (rewrite slice_last_absorb || rewrite <- (@List.app_assoc pystr));
  cbn [app].

(** ** The credential probe *)

Ltac unfold_ops :=
  unfold ensure_ready, init_rag, test_api_key, show_api_key_form, new_LightRAG,
    get_llm_config, get_embedding_config, add_activity_log, append_message,
    handle_settings_update, check_index, rag_aquery, rag_ainsert,
    emit, modify, get, call, try_except, bind, ret, raise in *.

Lemma test_api_key_pass (env : Env) (w : World) (r : pystr) :
  truthy (api_key (settings w)) = true ->
  embeddings_create env = Returns tt ->
  chat_completions_create env = Returns r ->
  test_api_key env w =
  (Ok true,
   mkWorld (initialized w) (settings w) (rag w) (messages w)
     (slice_last 50 (activity_log w ++ [probe_log_entry r]))
     (journal w ++
      [EmbeddingsCreate (api_key (settings w));
       ChatCompletionsCreate (api_key (settings w))] ++
      logged (probe_log_entry r))).
Proof.
  intros Hk He Hc. unfold_ops. rewrite Hk, He, Hc. cbn.
  unfold probe_log_entry, logged. rewrite <- !(@List.app_assoc Event). reflexivity.
Qed.

Lemma test_api_key_fail (env : Env) (w : World) :
  credential_ok env w = false ->
  exists delta,
    journal (snd (test_api_key env w)) = journal w ++ delta /\
    In (Ui st_api_key_form) delta /\
    engine_calls delta = [] /\
    log_appends delta = [] /\
    msg_appends delta = [] /\
    rag (snd (test_api_key env w)) = rag w /\
    messages (snd (test_api_key env w)) = messages w /\
    activity_log (snd (test_api_key env w)) = activity_log w /\
    (if resubmitting env then
       fst (test_api_key env w) = Exc RerunException /\
       initialized (snd (test_api_key env w)) = false /\
       settings (snd (test_api_key env w))
         = set_api_key (form_new_api_key env) (settings w)
     else
       fst (test_api_key env w) = Ok false /\
       initialized (snd (test_api_key env w)) = initialized w /\
       settings (snd (test_api_key env w)) = settings w).
Proof.
  unfold credential_ok, probe_passes, resubmitting. intros H.
  unfold_ops.
  destruct (truthy (api_key (settings w))) eqn:Hk; cbn in H |- *.
  - destruct (embeddings_create env) as [[] | m1] eqn:He; cbn.
    + destruct (chat_completions_create env) as [r | m2] eqn:Hc; [discriminate |]; cbn.
      destruct (form_submitted env && truthy (form_new_api_key env)); cbn;
        eexists; (split; [rewrite <- !(@List.app_assoc Event); reflexivity |]); cbn; intuition.
    + destruct (form_submitted env && truthy (form_new_api_key env)); cbn;
        eexists; (split; [rewrite <- !(@List.app_assoc Event); reflexivity |]); cbn; intuition.
  - destruct (form_submitted env && truthy (form_new_api_key env)); cbn;
      eexists; (split; [rewrite <- !(@List.app_assoc Event); reflexivity |]); cbn; intuition.
Qed.

Lemma credential_ok_inv (env : Env) (w : World) :
  credential_ok env w = true ->
  truthy (api_key (settings w)) = true /\
  embeddings_create env = Returns tt /\
  exists r, chat_completions_create env = Returns r.
Proof.
  unfold credential_ok, probe_passes. intros H.
  destruct (truthy (api_key (settings w))); [| discriminate].
  destruct (embeddings_create env) as [[] | ?]; [| discriminate].
  destruct (chat_completions_create env) as [r | ?]; [| discriminate].
  eauto.
Qed.

(** ** Engine initialisation *)

Lemma init_rag_credential_fail (env : Env) (w : World) :
  credential_ok env w = false -> init_rag env w = test_api_key env w.
Proof.
  intros H. destruct (test_api_key_fail env w H) as (delta & _ & _ & _ & _ & _ & _ & _ & _ & Hr).
  unfold init_rag, bind.
  destruct (test_api_key env w) as [[[|] | e] w']; cbn in *; try reflexivity.
  destruct (resubmitting env); destruct Hr as [Hr _]; discriminate.
Qed.

Lemma init_rag_pass (env : Env) (w : World) (r : pystr) (dim max_tokens : Z) :
  truthy (api_key (settings w)) = true ->
  embeddings_create env = Returns tt ->
  chat_completions_create env = Returns r ->
  llm_model (settings w) ∈ AVAILABLE_LLM_MODELS ->
  lookup_config (embedding_model (settings w)) embedding_configs = Some (dim, max_tokens) ->
  lightrag_new env = Returns tt ->
  let e := engine_for (settings w) dim max_tokens (constructions (journal w)) in
  let stats :=
    py "[*] Records: " ++ str_int (graph_nodes env) ++ py " nodes, " ++
    str_int (graph_edges env) ++ py " edges" in
  let entries :=
    [probe_log_entry r] ++ (if Nat.eqb (graph_nodes env) 0 then [] else [stats]) in
  init_rag env w =
  (Ok true,
   mkWorld true (settings w) (Some e) (messages w)
     (slice_last 50 (activity_log w ++ entries))
     (journal w ++
      [EmbeddingsCreate (api_key (settings w));
       ChatCompletionsCreate (api_key (settings w))] ++
      logged (probe_log_entry r) ++
      (if working_dir_exists env then [] else [Makedirs WORKING_DIR]) ++
      [NewLightRAG e] ++
      (if Nat.eqb (graph_nodes env) 0 then [] else logged stats))).
Proof.
  intros Hk He Hc Hllm Hemb Hnew. cbn zeta.
  unfold init_rag at 1. unfold bind at 1.
  rewrite (test_api_key_pass env w r Hk He Hc). cbn [negb].
  unfold AVAILABLE_LLM_MODELS in Hllm.
  unfold_ops. cbn.
  destruct (working_dir_exists env); cbn;
    rewrite (bool_decide_eq_true_2 _ Hllm); cbn;
    rewrite Hemb; cbn; rewrite Hnew; cbn;
    destruct (Nat.eqb (graph_nodes env) 0); cbn;
    norm_journal; rewrite ?slice_last_absorb, <- ?(@List.app_assoc pystr);
    reflexivity.
Qed.

(** The flag is only ever raised by a run of [init_rag] in which the probe
    passed, both model names were known and the constructor returned. *)
Lemma init_rag_flag_inv (env : Env) (w : World) :
  initialized w = false ->
  initialized (snd (init_rag env w)) = true ->
  exists r dim max_tokens,
    truthy (api_key (settings w)) = true /\
    embeddings_create env = Returns tt /\
    chat_completions_create env = Returns r /\
    llm_model (settings w) ∈ AVAILABLE_LLM_MODELS /\
    lookup_config (embedding_model (settings w)) embedding_configs
      = Some (dim, max_tokens) /\
    lightrag_new env = Returns tt.
Proof.
  intros Hinit Hflag.
  destruct (credential_ok env w) eqn:Hcred.
  - destruct (credential_ok_inv env w Hcred) as (Hk & He & r & Hc).
    exists r.
    revert Hflag. unfold init_rag at 1. unfold bind at 1.
    rewrite (test_api_key_pass env w r Hk He Hc). cbn [negb].
    unfold_ops. cbn.
    destruct (working_dir_exists env); cbn;
      (destruct (decide (llm_model (settings w) ∈ [DEFAULT_LLM_MODEL; py "gpt-4o-mini"]))
         as [Hllm | Hllm];
       [ rewrite (bool_decide_eq_true_2 _ Hllm)
       | rewrite (bool_decide_eq_false_2 _ Hllm); cbn; congruence ]); cbn;
      (destruct (lookup_config (embedding_model (settings w)) embedding_configs)
         as [[dim max_tokens] |] eqn:Hemb; cbn; [| congruence]);
      (destruct (lightrag_new env) as [[] | msg] eqn:Hnew; cbn; [| congruence]);
      intros _; exists dim, max_tokens; auto 10.
  - rewrite (init_rag_credential_fail env w Hcred) in Hflag.
    destruct (test_api_key_fail env w Hcred)
      as (delta & _ & _ & _ & _ & _ & _ & _ & _ & Hr).
    destruct (resubmitting env); destruct Hr as (_ & Hi & _); congruence.
Qed.

Lemma ensure_ready_init (env : Env) (v : World) :
  initialized v = true -> ensure_ready env v = (Ok tt, v).
Proof. intros Hv. unfold ensure_ready, bind, get. rewrite Hv. reflexivity. Qed.

Lemma ensure_ready_uninit (env : Env) (w : World) :
  initialized w = false ->
  ensure_ready env w =
  (match fst (init_rag env w) with Ok _ => Ok tt | Exc e => Exc e end,
   snd (init_rag env w)).
Proof.
  intros Hinit. unfold ensure_ready, bind, get. rewrite Hinit. cbn [negb].
  destruct (init_rag env w) as [[b | e] w']; reflexivity.
Qed.

Lemma no_engine_calls_no_constructions (delta : list Event) :
  engine_calls delta = [] -> constructions delta = 0.
Proof.
  unfold engine_calls, constructions.
  induction delta as [| [] d IH]; cbn; intros H; try discriminate; auto.
Qed.

Lemma init_rag_pass_count (env : Env) (w : World) (r : pystr) (dim max_tokens : Z) :
  truthy (api_key (settings w)) = true ->
  embeddings_create env = Returns tt ->
  chat_completions_create env = Returns r ->
  llm_model (settings w) ∈ AVAILABLE_LLM_MODELS ->
  lookup_config (embedding_model (settings w)) embedding_configs = Some (dim, max_tokens) ->
  lightrag_new env = Returns tt ->
  fst (init_rag env w) = Ok true /\
  initialized (snd (init_rag env w)) = true /\
  settings (snd (init_rag env w)) = settings w /\
  rag (snd (init_rag env w))
    = Some (engine_for (settings w) dim max_tokens (constructions (journal w))) /\
  constructions (journal (snd (init_rag env w))) = S (constructions (journal w)).
Proof.
  intros Hk He Hc Hllm Hemb Hnew.
  rewrite (init_rag_pass env w r dim max_tokens Hk He Hc Hllm Hemb Hnew).
  cbn [fst snd initialized settings rag journal].
  repeat split.
  destruct (working_dir_exists env), (Nat.eqb (graph_nodes env) 0);
    norm_journal; lia.
Qed.

(** ** Reuse of the engine *)

(** C1, as stated, fails: the guard compares no settings.  It reads the flag,
    and Apply Settings clears the flag whether or not a value was changed.
    Here the settings dialog is run on the initialised session with every
    widget at its current value and Apply pressed.  The settings are still
    the ones the engine was built from, yet the next guard run builds a
    second engine, which replaces the first. *)
Lemma apply_without_change_rebuilds :
  let form :=
    form_of (settings session1) (api_key (settings session1))
            (llm_model (settings session1)) true in
  let w1 := snd (show_settings_dialog env_ok form session1) in
  let w2 := snd (ensure_ready env_ok w1) in
  initialized session1 = true /\
  rag session1 = Some (engine_for (settings session1) 1536 8192 0) /\
  constructions (journal session1) = 1 /\
  settings w1 = settings session1 /\
  rag w1 = rag session1 /\
  constructions (journal w1) = 1 /\
  fst (ensure_ready env_ok w1) = Ok tt /\
  constructions (journal w2) = 2 /\
  rag w2 = Some (engine_for (settings session1) 1536 8192 1) /\
  rag w2 <> rag w1.
Proof.
  cbn zeta.
  do 9 (split; [vm_compute; reflexivity |]).
  vm_compute. discriminate.
Qed.

(** C1, amended.  While the [initialized] flag is set, the guard that runs on
    every script run returns at once: the session, its engine and the journal
    are unchanged, whatever the outside would answer and whatever the
    settings are (the guard reads the flag only).  Hence, for two consecutive
    runs of the guard from an uninitialised session of which the first
    succeeds in initialising, the first run calls the [LightRAG] constructor
    exactly once and the second not at all, and the engine installed by the
    first is still the session's engine after the second. *)
Theorem ensure_ready_builds_once (env1 env2 : Env) (w : World) :
  (initialized w = true -> ensure_ready env2 w = (Ok tt, w)) /\
  (initialized w = false ->
   initialized (snd (ensure_ready env1 w)) = true ->
   let w1 := snd (ensure_ready env1 w) in
   let w2 := snd (ensure_ready env2 w1) in
   fst (ensure_ready env1 w) = Ok tt /\
   ensure_ready env2 w1 = (Ok tt, w1) /\
   (exists e, rag w1 = Some e /\ rag w2 = Some e) /\
   constructions (journal w1) = S (constructions (journal w)) /\
   constructions (journal w2) = S (constructions (journal w))).
Proof.
  split; [apply ensure_ready_init |].
  intros Hinit Hflag. cbn zeta.
  rewrite (ensure_ready_init env2 _ Hflag). cbn [fst snd].
  rewrite (ensure_ready_uninit env1 w Hinit) in Hflag |- *.
  cbn [fst snd] in Hflag |- *.
  destruct (init_rag_flag_inv env1 w Hinit Hflag)
    as (r & dim & mt & Hk & He & Hc & Hllm & Hemb & Hnew).
  destruct (init_rag_pass_count env1 w r dim mt Hk He Hc Hllm Hemb Hnew)
    as (Hres & _ & _ & Hrag & Hcount).
  rewrite Hres. repeat split; eauto.
Qed.

Lemma ensure_ready_builds_once_witness :
  constructions (journal session0) = 0 /\
  ensure_ready env_rejected session1 = (Ok tt, session1) /\
  ensure_ready env_rejected (snd (ensure_ready env_ok session0))
    = (Ok tt, snd (ensure_ready env_ok session0)) /\
  constructions
    (journal (snd (ensure_ready env_rejected (snd (ensure_ready env_ok session0))))) = 1.
Proof.
  assert (H0 : initialized session0 = false) by reflexivity.
  assert (H1 : initialized (snd (ensure_ready env_ok session0)) = true)
    by (vm_compute; reflexivity).
  assert (H2 : initialized session1 = true) by (vm_compute; reflexivity).
  destruct (ensure_ready_builds_once env_ok env_rejected session1) as [Hreuse _].
  destruct (ensure_ready_builds_once env_ok env_rejected session0) as [_ Hpair].
  destruct (Hpair H0 H1) as (_ & Hsame & _ & _ & Hcount).
  split; [reflexivity |]. split; [exact (Hreuse H2) |].
  split; [exact Hsame |]. exact Hcount.
Defined.

(** ** Credential failure *)

(** C6, as stated, fails: once the engine is initialised the guard does not
    look at the credential.  Here the provider starts to reject the key of an
    initialised session.  An insertion runs the probe, which fails and is
    reported; the flag stays set.  The guard of the next script run then
    returns normally: no error, no credential form, the session unchanged. *)
Lemma ensure_ready_skips_probe_when_initialized :
  let w := snd (handle_insert env_rejected (py "Marley was dead: to begin with.") session1) in
  errors_shown (skipn (length (journal session1)) (journal w))
    = [api_error_message (py "Error code: 401 - Incorrect API key provided")] /\
  credential_ok env_rejected w = false /\
  initialized w = true /\
  ensure_ready env_rejected w = (Ok tt, w) /\
  ~ In (Ui st_api_key_form)
       (skipn (length (journal w)) (journal (snd (ensure_ready env_rejected w)))).
Proof.
  cbn zeta.
  split; [vm_compute; reflexivity |].
  split; [vm_compute; reflexivity |].
  split; [vm_compute; reflexivity |].
  split; [vm_compute; reflexivity |].
  vm_compute. intros [].
Qed.

(** C6, amended.  When the credential is empty or the probe raises:
    - the guard never builds an engine: no call into the engine is made and
      the session's engine reference is left as it was;
    - if the engine is already initialised the guard does not examine the
      credential at all and returns with the session unchanged;
    - if it is not, [init_rag] shows the credential form, leaves the flag
      unset, and returns [False] -- unless a new key is being submitted
      through that form, in which case the key is stored and the script run
      is restarted. *)
Theorem credential_failure_builds_nothing (env : Env) (w : World) :
  credential_ok env w = false ->
  let w' := snd (ensure_ready env w) in
  rag w' = rag w /\
  (exists delta, journal w' = journal w ++ delta /\ engine_calls delta = []) /\
  constructions (journal w') = constructions (journal w) /\
  (initialized w = true -> ensure_ready env w = (Ok tt, w)) /\
  (initialized w = false ->
   w' = snd (init_rag env w) /\
   fst (init_rag env w) = (if resubmitting env then Exc RerunException else Ok false) /\
   fst (ensure_ready env w) = (if resubmitting env then Exc RerunException else Ok tt) /\
   initialized w' = false /\
   settings w' =
     (if resubmitting env
      then set_api_key (form_new_api_key env) (settings w)
      else settings w) /\
   In (Ui st_api_key_form) (skipn (length (journal w)) (journal w'))).
Proof.
  intros Hcred. cbn zeta.
  destruct (initialized w) eqn:Hinit.
  - rewrite (ensure_ready_init env w Hinit). cbn [snd].
    split; [reflexivity |].
    split; [exists []; split; [now rewrite app_nil_r | reflexivity] |].
    split; [reflexivity |].
    split; [reflexivity | discriminate].
  - rewrite (ensure_ready_uninit env w Hinit). cbn [fst snd].
    rewrite (init_rag_credential_fail env w Hcred).
    destruct (test_api_key_fail env w Hcred)
      as (delta & Hj & Hform & Hcalls & _ & _ & Hrag & _ & _ & Hr).
    split; [exact Hrag |].
    split; [exists delta; auto |].
    split.
    { rewrite Hj, constructions_app, (no_engine_calls_no_constructions _ Hcalls). lia. }
    split; [discriminate |].
    intros _. split; [reflexivity |].
    split; [destruct (resubmitting env); tauto |].
    split; [destruct (resubmitting env); destruct Hr as (Hres & _); rewrite Hres; reflexivity |].
    split; [destruct (resubmitting env); destruct Hr as (_ & Hi & _); congruence |].
    split; [destruct (resubmitting env); destruct Hr as (_ & _ & Hs); exact Hs |].
    rewrite Hj, drop_app_length. exact Hform.
Qed.

Lemma credential_failure_builds_nothing_witness :
  let env_new_key :=
    mkEnv (py "sk-new") true (Raises (py "Error code: 401")) (Returns (py "ok")) true
          (Returns tt) 3 2 (Returns (py "world")) (Returns true)
          clock_noon (fun _ => py "0.7") quote_repr in
  credential_ok env_rejected session0 = false /\
  rag (snd (ensure_ready env_rejected session0)) = None /\
  constructions (journal (snd (ensure_ready env_rejected session0))) = 0 /\
  fst (init_rag env_rejected session0) = Ok false /\
  settings (snd (ensure_ready env_rejected session0)) = settings session0 /\
  fst (ensure_ready env_new_key session0) = Exc RerunException /\
  api_key (settings (snd (ensure_ready env_new_key session0))) = py "sk-new" /\
  constructions (journal (snd (ensure_ready env_new_key session0))) = 0.
Proof.
  cbn zeta.
  assert (H : credential_ok env_rejected session0 = false) by (vm_compute; reflexivity).
  destruct (credential_failure_builds_nothing env_rejected session0 H)
    as (Hrag & _ & Hcount & _ & Huninit).
  destruct (Huninit eq_refl) as (_ & Hres & _ & _ & Hset & _).
  destruct (credential_failure_builds_nothing
              (mkEnv (py "sk-new") true (Raises (py "Error code: 401")) (Returns (py "ok"))
                 true (Returns tt) 3 2 (Returns (py "world")) (Returns true)
                 clock_noon (fun _ => py "0.7") quote_repr)
              session0)
    as (_ & _ & Hcount' & _ & Huninit').
  { vm_compute; reflexivity. }
  destruct (Huninit' eq_refl) as (_ & _ & Hres' & _ & Hset' & _).
  split; [exact H |]. split; [exact Hrag |]. split; [exact Hcount |].
  split; [exact Hres |]. split; [exact Hset |]. split; [exact Hres' |].
  split; [rewrite Hset'; reflexivity | exact Hcount'].
Defined.

(** ** The settings dialog *)

Lemma show_settings_dialog_run (env : Env) (form : SettingsForm) (w : World) :
  llm_model (settings w) ∈ AVAILABLE_LLM_MODELS ->
  embedding_model (settings w) ∈ AVAILABLE_EMBEDDER_MODELS ->
  search_mode (settings w) ∈ SEARCH_MODES ->
  show_settings_dialog env form w =
  (if w_apply form then Exc RerunException else Ok tt,
   mkWorld
     (if w_apply form then false
      else if bool_decide (w_api_key form = api_key (settings w)) then initialized w
      else false)
     (form_settings form) (rag w) (messages w) (activity_log w)
     (journal w ++ if w_apply form then [Ui st_rerun] else [])).
Proof.
  intros Hllm Hemb Hmode.
  unfold show_settings_dialog. unfold_ops.
  destruct w as [ini [sm lm em sp t k] r ms al j]. cbn in *.
  destruct (bool_decide (w_api_key form = k)) eqn:Hkey; cbn;
    rewrite (bool_decide_eq_true_2 _ Hllm); cbn;
    rewrite (bool_decide_eq_true_2 _ Hemb); cbn;
    rewrite (bool_decide_eq_true_2 _ Hmode); cbn;
    destruct (w_apply form); cbn; rewrite ?app_nil_r;
    unfold form_settings;
    try (apply bool_decide_eq_true_1 in Hkey; subst k);
    reflexivity.
Qed.

Lemma lookup_config_available (model : pystr) :
  model ∈ AVAILABLE_EMBEDDER_MODELS ->
  exists dim max_tokens, lookup_config model embedding_configs = Some (dim, max_tokens).
Proof.
  unfold AVAILABLE_EMBEDDER_MODELS. intros H.
  apply elem_of_cons in H as [-> | H]; [eexists _, _; reflexivity |].
  apply elem_of_cons in H as [-> | H]; [eexists _, _; reflexivity |].
  inversion H.
Qed.

(** C4, as stated, fails: the user replaces the key by a mistyped one and
    applies.  The dialog marks the engine invalid, but the next guard run, in
    which the provider rejects the key, builds nothing and the session still
    holds the engine built before. *)
Lemma rejected_key_change_builds_nothing :
  let w1 := snd (show_settings_dialog env_ok form_typo session1) in
  let w2 := snd (ensure_ready env_rejected w1) in
  api_key (settings w1) <> api_key (settings session1) /\
  initialized w1 = false /\
  constructions (journal w2) = constructions (journal session1) /\
  rag w2 = rag session1 /\
  rag session1 <> None.
Proof.
  cbn zeta.
  split; [vm_compute; discriminate |].
  split; [vm_compute; reflexivity |].
  split; [vm_compute; reflexivity |].
  split; [vm_compute; reflexivity |].
  vm_compute; discriminate.
Qed.

(** C4, amended.  Run the settings dialog on a session whose current choices
    are among the offered options, with Apply Settings pressed or with a
    changed credential.  Then the session holds the dialog's values and the
    engine is marked invalid (nothing is built or dropped yet).  On the next
    guard run:
    - if the credential passes the probe and the constructor returns, exactly
      one engine is constructed, from the new settings, and it replaces the
      session's engine;
    - if the credential is empty or rejected, nothing is constructed, the flag
      stays unset and the engine reference is the one from before. *)
Theorem settings_update_forces_rebuild (env_d env : Env) (form : SettingsForm) (w : World) :
  llm_model (settings w) ∈ AVAILABLE_LLM_MODELS ->
  embedding_model (settings w) ∈ AVAILABLE_EMBEDDER_MODELS ->
  search_mode (settings w) ∈ SEARCH_MODES ->
  w_apply form = true \/ w_api_key form <> api_key (settings w) ->
  let w1 := snd (show_settings_dialog env_d form w) in
  let w2 := snd (ensure_ready env w1) in
  initialized w1 = false /\
  settings w1 = form_settings form /\
  rag w1 = rag w /\
  constructions (journal w1) = constructions (journal w) /\
  (credential_ok env w1 = true ->
   w_llm_model form ∈ AVAILABLE_LLM_MODELS ->
   w_embedding_model form ∈ AVAILABLE_EMBEDDER_MODELS ->
   lightrag_new env = Returns tt ->
   fst (ensure_ready env w1) = Ok tt /\
   initialized w2 = true /\
   constructions (journal w2) = S (constructions (journal w1)) /\
   exists dim max_tokens,
     rag w2 = Some (engine_for (form_settings form) dim max_tokens
                               (constructions (journal w1)))) /\
  (credential_ok env w1 = false ->
   initialized w2 = false /\
   constructions (journal w2) = constructions (journal w1) /\
   rag w2 = rag w).
Proof.
  intros Hllm Hemb Hmode Hchange. cbn zeta.
  rewrite (show_settings_dialog_run env_d form w Hllm Hemb Hmode). cbn [snd].
  set (w1 := mkWorld _ _ _ _ _ _).
  assert (Hinit : initialized w1 = false).
  { subst w1. cbn. destruct (w_apply form); [reflexivity |].
    destruct Hchange as [? | Hne]; [discriminate |].
    now rewrite (bool_decide_eq_false_2 _ Hne). }
  assert (Hcount : constructions (journal w1) = constructions (journal w)).
  { subst w1. cbn. destruct (w_apply form); norm_journal; reflexivity. }
  split; [exact Hinit |]. split; [reflexivity |]. split; [reflexivity |].
  split; [exact Hcount |].
  rewrite (ensure_ready_uninit env w1 Hinit). cbn [fst snd].
  split.
  - intros Hcred Hllm' Hemb' Hnew.
    destruct (credential_ok_inv env w1 Hcred) as (Hk & He & r & Hc).
    destruct (lookup_config_available _ Hemb') as (dim & mt & Hcfg).
    destruct (init_rag_pass_count env w1 r dim mt Hk He Hc Hllm' Hcfg Hnew)
      as (Hres & Hflag & _ & Hrag & Hn).
    rewrite Hres. repeat split; eauto.
  - intros Hcred.
    rewrite (init_rag_credential_fail env w1 Hcred).
    destruct (test_api_key_fail env w1 Hcred)
      as (delta & Hj & _ & Hcalls & _ & _ & Hrag & _ & _ & Hr).
    split; [destruct (resubmitting env); destruct Hr as (_ & Hi & _); congruence |].
    split; [| exact Hrag].
    rewrite Hj, constructions_app, (no_engine_calls_no_constructions _ Hcalls). lia.
Qed.

Lemma settings_update_forces_rebuild_witness :
  let w1 := snd (show_settings_dialog env_ok form_model session1) in
  let w2 := snd (ensure_ready env_ok w1) in
  initialized w1 = false /\
  llm_model (settings w1) = py "gpt-4o-mini" /\
  initialized w2 = true /\
  constructions (journal w2) = 2 /\
  (exists dim max_tokens,
     rag w2 = Some (engine_for (form_settings form_model) dim max_tokens 1)) /\
  constructions
    (journal (snd (ensure_ready env_rejected
                     (snd (show_settings_dialog env_ok form_typo session1))))) = 1.
Proof.
  cbn zeta.
  assert (Hllm : llm_model (settings session1) ∈ AVAILABLE_LLM_MODELS)
    by (vm_compute; left).
  assert (Hemb : embedding_model (settings session1) ∈ AVAILABLE_EMBEDDER_MODELS)
    by (vm_compute; left).
  assert (Hmode : search_mode (settings session1) ∈ SEARCH_MODES)
    by (vm_compute; do 3 right; left).
  destruct (settings_update_forces_rebuild env_ok env_ok form_model session1
              Hllm Hemb Hmode (or_introl eq_refl))
    as (Hinit & Hset & _ & Hcount & Hpass & _).
  destruct Hpass as (_ & Hflag & Hn & Hrag).
  { vm_compute; reflexivity. }
  { vm_compute; right; left. }
  { vm_compute; left. }
  { reflexivity. }
  destruct (settings_update_forces_rebuild env_ok env_rejected form_typo session1
              Hllm Hemb Hmode (or_introl eq_refl))
    as (_ & _ & _ & Hcount' & _ & Hfail).
  destruct Hfail as (_ & Hn' & _).
  { vm_compute; reflexivity. }
  split; [exact Hinit |].
  split; [rewrite Hset; reflexivity |].
  split; [exact Hflag |].
  split; [rewrite Hn, Hcount; vm_compute; reflexivity |].
  split; [rewrite Hcount in Hrag; exact Hrag |].
  rewrite Hn', Hcount'. vm_compute; reflexivity.
Defined.

(** ** The chat turn *)

Lemma chat_turn_failure_run (env : Env) (prompt : pystr) (w : World) (msg : pystr) :
  truthy prompt = true ->
  aquery_raises env w = Some msg ->
  chat_turn env prompt w =
  (Ok tt,
   mkWorld (initialized w) (settings w) (rag w)
     (messages w ++ [fallback_message (settings w) msg])
     (slice_last 50
        (activity_log w ++
         [log_line (py "[?] Q: ") prompt; error_entry msg; error_entry msg]))
     (journal w ++
      [Ui (st_write prompt)] ++
      logged (log_line (py "[?] Q: ") prompt) ++
      [Ui (st_status (py "Searching and generating response..."))] ++
      aquery_event w prompt ++
      [LoggerError (py "Error generating response: " ++ msg)] ++
      logged (error_entry msg) ++
      [MsgAppend (fallback_message (settings w) msg);
       Ui (st_write FALLBACK_RESPONSE)] ++
      logged (error_entry msg))).
Proof.
  intros Hp Hraise. unfold chat_turn. rewrite Hp. cbn [negb].
  unfold aquery_raises, aquery_event in *. unfold_ops. cbn.
  destruct (rag w) as [e |] eqn:Hrag; cbn.
  - destruct (aquery env) as [resp | m] eqn:Haq; [discriminate |].
    injection Hraise as ->. cbn.
    norm_journal. norm_log.
    rewrite <- Hrag. reflexivity.
  - injection Hraise as <-. cbn.
    norm_journal. norm_log.
    rewrite <- Hrag. reflexivity.
Qed.

Lemma chat_turn_success_run (env : Env) (prompt : pystr) (w : World)
    (e : LightRAG) (response : pystr) :
  truthy prompt = true ->
  rag w = Some e ->
  aquery env = Returns response ->
  chat_turn env prompt w =
  (Ok tt,
   mkWorld (initialized w) (settings w) (rag w)
     (messages w ++ [success_message env (settings w) prompt response])
     (slice_last 50
        (activity_log w ++
         [log_line (py "[?] Q: ") prompt; log_line (py "[@] A: ") response]))
     (journal w ++
      [Ui (st_write prompt)] ++
      logged (log_line (py "[?] Q: ") prompt) ++
      [Ui (st_status (py "Searching and generating response..."));
       Aquery e prompt (search_mode (settings w));
       Ui (st_expander
             (render_query_info (settings w) (prompt_fingerprint prompt))
             [py "**Query Details:**";
              py "- Search Mode: " ++ search_mode (settings w);
              py "- LLM Model: " ++ llm_model (settings w);
              py "- Embedding Model: " ++ embedding_model (settings w);
              py "- Temperature: " ++ str_float env (temperature (settings w));
              py "- Prompt Hash: " ++ prompt_fingerprint prompt]);
       MsgAppend (success_message env (settings w) prompt response);
       Ui (st_write response)] ++
      logged (log_line (py "[@] A: ") response))).
Proof.
  intros Hp Hrag Haq. unfold chat_turn. rewrite Hp. cbn [negb].
  unfold_ops. cbn. rewrite Hrag. cbn. rewrite Haq. cbn.
  norm_journal. norm_log.
  rewrite <- Hrag. reflexivity.
Qed.

Lemma chat_turn_returns (env : Env) (prompt : pystr) (w : World) :
  fst (chat_turn env prompt w) = Ok tt.
Proof.
  destruct (truthy prompt) eqn:Hp.
  - destruct (aquery_raises env w) as [msg |] eqn:Hr.
    + now rewrite (chat_turn_failure_run env prompt w msg Hp Hr).
    + unfold aquery_raises in Hr.
      destruct (rag w) as [e |] eqn:Hrag; [| discriminate].
      destruct (aquery env) as [resp | m] eqn:Haq; [| discriminate].
      now rewrite (chat_turn_success_run env prompt w e resp Hp Hrag Haq).
  - unfold chat_turn. rewrite Hp. reflexivity.
Qed.

Lemma hex_length (n : nat) (h : Z) : length (XXH64.hex n h) = n.
Proof. induction n as [| n IH]; cbn; [reflexivity | now rewrite IH]. Qed.

Lemma hex_digit_is_hex (d : Z) : (0 <= d < 16)%Z -> is_hex (XXH64.hex_digit d) = true.
Proof.
  intros Hd. unfold XXH64.hex_digit, is_hex.
  destruct (Z.ltb_spec d 10).
  - apply orb_true_intro. left. apply andb_true_intro.
    split; apply N.leb_le; lia.
  - apply orb_true_intro. right. apply andb_true_intro.
    split; apply N.leb_le; lia.
Qed.

Lemma hex_is_hex (n : nat) (h : Z) : Forall (fun c => is_hex c = true) (XXH64.hex n h).
Proof.
  induction n as [| n IH]; cbn [XXH64.hex]; constructor; [| exact IH].
  apply hex_digit_is_hex.
  change 15%Z with (Z.ones 4). rewrite Z.land_ones by lia.
  apply Z.mod_pos_bound. lia.
Qed.

Lemma prompt_fingerprint_shape (prompt : pystr) :
  length (prompt_fingerprint prompt) = 8 /\
  Forall (fun c => is_hex c = true) (prompt_fingerprint prompt).
Proof.
  unfold prompt_fingerprint, XXH64.hexdigest. split.
  - rewrite length_take, hex_length. reflexivity.
  - apply Forall_take, hex_is_hex.
Qed.

Lemma chat_turn_failure_appends (env : Env) (prompt : pystr) (w : World) (msg : pystr) :
  truthy prompt = true ->
  aquery_raises env w = Some msg ->
  let delta := skipn (length (journal w)) (journal (snd (chat_turn env prompt w))) in
  msg_appends delta = [fallback_message (settings w) msg] /\
  log_appends delta = [log_line (py "[?] Q: ") prompt; error_entry msg; error_entry msg].
Proof.
  intros Hp Hr. cbn zeta.
  rewrite (chat_turn_failure_run env prompt w msg Hp Hr). cbn [snd journal].
  rewrite drop_app_length. unfold aquery_event, logged.
  destruct (rag w); split; reflexivity.
Qed.

(** C2, as stated, fails on two counts.  The engine raises an exception whose
    [str] is empty: the fallback message is appended, but its [error] entry is
    the empty string, and of the current settings its metadata carries neither
    the temperature nor the system prompt nor the credential. *)
Lemma fallback_metadata_shortfall :
  aquery env_silent_failure = Raises [] /\
  exists m,
    messages (snd (chat_turn env_silent_failure (py "hello") session1)) = [m] /\
    content m = FALLBACK_RESPONSE /\
    metadata m !! "error" = Some (VStr []) /\
    metadata m !! "temperature" = None /\
    metadata m !! "system_prompt" = None /\
    metadata m !! "api_key" = None.
Proof.
  split; [reflexivity |].
  eexists. split; [vm_compute; reflexivity |].
  repeat split; vm_compute; reflexivity.
Qed.

(** C2, amended.  A chat turn always returns normally.  When the engine's
    query call raises (or there is no engine to call), exactly one message is
    appended to the history: its role is assistant, its content is the fixed
    apology, and its metadata has exactly four entries: [error], holding the
    [str] of the exception as it is (possibly empty), and the [search_mode],
    [llm_model] and [embedding_model] of the current settings.  It has no
    [query_info], no [temperature] and no [timestamp]. *)
Theorem query_failure_yields_fallback (env : Env) (prompt : pystr) (w : World) (msg : pystr) :
  fst (chat_turn env prompt w) = Ok tt /\
  (truthy prompt = true ->
   aquery_raises env w = Some msg ->
   let w' := snd (chat_turn env prompt w) in
   exists m,
     messages w' = messages w ++ [m] /\
     msg_appends (skipn (length (journal w)) (journal w')) = [m] /\
     role m = py "assistant" /\
     content m = py "I apologize, but I encountered an error while processing your request." /\
     metadata m =
       list_to_map
         [("search_mode", VStr (search_mode (settings w)));
          ("llm_model", VStr (llm_model (settings w)));
          ("embedding_model", VStr (embedding_model (settings w)));
          ("error", VStr msg)] /\
     metadata m !! "error" = Some (VStr msg) /\
     metadata m !! "search_mode" = Some (VStr (search_mode (settings w))) /\
     metadata m !! "llm_model" = Some (VStr (llm_model (settings w))) /\
     metadata m !! "embedding_model" = Some (VStr (embedding_model (settings w))) /\
     metadata m !! "query_info" = None /\
     metadata m !! "temperature" = None /\
     metadata m !! "timestamp" = None).
Proof.
  split; [apply chat_turn_returns |].
  intros Hp Hr. cbn zeta.
  destruct (chat_turn_failure_appends env prompt w msg Hp Hr) as [Hm _].
  exists (fallback_message (settings w) msg).
  split; [now rewrite (chat_turn_failure_run env prompt w msg Hp Hr) |].
  split; [exact Hm |].
  repeat split.
Qed.

Lemma query_failure_yields_fallback_witness :
  exists m,
    messages (snd (chat_turn env_rejected_query (py "hello") session1)) = [m] /\
    content m = FALLBACK_RESPONSE /\
    metadata m !! "error" = Some (VStr (py "Connection error.")) /\
    metadata m !! "query_info" = None.
Proof.
  destruct (query_failure_yields_fallback env_rejected_query (py "hello") session1
              (py "Connection error.")) as [_ H].
  destruct (H eq_refl eq_refl)
    as (m & Hmsgs & _ & _ & Hc & _ & He & _ & _ & _ & Hq & _).
  exists m. split; [exact Hmsgs |]. split; [exact Hc |]. split; [exact He | exact Hq].
Defined.

(** C5, as stated, fails: the metadata of the message appended after a
    successful query does not hold all fields of the current settings.  The
    system prompt and the credential are settings of the session, and the
    message carries neither. *)
Lemma success_metadata_omits_settings :
  system_prompt (settings session1) <> [] /\
  api_key (settings session1) <> [] /\
  exists m,
    messages (snd (chat_turn env_ok (py "hello") session1)) = [m] /\
    content m = py "world" /\
    metadata m !! "system_prompt" = None /\
    metadata m !! "api_key" = None.
Proof.
  split; [vm_compute; discriminate |].
  split; [vm_compute; discriminate |].
  eexists. split; [vm_compute; reflexivity |].
  repeat split; vm_compute; reflexivity.
Qed.

(** C5, amended.  When the engine's query call returns, the turn returns
    normally and appends exactly one message: role assistant, content the
    engine's response, and metadata with exactly seven entries: the clock's
    [timestamp]; the [search_mode], [llm_model], [embedding_model] and
    [temperature] of the current settings (not the system prompt, not the
    credential); [prompt_hash], the first 8 characters of the hexadecimal
    xxh64 digest of the prompt's UTF-8 bytes, all of them hexadecimal digits;
    and [query_info], which reads [{search_mode}@{llm_model} #{prompt_hash}]. *)
Theorem query_success_message (env : Env) (prompt : pystr) (w : World)
    (e : LightRAG) (response : pystr) :
  truthy prompt = true ->
  rag w = Some e ->
  aquery env = Returns response ->
  let w' := snd (chat_turn env prompt w) in
  let fp := firstn 8 (XXH64.hexdigest (encode prompt)) in
  let info := search_mode (settings w) ++ py "@" ++ llm_model (settings w) ++ py " #" ++ fp in
  fst (chat_turn env prompt w) = Ok tt /\
  length fp = 8 /\
  Forall (fun c => is_hex c = true) fp /\
  exists m,
    messages w' = messages w ++ [m] /\
    msg_appends (skipn (length (journal w)) (journal w')) = [m] /\
    role m = py "assistant" /\
    content m = response /\
    metadata m =
      list_to_map
        [("timestamp", VStr (strftime env "%H:%M:%S"));
         ("search_mode", VStr (search_mode (settings w)));
         ("llm_model", VStr (llm_model (settings w)));
         ("embedding_model", VStr (embedding_model (settings w)));
         ("temperature", VFloat (temperature (settings w)));
         ("prompt_hash", VStr fp);
         ("query_info", VStr info)] /\
    metadata m !! "timestamp" = Some (VStr (strftime env "%H:%M:%S")) /\
    metadata m !! "search_mode" = Some (VStr (search_mode (settings w))) /\
    metadata m !! "llm_model" = Some (VStr (llm_model (settings w))) /\
    metadata m !! "embedding_model" = Some (VStr (embedding_model (settings w))) /\
    metadata m !! "temperature" = Some (VFloat (temperature (settings w))) /\
    metadata m !! "prompt_hash" = Some (VStr fp) /\
    metadata m !! "query_info" = Some (VStr info) /\
    metadata m !! "system_prompt" = None /\
    metadata m !! "api_key" = None /\
    metadata m !! "error" = None.
Proof.
  intros Hp Hrag Haq. cbn zeta.
  destruct (prompt_fingerprint_shape prompt) as [Hlen Hhex].
  rewrite (chat_turn_success_run env prompt w e response Hp Hrag Haq).
  cbn [fst snd messages journal].
  split; [reflexivity |]. split; [exact Hlen |]. split; [exact Hhex |].
  exists (success_message env (settings w) prompt response).
  split; [reflexivity |].
  split; [rewrite drop_app_length; reflexivity |].
  repeat split.
Qed.

Lemma query_success_message_witness :
  exists m,
    messages (snd (chat_turn env_ok (py "hello") session1)) = [m] /\
    role m = py "assistant" /\
    content m = py "world" /\
    metadata m !! "query_info"
      = Some (VStr (py "hybrid@gpt-4o-mini-2024-07-18 #26c7827d")).
Proof.
  destruct (query_success_message env_ok (py "hello") session1
              (engine_for (settings session0) 1536 8192 0) (py "world"))
    as (_ & _ & _ & m & Hmsgs & _ & Hrole & Hcontent & _ & _ & _ & _ & _ & _ & _ & Hinfo & _).
  { reflexivity. }
  { vm_compute; reflexivity. }
  { reflexivity. }
  exists m. split; [exact Hmsgs |]. split; [exact Hrole |]. split; [exact Hcontent |].
  rewrite Hinfo. vm_compute. reflexivity.
Defined.

(** ** Logging of a failed query *)

Lemma error_entry_prefixed (msg : pystr) : startswith (error_entry msg) (py "[!]") = true.
Proof. reflexivity. Qed.

Lemma question_entry_not_prefixed (prompt : pystr) :
  startswith (log_line (py "[?] Q: ") prompt) (py "[!]") = false.
Proof. unfold log_line. destruct (50 <? length prompt); reflexivity. Qed.

(** C10.  A chat turn whose engine call raises appends three entries to the
    activity log: the question, then twice the same entry
    [[!] Error generating response: {str(e)}].  Exactly two of the three carry
    the prefix [[!]]; the first of them is logged before the fallback message
    is appended to the history and the second after it (and after the apology
    has been written to the page). *)
Theorem query_failure_logs_twice (env : Env) (prompt : pystr) (w : World) (msg : pystr) :
  truthy prompt = true ->
  aquery_raises env w = Some msg ->
  let w' := snd (chat_turn env prompt w) in
  let delta := skipn (length (journal w)) (journal w') in
  let entry := py "[!] " ++ py "Error generating response: " ++ msg in
  log_appends delta = [log_line (py "[?] Q: ") prompt; entry; entry] /\
  count_prefixed (py "[!]") (log_appends delta) = 2 /\
  activity_log w' =
    slice_last 50 (activity_log w ++ [log_line (py "[?] Q: ") prompt; entry; entry]) /\
  exists before,
    log_appends before = [log_line (py "[?] Q: ") prompt] /\
    msg_appends before = [] /\
    delta =
      before ++
      logged entry ++
      [MsgAppend (fallback_message (settings w) msg); Ui (st_write FALLBACK_RESPONSE)] ++
      logged entry.
Proof.
  intros Hp Hr. cbn zeta.
  destruct (chat_turn_failure_appends env prompt w msg Hp Hr) as [_ Hlog].
  split; [exact Hlog |].
  split.
  { rewrite Hlog. unfold count_prefixed. cbn [List.filter].
    rewrite question_entry_not_prefixed, error_entry_prefixed. reflexivity. }
  rewrite (chat_turn_failure_run env prompt w msg Hp Hr). cbn [snd activity_log journal].
  split; [reflexivity |].
  rewrite drop_app_length.
  exists ([Ui (st_write prompt)] ++
          logged (log_line (py "[?] Q: ") prompt) ++
          [Ui (st_status (py "Searching and generating response..."))] ++
          aquery_event w prompt ++
          [LoggerError (py "Error generating response: " ++ msg)]).
  unfold aquery_event, logged.
  destruct (rag w); repeat split.
Qed.

Lemma query_failure_logs_twice_witness :
  count_prefixed (py "[!]")
    (log_appends
       (skipn (length (journal session1))
              (journal (snd (chat_turn env_rejected_query (py "hello") session1))))) = 2 /\
  slice_last 2 (activity_log (snd (chat_turn env_rejected_query (py "hello") session1)))
  = [py "[!] Error generating response: Connection error.";
     py "[!] Error generating response: Connection error."].
Proof.
  destruct (query_failure_logs_twice env_rejected_query (py "hello") session1
              (py "Connection error.") eq_refl eq_refl)
    as (_ & Hcount & Hlog & _).
  split; [exact Hcount |].
  rewrite Hlog. vm_compute. reflexivity.
Defined.

(** ** Insertion *)

Lemma handle_insert_soft_failure_run (env : Env) (text : pystr) (w : World)
    (e : LightRAG) (r : pystr) :
  rag w = Some e ->
  truthy (api_key (settings w)) = true ->
  embeddings_create env = Returns tt ->
  chat_completions_create env = Returns r ->
  ainsert env = Returns false ->
  handle_insert env text w =
  (Ok tt,
   mkWorld (initialized w) (settings w) (rag w) (messages w)
     (slice_last 50
        (activity_log w ++
         [probe_log_entry r; processing_entry text;
          py "[-] Failed to extract relationships from content"]))
     (journal w ++
      [EmbeddingsCreate (api_key (settings w));
       ChatCompletionsCreate (api_key (settings w))] ++
      logged (probe_log_entry r) ++
      [Ui (st_spinner (py "Inserting content..."))] ++
      logged (processing_entry text) ++
      [Ainsert e text;
       Ui (st_error (py "Failed to insert content - no relationships extracted"))] ++
      logged (py "[-] Failed to extract relationships from content"))).
Proof.
  intros Hrag Hk He Hc Hins.
  unfold handle_insert. unfold bind at 1. unfold get at 1. rewrite Hrag.
  unfold try_except. unfold bind at 1.
  rewrite (test_api_key_pass env w r Hk He Hc). cbn [negb].
  unfold_ops. cbn. rewrite Hrag. cbn. rewrite Hins. cbn.
  norm_journal. norm_log. rewrite <- Hrag. reflexivity.
Qed.

(** C7, as stated, fails: the check for empty content is the Paste tab's own.
    The Upload tab hands what it has read to [handle_insert] as it is.  Here
    an empty file is uploaded in an initialised session: the probe runs, the
    engine is called with the empty text, and its report of no relationships
    is shown as an error and logged. *)
Lemma empty_upload_reaches_engine :
  let w' :=
    snd (show_insert_dialog_upload env_no_relationships (Some (Returns [])) true
           session1) in
  let delta := skipn (length (journal session1)) (journal w') in
  show_insert_dialog_paste env_no_relationships [] true session1 = (Ok tt, session1) /\
  engine_calls delta = [Ainsert (engine_for (settings session1) 1536 8192 0) []] /\
  errors_shown delta = [py "Failed to insert content - no relationships extracted"] /\
  In (py "[*] Processing content (0 chars)...") (log_appends delta) /\
  In (py "[-] Failed to extract relationships from content") (activity_log w') /\
  activity_log w' <> activity_log session1.
Proof.
  cbn zeta.
  split; [reflexivity |].
  split; [vm_compute; reflexivity |].
  split; [vm_compute; reflexivity |].
  split; [vm_compute; tauto |].
  split; [vm_compute; tauto |].
  vm_compute. discriminate.
Qed.

(** C7, amended.  In the Paste tab, pressing Insert with an empty text area does
    nothing: the run returns normally with the session and the journal as
    they were (no error message, no call into the engine).  With non-empty
    text, an engine, a passing credential probe and an engine that reports no
    extracted relationships, the insertion returns normally, shows the one
    error [Failed to insert content - no relationships extracted], appends
    three entries to the activity log of which exactly one, the last, carries
    the prefix [[-]], calls the engine exactly once (the insertion itself:
    nothing is undone), and leaves the flag, the settings, the engine
    reference and the history as they were. *)
Theorem insert_empty_and_soft_failure (env : Env) (text : pystr) (w : World) (e : LightRAG) :
  show_insert_dialog_paste env [] true w = (Ok tt, w) /\
  (truthy text = true ->
   rag w = Some e ->
   credential_ok env w = true ->
   ainsert env = Returns false ->
   let w' := snd (show_insert_dialog_paste env text true w) in
   let delta := skipn (length (journal w)) (journal w') in
   fst (show_insert_dialog_paste env text true w) = Ok tt /\
   errors_shown delta = [py "Failed to insert content - no relationships extracted"] /\
   (exists entry1 entry2,
      log_appends delta =
        [entry1; entry2; py "[-] Failed to extract relationships from content"] /\
      startswith entry1 (py "[-]") = false /\
      startswith entry2 (py "[-]") = false) /\
   count_prefixed (py "[-]") (log_appends delta) = 1 /\
   activity_log w' = slice_last 50 (activity_log w ++ log_appends delta) /\
   engine_calls delta = [Ainsert e text] /\
   initialized w' = initialized w /\
   settings w' = settings w /\
   rag w' = rag w /\
   messages w' = messages w).
Proof.
  split; [reflexivity |].
  intros Ht Hrag Hcred Hins. cbn zeta.
  destruct (credential_ok_inv env w Hcred) as (Hk & He & r & Hc).
  unfold show_insert_dialog_paste. rewrite Ht.
  rewrite (handle_insert_soft_failure_run env text w e r Hrag Hk He Hc Hins).
  cbn [fst snd initialized settings rag messages activity_log journal].
  rewrite drop_app_length.
  split; [reflexivity |]. split; [reflexivity |].
  split; [exists (probe_log_entry r), (processing_entry text); repeat split |].
  repeat split.
Qed.

Lemma insert_empty_and_soft_failure_witness :
  let text := py "Marley was dead: to begin with." in
  let w' := snd (show_insert_dialog_paste env_no_relationships text true session1) in
  count_prefixed (py "[-]")
    (log_appends (skipn (length (journal session1)) (journal w'))) = 1 /\
  slice_last 1 (activity_log w') = [py "[-] Failed to extract relationships from content"] /\
  rag w' = rag session1.
Proof.
  cbn zeta.
  destruct (insert_empty_and_soft_failure env_no_relationships
              (py "Marley was dead: to begin with.") session1
              (engine_for (settings session0) 1536 8192 0)) as [_ H].
  destruct H as (_ & _ & _ & Hcount & Hlog & _ & _ & _ & Hrag & _).
  { reflexivity. }
  { vm_compute; reflexivity. }
  { vm_compute; reflexivity. }
  { reflexivity. }
  split; [exact Hcount |]. split; [| exact Hrag].
  rewrite Hlog. vm_compute. reflexivity.
Defined.

(** ** Markdown export *)

Lemma join_cons (sep p : pystr) (rest : list pystr) :
  rest <> [] -> join sep (p :: rest) = p ++ sep ++ join sep rest.
Proof. destruct rest; [congruence | reflexivity]. Qed.

Lemma join_app (sep : pystr) (l1 l2 : list pystr) :
  l1 <> [] -> l2 <> [] ->
  join sep (l1 ++ l2) = join sep l1 ++ sep ++ join sep l2.
Proof.
  intros H1 H2. induction l1 as [| p l1 IH]; [congruence |].
  destruct l1 as [| q l1].
  - cbn [app]. rewrite join_cons by exact H2. reflexivity.
  - change ((p :: q :: l1) ++ l2) with (p :: ((q :: l1) ++ l2)).
    rewrite join_cons by discriminate.
    rewrite IH by discriminate.
    rewrite (join_cons sep p (q :: l1)) by discriminate.
    now rewrite <- !app_assoc.
Qed.

Lemma section_join (hd c : pystr) (extras : list pystr) :
  exists pre post,
    join NL ([hd; NL ++ c ++ NL] ++ extras) = pre ++ c ++ post.
Proof.
  destruct extras as [| x xs].
  - exists (hd ++ NL ++ NL), NL.
    cbn [app]. rewrite join_cons by discriminate. cbn [join].
    now rewrite <- !app_assoc.
  - exists (hd ++ NL ++ NL), (NL ++ NL ++ join NL (x :: xs)).
    cbn [app]. rewrite !join_cons by discriminate.
    now rewrite <- !app_assoc.
Qed.

Lemma md_message_join (env : Env) (m : Message) :
  md_message env m <> [] /\
  exists pre post, join NL (md_message env m) = pre ++ content m ++ post.
Proof.
  unfold md_message. split; [discriminate |]. apply section_join.
Qed.

(** C8.  With an empty history the export shows the error
    [No messages to download yet! Start a conversation first.] and offers no
    download.  With a history of two messages it offers one download whose
    text begins with the header -- title, export time, and the search mode,
    LLM model, embedding model, temperature and system prompt of the current
    settings -- and after the header contains the content of the first message
    and, further on, the content of the second. *)
Theorem export_as_markdown (env : Env) (w : World) (m1 m2 : Message) :
  (messages w = [] ->
   handle_chat_download env w =
   (Ok tt,
    set_journal
      (journal w ++
       [Ui (st_error_icon
              (py "No messages to download yet! Start a conversation first.")
              INFO_SIGN)]) w)) /\
  (messages w = [m1; m2] ->
   exists data pre1 post1 pre2 post2,
     handle_chat_download env w =
     (Ok tt,
      set_journal
        (journal w ++
         [Ui (st_download_button
                (py "Download Chat") data
                (py "chat_session_" ++ strftime env "%Y%m%d_%H%M%S" ++ py ".md")
                (py "text/markdown") (py "download_chat"))]) w) /\
     data =
       (py "# LightRAG Chat Session" ++ NL ++ NL ++
        py "*Exported on " ++ strftime env "%Y-%m-%d %H:%M:%S" ++ py "*" ++ NL ++ NL ++
        NL ++ py "## Settings" ++ NL ++ NL ++
        py "- Search Mode: " ++ search_mode (settings w) ++ NL ++
        py "- LLM Model: " ++ llm_model (settings w) ++ NL ++
        py "- Embedding Model: " ++ embedding_model (settings w) ++ NL ++
        py "- Temperature: " ++ str_float env (temperature (settings w)) ++ NL ++
        py "- System Prompt: " ++ system_prompt (settings w) ++ NL ++ NL ++
        NL ++ py "## Conversation" ++ NL ++ NL) ++
       (pre1 ++ content m1 ++ post1) ++
       (pre2 ++ content m2 ++ post2)).
Proof.
  split.
  - intros Hm. unfold handle_chat_download, bind, get, emit, modify. rewrite Hm.
    reflexivity.
  - intros Hm.
    destruct (md_message_join env m1) as (Hne1 & pre1 & post1 & H1).
    destruct (md_message_join env m2) as (Hne2 & pre2 & post2 & H2).
    exists (md_content env (settings w) [m1; m2]), pre1, (post1 ++ NL), pre2, post2.
    split.
    + unfold handle_chat_download, bind, get, emit, modify. rewrite Hm. reflexivity.
    + unfold md_content. cbn [flat_map]. rewrite app_nil_r.
      rewrite join_app; [| discriminate | destruct (md_message env m1); [congruence | discriminate]].
      rewrite join_app by assumption.
      rewrite H1, H2.
      unfold md_header. rewrite !join_cons by discriminate. cbn [join].
      rewrite <- !app_assoc. reflexivity.
Qed.

Lemma export_as_markdown_witness :
  (exists icon msg,
     journal (snd (handle_chat_download env_ok session1))
     = journal session1 ++ [Ui (st_error_icon msg icon)]) /\
  exists data pre1 post1 pre2 post2 head,
    journal (snd (handle_chat_download env_ok session3))
    = journal session3 ++
      [Ui (st_download_button (py "Download Chat") data
             (py "chat_session_20241109_120000.md")
             (py "text/markdown") (py "download_chat"))] /\
    data = head ++ (pre1 ++ py "world" ++ post1) ++ (pre2 ++ FALLBACK_RESPONSE ++ post2).
Proof.
  destruct (export_as_markdown env_ok session1
              (mkMessage [] [] ∅) (mkMessage [] [] ∅)) as [Hempty _].
  destruct (export_as_markdown env_ok session3
              (success_message env_ok (settings session1) (py "hello") (py "world"))
              (fallback_message (settings session1) (py "Connection error.")))
    as [_ Htwo].
  split.
  - eexists _, _. rewrite Hempty by reflexivity. reflexivity.
  - destruct Htwo as (data & pre1 & post1 & pre2 & post2 & Hrun & Hdata).
    { vm_compute; reflexivity. }
    exists data, pre1, post1, pre2, post2. eexists.
    split; [rewrite Hrun; reflexivity | exact Hdata].
Defined.

(** * Further properties *)

(** ** Weakest preconditions: rules *)

Lemma wp_ret {A} (a : A) Q E w : Q a w -> wp (ret a) Q E w.
Proof. intros H. exact H. Qed.

Lemma wp_raise {A} (e : pyexc) (Q : A -> World -> Prop) E w :
  E e w -> wp (raise e) Q E w.
Proof. intros H. exact H. Qed.

Lemma wp_get Q E w : Q w w -> wp get Q E w.
Proof. intros H. exact H. Qed.

Lemma wp_modify (f : World -> World) Q E w : Q tt (f w) -> wp (modify f) Q E w.
Proof. intros H. exact H. Qed.

Lemma wp_emit (e : Event) Q E w :
  Q tt (set_journal (journal w ++ [e]) w) -> wp (emit e) Q E w.
Proof. intros H. exact H. Qed.

Lemma wp_call {A} (o : outcome A) (Q : A -> World -> Prop) E w :
  (forall a, o = Returns a -> Q a w) ->
  (forall msg, o = Raises msg -> E (PyException msg) w) ->
  wp (call o) Q E w.
Proof. intros Hr He. destruct o; [apply Hr | apply He]; reflexivity. Qed.

Lemma wp_bind {A B} (m : M A) (k : A -> M B) Q E w :
  wp m (fun a => wp (k a) Q E) E w -> wp (bind m k) Q E w.
Proof.
  unfold wp, bind. destruct (m w) as [[a | e] w']; intros H; exact H.
Qed.

Lemma wp_try_except {A} (body : M A) (handler : pystr -> M A) Q E w :
  wp body Q (handled handler Q E) w -> wp (try_except body handler) Q E w.
Proof.
  unfold wp, try_except, handled.
  destruct (body w) as [[a | [msg |]] w']; intros H; exact H.
Qed.

Lemma wp_mono {A} (m : M A) (Q Q' : A -> World -> Prop) (E E' : pyexc -> World -> Prop) w :
  wp m Q E w ->
  (forall a w', Q a w' -> Q' a w') ->
  (forall e w', E e w' -> E' e w') ->
  wp m Q' E' w.
Proof.
  unfold wp. destruct (m w) as [[a | e] w']; intros H HQ HE; auto.
Qed.

Lemma wp_add_activity_log (message : pystr) Q E w :
  Q tt (mkWorld (initialized w) (settings w) (rag w) (messages w)
          (slice_last 50 (activity_log w ++ [message]))
          ((journal w ++ [LogAppend message]) ++
           [Ui (st_sidebar_markdown (py "```" ++ NL ++ message ++ NL ++ py "```"))])) ->
  wp (add_activity_log message) Q E w.
Proof. intros H. unfold wp. rewrite add_activity_log_run. exact H. Qed.

(** what [wp] says about a run *)
Lemma wp_run {A} (m : M A) Q E w :
  wp m Q E w ->
  match fst (m w) with
  | Ok a => Q a (snd (m w))
  | Exc e => E e (snd (m w))
  end.
Proof. unfold wp. destruct (m w) as [[a | e] w']; intros H; exact H. Qed.

Ltac simpl_world :=
  cbn [initialized settings rag messages activity_log journal
       set_initialized set_settings set_rag set_messages set_activity_log set_journal
       search_mode llm_model embedding_model system_prompt temperature api_key
       set_search_mode set_llm_model set_embedding_model set_system_prompt
       set_temperature set_api_key fst snd negb] in *.

Ltac wp_step :=
  lazymatch goal with
  | |- wp (ret _) _ _ _ => apply wp_ret
  | |- wp (raise _) _ _ _ => apply wp_raise
  | |- wp get _ _ _ => apply wp_get
  | |- wp (emit _) _ _ _ => apply wp_emit
  | |- wp (modify _) _ _ _ => apply wp_modify
  | |- wp (add_activity_log _) _ _ _ => apply wp_add_activity_log
  | |- wp (call _) _ _ _ => apply wp_call; intros ? ?
  | |- wp (bind _ _) _ _ _ => apply wp_bind
  | |- wp (try_except _ _) _ _ _ => apply wp_try_except
  | |- wp (if ?b then _ else _) _ _ _ => destruct b eqn:?
  | |- wp (match ?x with _ => _ end) _ _ _ => destruct x eqn:?
  | |- handled _ _ _ _ _ => unfold handled at 1
  end; cbv beta iota; simpl_world.

Ltac wp_go := repeat wp_step.

(** ** The session invariant *)

Lemma negb_truthy_false (s : pystr) : negb (truthy s) = false -> truthy s = true.
Proof. destruct (truthy s); [reflexivity | discriminate]. Qed.

Ltac count_constructions :=
  rewrite ?constructions_app, ?constructions_cons, ?constructions_nil in *;
  cbn [is_construction] in *.

Ltac inv_numbered :=
  let e := fresh "e" in
  let He := fresh "He" in
  intros e He;
  first
    [ match goal with
      | H : forall e', rag _ = Some e' -> _ |- _ => specialize (H e He)
      end;
      count_constructions; lia
    | injection He as <-; cbn [instance]; count_constructions; lia ].

Ltac inv_current :=
  first
    [ assumption
    | intros; discriminate
    | intros _; eexists; split; [reflexivity |];
      cbn [llm_model_kwargs kw_api_key]; split; [reflexivity |];
      auto using negb_truthy_false ].

Ltac inv_history :=
  first
    [ assumption
    | apply Forall_app_2; [assumption |];
      apply Forall_cons_2; [cbv beta; reflexivity | apply Forall_nil_2] ].

Ltac inv_cap :=
  first [ assumption | rewrite slice_last_length; lia ].

Ltac inv_leaf :=
  unfold session_inv, settings_offered, engine_current, engine_numbered,
    assistant_only, log_capped in *;
  simpl_world;
  repeat match goal with
         | Heq : rag ?w = _ |- _ => try rewrite <- Heq; clear Heq
         end;
  repeat match goal with H : _ /\ _ |- _ => destruct H end;
  split; [repeat split; assumption |];
  split; [inv_current |];
  split; [inv_numbered |];
  split; [inv_history | inv_cap].

Lemma init_rag_keeps_inv (env : Env) (w : World) :
  session_inv w ->
  wp (init_rag env) (fun _ => session_inv) (fun _ => session_inv) w.
Proof.
  intros Hinv.
  unfold init_rag, test_api_key, show_api_key_form, new_LightRAG, get_llm_config,
    get_embedding_config.
  wp_go; inv_leaf.
Qed.

Lemma wp_seq_inv {A B} (m : M A) (k : A -> M B) (w : World) :
  wp m (fun _ => session_inv) (fun _ => session_inv) w ->
  (forall a v, session_inv v ->
     wp (k a) (fun _ => session_inv) (fun _ => session_inv) v) ->
  wp (bind m k) (fun _ => session_inv) (fun _ => session_inv) w.
Proof.
  intros Hm Hk. apply wp_bind.
  eapply wp_mono; [exact Hm | | auto]. cbv beta. auto.
Qed.

Lemma ensure_ready_keeps_inv (env : Env) (w : World) :
  session_inv w ->
  wp (ensure_ready env) (fun _ => session_inv) (fun _ => session_inv) w.
Proof.
  intros Hinv. unfold ensure_ready.
  apply wp_bind, wp_get. cbv beta.
  destruct (negb (initialized w)); [| apply wp_ret; exact Hinv].
  apply wp_seq_inv; [apply init_rag_keeps_inv; exact Hinv |].
  intros _ v Hv. exact Hv.
Qed.

Lemma chat_turn_keeps_inv (env : Env) (prompt : pystr) (w : World) :
  session_inv w ->
  wp (chat_turn env prompt) (fun _ => session_inv) (fun _ => session_inv) w.
Proof.
  intros Hinv. unfold chat_turn, rag_aquery, append_message.
  wp_go; inv_leaf.
Qed.

Lemma script_run_keeps_inv (env : Env) (prompt : option pystr) (w : World) :
  session_inv w ->
  wp (script_run env prompt) (fun _ => session_inv) (fun _ => session_inv) w.
Proof.
  intros Hinv. unfold script_run.
  apply wp_seq_inv; [apply ensure_ready_keeps_inv; exact Hinv |].
  intros _ v Hv.
  destruct prompt as [p |]; [apply chat_turn_keeps_inv; exact Hv | exact Hv].
Qed.

Lemma handle_insert_keeps_inv (env : Env) (text : pystr) (w : World) :
  session_inv w ->
  wp (handle_insert env text) (fun _ => session_inv) (fun _ => session_inv) w.
Proof.
  intros Hinv.
  unfold handle_insert, test_api_key, show_api_key_form, rag_ainsert.
  wp_go; inv_leaf.
Qed.

Lemma read_then_insert_keeps_inv (env : Env) (file : outcome pystr)
    (handler : pystr -> M unit) (w : World) :
  (forall msg v, session_inv v ->
     wp (handler msg) (fun _ => session_inv) (fun _ => session_inv) v) ->
  session_inv w ->
  wp (try_except (bind (call file) (fun text => handle_insert env text)) handler)
     (fun _ => session_inv) (fun _ => session_inv) w.
Proof.
  intros Hh Hinv. apply wp_try_except, wp_bind, wp_call.
  - intros text _.
    eapply wp_mono; [apply handle_insert_keeps_inv; exact Hinv | auto |].
    intros [msg |] v Hv; cbn; [apply Hh; exact Hv | exact Hv].
  - intros msg _. cbn. apply Hh. exact Hinv.
Qed.

Lemma show_error_keeps_inv (text : pystr) (v : World) :
  session_inv v ->
  wp (emit (Ui (st_error text))) (fun _ => session_inv) (fun _ => session_inv) v.
Proof. intros Hv. apply wp_emit. inv_leaf. Qed.

Lemma show_insert_dialog_keeps_inv (env : Env) (form : InsertForm) (w : World) :
  session_inv w ->
  wp (show_insert_dialog env form) (fun _ => session_inv) (fun _ => session_inv) w.
Proof.
  intros Hinv. unfold show_insert_dialog.
  apply wp_seq_inv.
  { unfold show_insert_dialog_paste.
    destruct (insert_clicked form); [| apply wp_ret; exact Hinv].
    destruct (truthy (text_input form)); [| apply wp_ret; exact Hinv].
    apply handle_insert_keeps_inv; exact Hinv. }
  clear w Hinv. intros _ w Hinv.
  apply wp_seq_inv.
  { unfold show_insert_dialog_upload.
    destruct (uploaded_file form); [| apply wp_ret; exact Hinv].
    destruct (insert_file_clicked form); [| apply wp_ret; exact Hinv].
    apply read_then_insert_keeps_inv; [| exact Hinv].
    intros; apply show_error_keeps_inv; assumption. }
  clear w Hinv. intros _ w Hinv.
  apply wp_seq_inv.
  { unfold show_insert_dialog_website.
    destruct (insert_url_clicked form); [| apply wp_ret; exact Hinv].
    destruct (truthy (url form)); [| apply wp_ret; exact Hinv].
    apply read_then_insert_keeps_inv; [| exact Hinv].
    intros; apply show_error_keeps_inv; assumption. }
  clear w Hinv. intros _ w Hinv.
  apply wp_seq_inv.
  { unfold show_insert_dialog_book.
    destruct (book_clicked form); [| apply wp_ret; exact Hinv].
    apply read_then_insert_keeps_inv; [| exact Hinv].
    intros; apply show_error_keeps_inv; assumption. }
  clear w Hinv. intros _ w Hinv.
  unfold show_insert_dialog_paper.
  destruct (paper_clicked form); [| apply wp_ret; exact Hinv].
  destruct (paper_pdf form) as [| msg | texts];
    try (apply show_error_keeps_inv; exact Hinv).
  destruct (List.filter _ texts);
    [apply show_error_keeps_inv | apply handle_insert_keeps_inv]; exact Hinv.
Qed.

Lemma show_settings_dialog_keeps_inv (env : Env) (form : SettingsForm) (w : World) :
  form_offered form ->
  session_inv w ->
  wp (show_settings_dialog env form) (fun _ => session_inv) (fun _ => session_inv) w.
Proof.
  intros Hform Hinv. unfold form_offered in Hform.
  unfold show_settings_dialog, check_index, handle_settings_update.
  wp_go; inv_leaf.
Qed.

Lemma handle_chat_download_keeps_inv (env : Env) (w : World) :
  session_inv w ->
  wp (handle_chat_download env) (fun _ => session_inv) (fun _ => session_inv) w.
Proof.
  intros Hinv. unfold handle_chat_download. wp_go; inv_leaf.
Qed.

Lemma new_session_inv (key : pystr) : session_inv (new_session key).
Proof.
  unfold new_session.
  assert (H0 : session_inv (mkWorld false (default_settings key) None [] [] [])).
  { unfold session_inv, settings_offered, engine_current, engine_numbered,
      assistant_only, log_capped. cbn.
    split; [repeat split; apply list_elem_of_In; cbn; tauto |].
    split; [discriminate |]. split; [discriminate |].
    split; [constructor | lia]. }
  destruct (truthy key); [| exact H0].
  set (w0 := mkWorld false (default_settings key) None [] [] []) in *.
  clearbody w0. rewrite add_activity_log_run. cbn [snd]. inv_leaf.
Qed.

Lemma perform_keeps_inv (env : Env) (a : Action) (w : World) :
  action_offered a -> session_inv w -> session_inv (snd (perform env a w)).
Proof.
  intros Ha Hinv.
  assert (Hwp : wp (perform env a) (fun _ => session_inv) (fun _ => session_inv) w).
  { destruct a as [prompt | form | form |]; cbn [perform].
    - apply script_run_keeps_inv; exact Hinv.
    - apply show_settings_dialog_keeps_inv; assumption.
    - apply show_insert_dialog_keeps_inv; exact Hinv.
    - apply handle_chat_download_keeps_inv; exact Hinv. }
  apply wp_run in Hwp. destruct (fst (perform env a w)); exact Hwp.
Qed.

Lemma reachable_inv (w : World) : reachable w -> session_inv w.
Proof.
  induction 1 as [key | env a w Hw IH Ha].
  - apply new_session_inv.
  - apply perform_keeps_inv; assumption.
Qed.

(** ** What a run adds to the journal *)

Lemma added_app (w : World) (j' : list Event) (v : World) :
  journal v = journal w ++ j' -> added w v = j'.
Proof. intros H. unfold added. rewrite H. apply drop_app_length. Qed.

Lemma added_refl (w : World) : added w w = [].
Proof. unfold added. apply drop_all. Qed.

Lemma added_trans (w v u : World) (d1 d2 : list Event) :
  journal v = journal w ++ d1 -> journal u = journal v ++ d2 ->
  added w u = d1 ++ d2.
Proof.
  intros H1 H2. apply added_app. rewrite H2, H1. now rewrite <- app_assoc.
Qed.

(** compute [added w v] when [journal v] is [journal w] with events appended *)
Ltac solve_added :=
  first
    [ apply added_refl
    | apply added_app; simpl_world; rewrite <- ?(@List.app_assoc Event); reflexivity ].

(** ** Model names and lookup tables *)

Lemma get_llm_config_offered (model : pystr) (w : World) :
  model ∈ AVAILABLE_LLM_MODELS ->
  get_llm_config model w = (Ok (gpt_4o_mini_complete, model), w).
Proof.
  intros H. unfold get_llm_config.
  unfold AVAILABLE_LLM_MODELS in H. now rewrite (bool_decide_eq_true_2 _ H).
Qed.

Lemma lookup_config_offered (model : pystr) :
  model ∈ AVAILABLE_EMBEDDER_MODELS <->
  exists max_tokens,
    lookup_config model embedding_configs = Some (1536%Z, max_tokens) /\
    (8191 <= max_tokens <= 8192)%Z.
Proof.
  unfold AVAILABLE_EMBEDDER_MODELS, embedding_configs, DEFAULT_EMBEDDER_MODEL,
    lookup_config. split.
  - intros H. apply elem_of_cons in H as [-> | H].
    + exists 8192%Z. split; [reflexivity | lia].
    + apply elem_of_cons in H as [-> | H]; [| inversion H].
      exists 8191%Z. split; [reflexivity | lia].
  - intros (mt & H & _). revert H.
    case_bool_decide as H1; [subst model; left |].
    case_bool_decide as H2; [subst model; right; left | discriminate].
Qed.

(** X1.  The lookups that [init_rag] performs on the two model names accept
    exactly the names the settings dialog offers: an offered LLM model yields
    the completion function and the name; an offered embedding model yields a
    function of dimension 1536 with a token limit of 8192 or 8191; any other
    name raises [Unsupported LLM model: ...] or
    [Unsupported embedding model: ...] and changes nothing. *)
Theorem model_lookups_match_options (model : pystr) (w : World) :
  (model ∈ AVAILABLE_LLM_MODELS ->
   get_llm_config model w = (Ok (gpt_4o_mini_complete, model), w)) /\
  (model ∉ AVAILABLE_LLM_MODELS ->
   get_llm_config model w
   = (Exc (PyException (py "Unsupported LLM model: " ++ model)), w)) /\
  (model ∈ AVAILABLE_EMBEDDER_MODELS ->
   exists max_tokens,
     get_embedding_config model w = (Ok (mkEmbeddingFunc 1536 max_tokens model), w) /\
     (8191 <= max_tokens <= 8192)%Z) /\
  (model ∉ AVAILABLE_EMBEDDER_MODELS ->
   get_embedding_config model w
   = (Exc (PyException (py "Unsupported embedding model: " ++ model)), w)).
Proof.
  split; [apply get_llm_config_offered |].
  split.
  { intros H. unfold get_llm_config. unfold AVAILABLE_LLM_MODELS in H.
    now rewrite (bool_decide_eq_false_2 _ H). }
  split.
  - intros H. apply lookup_config_offered in H as (mt & H & Hmt).
    exists mt. split; [| exact Hmt].
    unfold get_embedding_config. rewrite H. reflexivity.
  - intros H. unfold get_embedding_config.
    destruct (lookup_config model embedding_configs) as [[dim mt] |] eqn:Hcfg;
      [| reflexivity].
    exfalso. apply H. apply lookup_config_offered.
    assert (dim = 1536%Z) as ->.
    { revert Hcfg. unfold embedding_configs, lookup_config.
      repeat case_bool_decide; congruence. }
    exists mt. split; [exact Hcfg |].
    revert Hcfg. unfold embedding_configs, lookup_config.
    repeat case_bool_decide; intros [=]; subst; lia.
Qed.

Lemma model_lookups_match_options_witness :
  get_llm_config (py "gpt-4o-mini") session0
    = (Ok (gpt_4o_mini_complete, py "gpt-4o-mini"), session0) /\
  get_llm_config (py "gpt-4") session0
    = (Exc (PyException (py "Unsupported LLM model: gpt-4")), session0) /\
  (exists max_tokens,
     get_embedding_config (py "text-embedding-3-small") session0
     = (Ok (mkEmbeddingFunc 1536 max_tokens (py "text-embedding-3-small")), session0)) /\
  get_embedding_config (py "text-embedding-3-large") session0
    = (Exc (PyException (py "Unsupported embedding model: text-embedding-3-large")),
       session0).
Proof.
  destruct (model_lookups_match_options (py "gpt-4o-mini") session0) as (H1 & _).
  destruct (model_lookups_match_options (py "gpt-4") session0) as (_ & H2 & _).
  destruct (model_lookups_match_options (py "text-embedding-3-small") session0)
    as (_ & _ & H3 & _).
  destruct (model_lookups_match_options (py "text-embedding-3-large") session0)
    as (_ & _ & _ & H4).
  split; [apply H1; vm_compute; right; left |].
  split; [apply H2; vm_compute; intros H; repeat (inversion H as [| ? ? ? H']; clear H; rename H' into H) |].
  split.
  - destruct H3 as (mt & H3 & _); [vm_compute; right; left |]. exists mt. exact H3.
  - apply H4. vm_compute. intros H.
    repeat (inversion H as [| ? ? ? H']; clear H; rename H' into H).
Defined.

(** ** Reading a run off [wp] *)

Lemma wp_result {A} (m : M A) (P : result A -> World -> Prop) (w : World) :
  wp m (fun a => P (Ok a)) (fun e => P (Exc e)) w -> P (fst (m w)) (snd (m w)).
Proof. unfold wp. destruct (m w) as [[a | e] w']; intros H; exact H. Qed.

(** rewrite [added w v] in the goal to the events appended *)
Ltac norm_added :=
  repeat match goal with
         | |- context [added ?w ?v] =>
             let j := fresh "j" in
             let Hj := fresh "Hj" in
             evar (j : list Event);
             assert (Hj : added w v = j) by (subst j; solve_added);
             rewrite Hj; clear Hj; subst j
         end;
  cbn [app].

(** replace in the goal what the case splits have decided *)
Ltac use_branch_eqs :=
  repeat match goal with
         | H : negb _ = true |- _ => apply negb_true_iff in H
         | H : negb _ = false |- _ => apply negb_false_iff in H
         end;
  repeat match goal with
         | H : ?x = _ |- context [?x] => rewrite H
         end.

(** ** The credential probe, case by case *)

(** X2.  [test_api_key] returns [True] exactly when the key is not empty and
    both requests of the probe return.  With an empty key it sends no request;
    otherwise it sends the embedding request, and the chat request only after
    the embedding request has returned.  On success it logs one entry, the
    test prompt with at most 100 characters of the reply; in every other case
    it logs nothing and shows the credential form. *)
Theorem test_api_key_verdict (env : Env) (w : World) :
  let key := api_key (settings w) in
  let w' := snd (test_api_key env w) in
  (fst (test_api_key env w) = Ok true <-> credential_ok env w = true) /\
  requests_sent (added w w') =
    (if truthy key then
       EmbeddingsCreate key ::
       match embeddings_create env with
       | Returns _ => [ChatCompletionsCreate key]
       | Raises _ => []
       end
     else []) /\
  (credential_ok env w = true ->
   exists reply,
     chat_completions_create env = Returns reply /\
     log_appends (added w w') =
       [py "[T] Test prompt: What is LightRAG?" ++ NL ++
        py "[@] " ++ firstn 100 reply ++ py "..."] /\
     ~ In (Ui st_api_key_form) (added w w')) /\
  (credential_ok env w = false ->
   log_appends (added w w') = [] /\ In (Ui st_api_key_form) (added w w')).
Proof.
  cbn zeta.
  apply (wp_result (test_api_key env)
           (fun r w' =>
              (r = Ok true <-> credential_ok env w = true) /\
              requests_sent (added w w') =
                (if truthy (api_key (settings w)) then
                   EmbeddingsCreate (api_key (settings w)) ::
                   match embeddings_create env with
                   | Returns _ => [ChatCompletionsCreate (api_key (settings w))]
                   | Raises _ => []
                   end
                 else []) /\
              (credential_ok env w = true ->
               exists reply,
                 chat_completions_create env = Returns reply /\
                 log_appends (added w w') =
                   [py "[T] Test prompt: What is LightRAG?" ++ NL ++
                    py "[@] " ++ firstn 100 reply ++ py "..."] /\
                 ~ In (Ui st_api_key_form) (added w w')) /\
              (credential_ok env w = false ->
               log_appends (added w w') = [] /\
               In (Ui st_api_key_form) (added w w')))).
  unfold test_api_key, show_api_key_form.
  wp_go; unfold credential_ok, probe_passes; use_branch_eqs; norm_added;
    cbn [requests_sent List.filter is_request log_appends andb In];
    (split; [split; intros; congruence |]);
    (split; [reflexivity |]);
    (split; [intros; try discriminate | intros; try discriminate]);
    try (split; [reflexivity | tauto]).
  eexists. split; [reflexivity |]. split; [reflexivity |].
  intros [H' | [H' | [H' | [H' | []]]]]; discriminate.
Qed.

Lemma test_api_key_verdict_witness :
  fst (test_api_key env_ok session0) = Ok true /\
  requests_sent (added session0 (snd (test_api_key env_rejected session0)))
    = [EmbeddingsCreate (py "sk-live")] /\
  log_appends (added session0 (snd (test_api_key env_rejected session0))) = [] /\
  exists reply,
    log_appends (added session0 (snd (test_api_key env_ok session0)))
    = [py "[T] Test prompt: What is LightRAG?" ++ NL ++
       py "[@] " ++ firstn 100 reply ++ py "..."].
Proof.
  destruct (test_api_key_verdict env_ok session0) as ([_ Hok] & _ & Hlog & _).
  destruct (test_api_key_verdict env_rejected session0) as (_ & Hreq & _ & Hfail).
  destruct (Hlog eq_refl) as (reply & _ & Hentry & _).
  destruct (Hfail eq_refl) as [Hnone _].
  split; [apply Hok; reflexivity |].
  split; [exact Hreq |]. split; [exact Hnone |].
  exists reply. exact Hentry.
Defined.

(** ** The chat turn, whatever the engine does *)

Lemma chat_turn_effect (env : Env) (prompt : pystr) (w : World) :
  truthy prompt = true ->
  exists mid,
    chat_turn env prompt w =
    (Ok tt,
     mkWorld (initialized w) (settings w) (rag w)
       (messages w ++ [turn_message env w prompt])
       (slice_last 50 (activity_log w ++ turn_log env w prompt))
       (journal w ++ mid)) /\
    engine_calls mid = aquery_event w prompt /\
    log_appends mid = turn_log env w prompt /\
    msg_appends mid = [turn_message env w prompt].
Proof.
  intros Hp. unfold turn_message, turn_log.
  destruct (aquery_raises env w) as [msg |] eqn:Hr.
  - rewrite (chat_turn_failure_run env prompt w msg Hp Hr).
    eexists. split; [reflexivity |].
    unfold aquery_event, logged. destruct (rag w); repeat split.
  - unfold aquery_raises in Hr.
    destruct (rag w) as [e |] eqn:Hrag; [| discriminate].
    destruct (aquery env) as [resp | m] eqn:Haq; [| discriminate].
    rewrite (chat_turn_success_run env prompt w e resp Hp Hrag Haq).
    eexists. split; [rewrite Hrag; reflexivity |].
    unfold aquery_event, logged. rewrite Hrag. repeat split.
Qed.

Lemma turn_message_role (env : Env) (w : World) (prompt : pystr) :
  role (turn_message env w prompt) = py "assistant".
Proof.
  unfold turn_message.
  destruct (aquery_raises env w); [reflexivity |].
  destruct (aquery env); reflexivity.
Qed.

Lemma log_line_length (prefix s : pystr) :
  length (log_line prefix s) <= length prefix + 53.
Proof.
  unfold log_line. destruct (Nat.ltb_spec 50 (length s)).
  - rewrite !length_app, length_take. change (length (py "...")) with 3. lia.
  - rewrite length_app. lia.
Qed.

(** X3.  A chat turn with an empty prompt does nothing.  With a non-empty
    prompt it returns normally and appends exactly one message to the
    history, whatever the engine does: the engine's response, or the apology
    when the call raises or there is no engine.  The message's role is
    assistant (the prompt itself is never stored).  The turn makes at most
    one call into the engine, logs two or three entries, and leaves the flag,
    the settings and the engine reference as they were. *)
Theorem every_prompt_gets_one_message (env : Env) (prompt : pystr) (w : World) :
  (truthy prompt = false -> chat_turn env prompt w = (Ok tt, w)) /\
  (truthy prompt = true ->
   let w' := snd (chat_turn env prompt w) in
   fst (chat_turn env prompt w) = Ok tt /\
   messages w' = messages w ++ [turn_message env w prompt] /\
   msg_appends (added w w') = [turn_message env w prompt] /\
   role (turn_message env w prompt) = py "assistant" /\
   (content (turn_message env w prompt) = FALLBACK_RESPONSE \/
    aquery env = Returns (content (turn_message env w prompt))) /\
   engine_calls (added w w') = aquery_event w prompt /\
   length (engine_calls (added w w')) <= 1 /\
   log_appends (added w w') = turn_log env w prompt /\
   2 <= length (log_appends (added w w')) <= 3 /\
   initialized w' = initialized w /\
   settings w' = settings w /\
   rag w' = rag w).
Proof.
  split.
  - intros Hp. unfold chat_turn. rewrite Hp. reflexivity.
  - intros Hp. cbn zeta.
    destruct (chat_turn_effect env prompt w Hp) as (mid & Hrun & Hcalls & Hlog & Hmsg).
    rewrite Hrun. cbn [fst snd messages initialized settings rag].
    rewrite (added_app w mid) by reflexivity.
    rewrite Hcalls, Hlog, Hmsg.
    split; [reflexivity |]. split; [reflexivity |]. split; [reflexivity |].
    split; [apply turn_message_role |].
    split.
    { unfold turn_message. destruct (aquery_raises env w); [left; reflexivity |].
      destruct (aquery env); [right | left]; reflexivity. }
    split; [reflexivity |].
    split; [unfold aquery_event; destruct (rag w); cbn; lia |].
    split; [reflexivity |].
    split.
    { unfold turn_log. destruct (aquery_raises env w); [cbn; lia |].
      destruct (aquery env); cbn; lia. }
    repeat split.
Qed.

Lemma every_prompt_gets_one_message_witness :
  chat_turn env_ok [] session1 = (Ok tt, session1) /\
  length (messages (snd (chat_turn env_ok (py "hello") session1))) = 1 /\
  length (messages (snd (chat_turn env_rejected_query (py "hello") session0))) = 1.
Proof.
  destruct (every_prompt_gets_one_message env_ok [] session1) as [Hempty _].
  destruct (every_prompt_gets_one_message env_ok (py "hello") session1) as [_ H1].
  destruct (every_prompt_gets_one_message env_rejected_query (py "hello") session0)
    as [_ H0].
  destruct (H1 eq_refl) as (_ & Hm1 & _).
  destruct (H0 eq_refl) as (_ & Hm0 & _).
  split; [apply Hempty; reflexivity |].
  split; [rewrite Hm1 | rewrite Hm0]; reflexivity.
Defined.

(** X4.  The lines that a chat turn logs for the question and the answer
    hold the text in full when it has at most 50 characters, and otherwise
    its first 50 characters followed by three dots; with their 7-character
    prefix such lines never exceed 60 characters. *)
Theorem question_and_answer_lines_bounded (env : Env) (prompt response : pystr)
    (w : World) (e : LightRAG) :
  truthy prompt = true ->
  rag w = Some e ->
  aquery env = Returns response ->
  let question := log_line (py "[?] Q: ") prompt in
  let answer := log_line (py "[@] A: ") response in
  log_appends (added w (snd (chat_turn env prompt w))) = [question; answer] /\
  length question <= 60 /\
  length answer <= 60 /\
  (length prompt <= 50 -> question = py "[?] Q: " ++ prompt) /\
  (50 < length prompt ->
   question = py "[?] Q: " ++ firstn 50 prompt ++ py "..." /\ length question = 60) /\
  (length response <= 50 -> answer = py "[@] A: " ++ response) /\
  (50 < length response ->
   answer = py "[@] A: " ++ firstn 50 response ++ py "..." /\ length answer = 60).
Proof.
  intros Hp Hrag Haq. cbn zeta.
  destruct (chat_turn_effect env prompt w Hp) as (mid & Hrun & _ & Hlog & _).
  rewrite Hrun. cbn [snd]. rewrite (added_app w mid) by reflexivity.
  rewrite Hlog. unfold turn_log, aquery_raises. rewrite Hrag, Haq.
  split; [reflexivity |].
  split; [apply (log_line_length (py "[?] Q: ")) |].
  split; [apply (log_line_length (py "[@] A: ")) |].
  assert (Hline : forall prefix s,
            (length s <= 50 -> log_line prefix s = prefix ++ s) /\
            (50 < length s ->
             log_line prefix s = prefix ++ firstn 50 s ++ py "..." /\
             length (log_line prefix s) = length prefix + 53)).
  { intros prefix s. unfold log_line.
    destruct (Nat.ltb_spec 50 (length s)) as [Hlt | Hle]; split; intros Hlen;
      try lia; [| reflexivity].
    split; [reflexivity |].
    rewrite !length_app, length_take. change (length (py "...")) with 3. lia. }
  destruct (Hline (py "[?] Q: ") prompt) as [Hq1 Hq2].
  destruct (Hline (py "[@] A: ") response) as [Ha1 Ha2].
  split; [exact Hq1 |]. split; [exact Hq2 |]. split; [exact Ha1 | exact Ha2].
Qed.

Lemma question_and_answer_lines_bounded_witness :
  let long := py "What did the Ghost of Christmas Past show Scrooge, and why did it matter to him so much?" in
  log_appends (added session1 (snd (chat_turn env_ok long session1)))
  = [py "[?] Q: What did the Ghost of Christmas Past show Scrooge,...";
     py "[@] A: world"].
Proof.
  cbn zeta.
  destruct (question_and_answer_lines_bounded env_ok
              (py "What did the Ghost of Christmas Past show Scrooge, and why did it matter to him so much?")
              (py "world") session1 (engine_for (settings session0) 1536 8192 0))
    as (Hlog & _ & _ & _ & Hlong & Hshort & _).
  { reflexivity. }
  { vm_compute; reflexivity. }
  { reflexivity. }
  rewrite Hlog.
  destruct Hlong as [-> _]; [vm_compute; lia |].
  rewrite Hshort by (vm_compute; lia).
  vm_compute. reflexivity.
Defined.

(** ** Insertion, case by case *)

Lemma handle_insert_effect (env : Env) (text : pystr) (w : World) :
  let r := fst (handle_insert env text w) in
  let w' := snd (handle_insert env text w) in
  rag w' = rag w /\
  messages w' = messages w /\
  match rag w with
  | None => r = Ok tt /\ w' = w
  | Some e =>
      if credential_ok env w then
        r = Ok tt /\
        initialized w' = initialized w /\
        settings w' = settings w /\
        engine_calls (added w w') = [Ainsert e text] /\
        log_appends (added w w') =
          [probe_log_entry (probe_reply env); processing_entry text;
           insert_verdict text (ainsert env)] /\
        errors_shown (added w w') = insert_errors (ainsert env)
      else
        r = (if resubmitting env then Exc RerunException else Ok tt) /\
        engine_calls (added w w') = [] /\
        log_appends (added w w') = [] /\
        In (Ui st_api_key_form) (added w w')
  end.
Proof.
  cbn zeta.
  apply (wp_result (handle_insert env text)
           (fun r w' =>
              rag w' = rag w /\
              messages w' = messages w /\
              match rag w with
              | None => r = Ok tt /\ w' = w
              | Some e =>
                  if credential_ok env w then
                    r = Ok tt /\
                    initialized w' = initialized w /\
                    settings w' = settings w /\
                    engine_calls (added w w') = [Ainsert e text] /\
                    log_appends (added w w') =
                      [probe_log_entry (probe_reply env); processing_entry text;
                       insert_verdict text (ainsert env)] /\
                    errors_shown (added w w') = insert_errors (ainsert env)
                  else
                    r = (if resubmitting env then Exc RerunException else Ok tt) /\
                    engine_calls (added w w') = [] /\
                    log_appends (added w w') = [] /\
                    In (Ui st_api_key_form) (added w w')
              end)).
  unfold handle_insert, test_api_key, show_api_key_form, rag_ainsert.
  wp_go;
    unfold credential_ok, probe_passes, probe_reply, resubmitting,
      insert_verdict, insert_errors;
    use_branch_eqs; norm_added;
    cbn [engine_calls List.filter is_engine_call log_appends errors_shown andb In];
    try congruence;
    repeat split; auto; try tauto; try congruence.
Qed.

(** X5.  [handle_insert] never lets an exception of the engine or of the probe
    escape: it returns normally, except that it restarts the script run when
    the probe has failed and a new key is being submitted through the
    credential form.  It never touches the history or the engine reference.
    It calls the engine exactly when the session holds an engine and the
    credential passes the probe, and then exactly once, with the text as it
    is; when the probe fails it logs nothing and shows the credential form. *)
Theorem handle_insert_contained (env : Env) (text : pystr) (w : World) :
  let w' := snd (handle_insert env text w) in
  (fst (handle_insert env text w) = Ok tt \/
   (fst (handle_insert env text w) = Exc RerunException /\
    resubmitting env = true /\ credential_ok env w = false /\ rag w <> None)) /\
  rag w' = rag w /\
  messages w' = messages w /\
  engine_calls (added w w') =
    match rag w with
    | Some e => if credential_ok env w then [Ainsert e text] else []
    | None => []
    end /\
  (rag w <> None -> credential_ok env w = false ->
   log_appends (added w w') = [] /\ In (Ui st_api_key_form) (added w w')).
Proof.
  cbn zeta.
  destruct (handle_insert_effect env text w) as (Hrag & Hmsg & H).
  split; [| split; [exact Hrag | split; [exact Hmsg |]]].
  - destruct (rag w) as [e |]; [| left; tauto].
    destruct (credential_ok env w); [left; tauto |].
    destruct H as (Hr & _). rewrite Hr.
    destruct (resubmitting env); [right | left]; auto.
  - destruct (rag w) as [e |].
    + destruct (credential_ok env w).
      * split; [tauto | intros _ [=]].
      * split; [tauto | intros _ _; tauto].
    + destruct H as [_ ->]. rewrite added_refl. split; [reflexivity | congruence].
Qed.

Lemma handle_insert_contained_witness :
  fst (handle_insert (with_ainsert (Raises (py "rate limit")) env_ok) (py "text") session1)
    = Ok tt /\
  engine_calls
    (added session1 (snd (handle_insert env_rejected (py "text") session1))) = [] /\
  log_appends
    (added session1 (snd (handle_insert env_rejected (py "text") session1))) = [].
Proof.
  destruct (handle_insert_contained (with_ainsert (Raises (py "rate limit")) env_ok)
              (py "text") session1) as ([Hok | (Hre & Hsub & _)] & _);
    [| discriminate Hsub].
  destruct (handle_insert_contained env_rejected (py "text") session1)
    as (_ & _ & _ & Hcalls & Hfail).
  destruct Hfail as [Hlog _].
  { vm_compute; discriminate. }
  { vm_compute; reflexivity. }
  split; [exact Hok |]. split; [| exact Hlog].
  rewrite Hcalls. vm_compute. reflexivity.
Defined.

(** X6.  An insertion that reaches the engine logs three entries: the probe's
    test prompt, [[*] Processing content (N chars)...] and one verdict, where
    N counts the characters of the text.  The verdict is
    [[+] Added content (N chars)] when the engine reports success,
    [[-] Failed to extract relationships from content] when it reports
    failure, and [[!] Insert error: ...] with the exception's text when it
    raises; an error is shown in the last two cases only.  The flag and the
    settings are left as they were. *)
Theorem insert_logs_one_verdict (env : Env) (text : pystr) (w : World) (e : LightRAG) :
  rag w = Some e ->
  credential_ok env w = true ->
  let w' := snd (handle_insert env text w) in
  let n := str_int (length text) in
  let verdict :=
    match ainsert env with
    | Returns true => py "[+] Added content (" ++ n ++ py " chars)"
    | Returns false => py "[-] Failed to extract relationships from content"
    | Raises msg => py "[!] Insert error: " ++ msg
    end in
  fst (handle_insert env text w) = Ok tt /\
  (exists probe_entry,
     log_appends (added w w') =
       [probe_entry; py "[*] Processing content (" ++ n ++ py " chars)..."; verdict]) /\
  activity_log w' = slice_last 50 (activity_log w ++ log_appends (added w w')) /\
  errors_shown (added w w') =
    match ainsert env with
    | Returns true => []
    | Returns false => [py "Failed to insert content - no relationships extracted"]
    | Raises msg => [py "An error occurred: " ++ msg]
    end /\
  initialized w' = initialized w /\
  settings w' = settings w.
Proof.
  intros Hrag Hcred. cbn zeta.
  destruct (handle_insert_effect env text w) as (_ & _ & H).
  rewrite Hrag, Hcred in H.
  destruct H as (Hr & Hi & Hs & _ & Hlog & Herr).
  split; [exact Hr |].
  split; [eexists; exact Hlog |].
  split; [| split; [exact Herr | split; [exact Hi | exact Hs]]].
  rewrite Hlog.
  destruct (credential_ok_inv env w Hcred) as (Hk & He & r & Hc).
  clear Hlog Herr Hr Hi Hs.
  unfold handle_insert. unfold bind at 1. unfold get at 1. rewrite Hrag.
  unfold try_except. unfold bind at 1.
  rewrite (test_api_key_pass env w r Hk He Hc). cbn [negb].
  unfold probe_reply. rewrite Hc.
  unfold_ops. cbn. rewrite Hrag. cbn.
  destruct (ainsert env) as [[|] | msg]; cbn; norm_log; reflexivity.
Qed.

Lemma insert_logs_one_verdict_witness :
  exists probe_entry,
    log_appends
      (added session1 (snd (handle_insert env_ok (py "Marley was dead.") session1)))
    = [probe_entry; py "[*] Processing content (16 chars)...";
       py "[+] Added content (16 chars)"].
Proof.
  destruct (insert_logs_one_verdict env_ok (py "Marley was dead.") session1
              (engine_for (settings session0) 1536 8192 0))
    as (_ & (entry & Hlog) & _).
  { vm_compute; reflexivity. }
  { vm_compute; reflexivity. }
  exists entry. exact Hlog.
Defined.

(** ** Script runs around a failing initialisation *)

Lemma init_rag_constructor_raises (env : Env) (w : World) (r : pystr)
    (dim max_tokens : Z) (msg : pystr) :
  truthy (api_key (settings w)) = true ->
  embeddings_create env = Returns tt ->
  chat_completions_create env = Returns r ->
  llm_model (settings w) ∈ AVAILABLE_LLM_MODELS ->
  lookup_config (embedding_model (settings w)) embedding_configs = Some (dim, max_tokens) ->
  lightrag_new env = Raises msg ->
  init_rag env w =
  (Exc (PyException msg),
   mkWorld (initialized w) (settings w) (rag w) (messages w)
     (slice_last 50 (activity_log w ++ [probe_log_entry r]))
     (journal w ++
      [EmbeddingsCreate (api_key (settings w));
       ChatCompletionsCreate (api_key (settings w))] ++
      logged (probe_log_entry r) ++
      (if working_dir_exists env then [] else [Makedirs WORKING_DIR]) ++
      [NewLightRAG (engine_for (settings w) dim max_tokens (constructions (journal w)))])).
Proof.
  intros Hk He Hc Hllm Hemb Hnew.
  unfold init_rag at 1. unfold bind at 1.
  rewrite (test_api_key_pass env w r Hk He Hc). cbn [negb].
  unfold AVAILABLE_LLM_MODELS in Hllm.
  unfold_ops. cbn.
  destruct (working_dir_exists env); cbn;
    rewrite (bool_decide_eq_true_2 _ Hllm); cbn;
    rewrite Hemb; cbn; rewrite Hnew; cbn;
    norm_journal; reflexivity.
Qed.

(** X7.  When the engine's constructor raises during initialisation, the
    exception ends the script run: the prompt submitted in that run is
    neither logged nor sent to an engine nor answered, and no message is
    appended.  The constructor has been called once; the flag stays unset and
    the session keeps whatever engine reference it had.  The only log entry
    of the run is the probe's. *)
Theorem failed_construction_drops_turn (env : Env) (prompt : option pystr)
    (w : World) (msg : pystr) :
  initialized w = false ->
  credential_ok env w = true ->
  settings_offered (settings w) ->
  lightrag_new env = Raises msg ->
  let w' := snd (script_run env prompt w) in
  fst (script_run env prompt w) = Exc (PyException msg) /\
  initialized w' = false /\
  rag w' = rag w /\
  settings w' = settings w /\
  messages w' = messages w /\
  constructions (journal w') = S (constructions (journal w)) /\
  log_appends (added w w') = [probe_log_entry (probe_reply env)] /\
  (exists e, engine_calls (added w w') = [NewLightRAG e]).
Proof.
  intros Hinit Hcred (Hllm & Hemb & _) Hnew. cbn zeta.
  destruct (credential_ok_inv env w Hcred) as (Hk & He & r & Hc).
  destruct (lookup_config_available _ Hemb) as (dim & mt & Hcfg).
  unfold script_run, bind.
  rewrite (ensure_ready_uninit env w Hinit).
  rewrite (init_rag_constructor_raises env w r dim mt msg Hk He Hc Hllm Hcfg Hnew).
  cbn [fst snd initialized rag settings messages journal].
  unfold probe_reply. rewrite Hc.
  norm_added.
  split; [reflexivity |]. split; [exact Hinit |].
  split; [reflexivity |]. split; [reflexivity |]. split; [reflexivity |].
  destruct (working_dir_exists env); unfold logged; cbn [app];
    (split; [norm_journal; lia |]);
    (split; [reflexivity |]); eexists; reflexivity.
Qed.

Lemma failed_construction_drops_turn_witness :
  let env := mkEnv [] false (Returns tt) (Returns (py "ok")) true
               (Raises (py "cannot open ./dickens")) 0 0 (Returns (py "world"))
               (Returns true) clock_noon (fun _ => py "0.7") quote_repr in
  fst (script_run env (Some (py "hello")) session0)
    = Exc (PyException (py "cannot open ./dickens")) /\
  messages (snd (script_run env (Some (py "hello")) session0)) = [] /\
  rag (snd (script_run env (Some (py "hello")) session0)) = None.
Proof.
  cbn zeta.
  destruct (failed_construction_drops_turn
              (mkEnv [] false (Returns tt) (Returns (py "ok")) true
                 (Raises (py "cannot open ./dickens")) 0 0 (Returns (py "world"))
                 (Returns true) clock_noon (fun _ => py "0.7") quote_repr)
              (Some (py "hello")) session0 (py "cannot open ./dickens"))
    as (Hr & _ & Hrag & _ & Hmsg & _).
  { reflexivity. }
  { vm_compute; reflexivity. }
  { repeat split; apply list_elem_of_In; vm_compute; tauto. }
  { reflexivity. }
  split; [exact Hr |]. split; [exact Hmsg | exact Hrag].
Defined.

Lemma constructions_engine_calls (d : list Event) :
  constructions d = constructions (engine_calls d).
Proof.
  unfold engine_calls, constructions.
  induction d as [| [] d IH]; cbn; auto.
Qed.

Lemma aquery_event_builds_nothing (w : World) (prompt : pystr) :
  constructions (aquery_event w prompt) = 0.
Proof. unfold aquery_event. now destruct (rag w). Qed.

Lemma ensure_ready_credential_fail (env : Env) (w : World) :
  initialized w = false ->
  credential_ok env w = false ->
  exists delta,
    snd (ensure_ready env w) = snd (test_api_key env w) /\
    fst (ensure_ready env w)
      = (if resubmitting env then Exc RerunException else Ok tt) /\
    journal (snd (ensure_ready env w)) = journal w ++ delta /\
    In (Ui st_api_key_form) delta /\
    engine_calls delta = [] /\
    log_appends delta = [] /\
    msg_appends delta = [] /\
    rag (snd (ensure_ready env w)) = rag w /\
    messages (snd (ensure_ready env w)) = messages w /\
    activity_log (snd (ensure_ready env w)) = activity_log w /\
    initialized (snd (ensure_ready env w)) = false /\
    settings (snd (ensure_ready env w))
      = (if resubmitting env
         then set_api_key (form_new_api_key env) (settings w)
         else settings w).
Proof.
  intros Hinit Hcred.
  destruct (test_api_key_fail env w Hcred)
    as (delta & Hj & Hform & Hcalls & Hlog & Hmsgs & Hrag & Hmsg & Hal & Hr).
  exists delta.
  rewrite (ensure_ready_uninit env w Hinit), (init_rag_credential_fail env w Hcred).
  cbn [fst snd].
  split; [reflexivity |].
  destruct (resubmitting env); destruct Hr as (Hres & Hi & Hs); rewrite Hres;
    repeat split; auto; congruence.
Qed.

(** X8.  When the credential check fails during initialisation and no new key
    is being submitted, the script run goes on to the chat turn: the prompt
    is logged and sent to whatever engine the session still holds, or, when
    it holds none, answered by the apology with the error
    ['NoneType' object has no attribute 'aquery'].  Exactly one message is
    appended, the credential form has been shown, and nothing is built. *)
Theorem turn_after_failed_credential_check (env : Env) (prompt : pystr) (w : World) :
  initialized w = false ->
  credential_ok env w = false ->
  resubmitting env = false ->
  truthy prompt = true ->
  let w' := snd (script_run env (Some prompt) w) in
  fst (script_run env (Some prompt) w) = Ok tt /\
  In (Ui st_api_key_form) (added w w') /\
  engine_calls (added w w') = aquery_event w prompt /\
  constructions (journal w') = constructions (journal w) /\
  messages w' = messages w ++ [turn_message env w prompt] /\
  (rag w = None ->
   turn_message env w prompt
   = fallback_message (settings w) (py "'NoneType' object has no attribute 'aquery'")) /\
  initialized w' = false /\
  rag w' = rag w.
Proof.
  intros Hinit Hcred Hsub Hp. cbn zeta.
  destruct (ensure_ready_credential_fail env w Hinit Hcred)
    as (delta & _ & Hres & Hj & Hform & Hcalls & _ & _ & Hrag & Hmsg & _ & Hi & Hs).
  rewrite Hsub in Hres, Hs.
  unfold script_run, bind.
  destruct (ensure_ready env w) as [r1 w1]. cbn [fst snd] in *. subst r1.
  destruct (chat_turn_effect env prompt w1 Hp) as (mid & Hrun & Hc2 & _ & _).
  rewrite Hrun. cbn [fst snd messages initialized rag journal].
  assert (Hm : turn_message env w1 prompt = turn_message env w prompt).
  { unfold turn_message, aquery_raises. now rewrite Hrag, Hs. }
  assert (Ha : aquery_event w1 prompt = aquery_event w prompt).
  { unfold aquery_event. now rewrite Hrag, Hs. }
  rewrite (added_app w (delta ++ mid)) by (cbn; rewrite Hj; now rewrite <- app_assoc).
  split; [reflexivity |].
  split; [apply in_or_app; left; exact Hform |].
  split.
  { unfold engine_calls in *. rewrite List.filter_app, Hcalls, Hc2, Ha. reflexivity. }
  split.
  { rewrite Hj, !constructions_app.
    rewrite (no_engine_calls_no_constructions _ Hcalls).
    assert (Hz : constructions mid = 0).
    { rewrite constructions_engine_calls, Hc2. apply aquery_event_builds_nothing. }
    lia. }
  split; [rewrite Hmsg, Hm; reflexivity |].
  split.
  { intros Hnone. unfold turn_message, aquery_raises. rewrite Hnone. reflexivity. }
  split; [exact Hi | exact Hrag].
Qed.

Lemma turn_after_failed_credential_check_witness :
  messages (snd (script_run env_rejected (Some (py "hello")) session0))
  = [fallback_message (settings session0)
       (py "'NoneType' object has no attribute 'aquery'")] /\
  engine_calls (added session0 (snd (script_run env_rejected (Some (py "hello")) session0)))
  = [].
Proof.
  destruct (turn_after_failed_credential_check env_rejected (py "hello") session0)
    as (_ & _ & Hcalls & _ & Hmsg & Hnone & _).
  { reflexivity. }
  { reflexivity. }
  { reflexivity. }
  { reflexivity. }
  split.
  - rewrite Hmsg, Hnone by reflexivity. reflexivity.
  - exact Hcalls.
Defined.

(** X9.  Submitting a new key through the credential form ends the run at
    once with a rerun: the key is stored in the settings, the prompt of that
    run is dropped, no engine is called.  In the run that follows, a passing
    check of the stored key leads to an engine that is built with exactly the
    key that was typed, and both probe requests of that run carry it. *)
Theorem submitted_key_is_used_next (env env' : Env) (prompt : option pystr) (w : World) :
  initialized w = false ->
  credential_ok env w = false ->
  resubmitting env = true ->
  settings_offered (settings w) ->
  let w1 := snd (script_run env prompt w) in
  let w2 := snd (ensure_ready env' w1) in
  fst (script_run env prompt w) = Exc RerunException /\
  api_key (settings w1) = form_new_api_key env /\
  messages w1 = messages w /\
  engine_calls (added w w1) = [] /\
  (probe_passes env' = true -> lightrag_new env' = Returns tt ->
   fst (ensure_ready env' w1) = Ok tt /\
   initialized w2 = true /\
   (exists e, rag w2 = Some e /\
              kw_api_key (llm_model_kwargs e) = form_new_api_key env /\
              instance e = constructions (journal w1)) /\
   In (EmbeddingsCreate (form_new_api_key env)) (added w1 w2) /\
   In (ChatCompletionsCreate (form_new_api_key env)) (added w1 w2)).
Proof.
  intros Hinit Hcred Hsub (Hllm & Hemb & _). cbn zeta.
  destruct (ensure_ready_credential_fail env w Hinit Hcred)
    as (delta & _ & Hres & Hj & _ & Hcalls & _ & _ & _ & Hmsg & _ & Hi & Hs).
  rewrite Hsub in Hres, Hs.
  unfold script_run, bind.
  destruct (ensure_ready env w) as [r1 w1]. cbn [fst snd] in *. subst r1.
  cbn [fst snd].
  assert (Hkey : api_key (settings w1) = form_new_api_key env).
  { rewrite Hs. destruct (settings w); reflexivity. }
  split; [reflexivity |]. split; [exact Hkey |]. split; [exact Hmsg |].
  split; [rewrite (added_app w delta w1 Hj); exact Hcalls |].
  intros Hprobe Hnew.
  assert (Hk : truthy (form_new_api_key env) = true).
  { unfold resubmitting in Hsub. apply andb_prop in Hsub. tauto. }
  assert (Hcred' : credential_ok env' w1 = true).
  { unfold credential_ok. now rewrite Hkey, Hk, Hprobe. }
  destruct (credential_ok_inv env' w1 Hcred') as (Hk1 & He & r & Hc).
  assert (Hllm1 : llm_model (settings w1) ∈ AVAILABLE_LLM_MODELS).
  { rewrite Hs. destruct (settings w); exact Hllm. }
  assert (Hemb1 : embedding_model (settings w1) ∈ AVAILABLE_EMBEDDER_MODELS).
  { rewrite Hs. destruct (settings w); exact Hemb. }
  destruct (lookup_config_available _ Hemb1) as (dim & mt & Hcfg).
  rewrite (ensure_ready_uninit env' w1 Hi).
  pose proof (init_rag_pass env' w1 r dim mt Hk1 He Hc Hllm1 Hcfg Hnew) as Hrun.
  cbn zeta in Hrun. rewrite Hrun. cbn [fst snd initialized rag].
  split; [reflexivity |]. split; [reflexivity |].
  split.
  { eexists. split; [reflexivity |]. split; [exact Hkey | reflexivity]. }
  norm_added. rewrite Hkey. cbn. tauto.
Qed.

Lemma submitted_key_is_used_next_witness :
  let env := mkEnv (py "sk-new") true (Raises (py "401")) (Returns (py "ok")) true
               (Returns tt) 3 2 (Returns (py "world")) (Returns true)
               clock_noon (fun _ => py "0.7") quote_repr in
  let w1 := snd (script_run env (Some (py "hello")) session0) in
  fst (script_run env (Some (py "hello")) session0) = Exc RerunException /\
  messages w1 = [] /\
  exists e, rag (snd (ensure_ready env_ok w1)) = Some e /\
            kw_api_key (llm_model_kwargs e) = py "sk-new".
Proof.
  cbn zeta.
  destruct (submitted_key_is_used_next
              (mkEnv (py "sk-new") true (Raises (py "401")) (Returns (py "ok")) true
                 (Returns tt) 3 2 (Returns (py "world")) (Returns true)
                 clock_noon (fun _ => py "0.7") quote_repr)
              env_ok (Some (py "hello")) session0)
    as (Hr & _ & Hmsg & _ & Hnext).
  { reflexivity. }
  { reflexivity. }
  { reflexivity. }
  { repeat split; apply list_elem_of_In; vm_compute; tauto. }
  split; [exact Hr |]. split; [exact Hmsg |].
  destruct (Hnext eq_refl eq_refl) as (_ & _ & (e & He & Hk & _) & _).
  exists e. split; [exact He | exact Hk].
Defined.

(** ** The tabs of the insert dialog *)

Lemma handle_insert_no_exception (env : Env) (text msg : pystr) (w : World) :
  fst (handle_insert env text w) <> Exc (PyException msg).
Proof.
  destruct (handle_insert_effect env text w) as (_ & _ & H).
  destruct (rag w); [destruct (credential_ok env w) |];
    destruct H as (Hr & _); rewrite Hr; [| destruct (resubmitting env) |];
    discriminate.
Qed.

Lemma guarded_read_insert (env : Env) (read : outcome pystr) (prefix : pystr)
    (w : World) :
  try_except (text <- call read ;; handle_insert env text)
             (fun e => emit (Ui (st_error (prefix ++ e)))) w
  = match read with
    | Returns text => handle_insert env text w
    | Raises msg => (Ok tt, after_error (prefix ++ msg) w)
    end.
Proof.
  destruct read as [text | msg];
    unfold try_except, bind, call, ret, raise; cbv beta iota.
  - pose proof (handle_insert_no_exception env text) as Hne.
    destruct (handle_insert env text w) as [r w'] eqn:Hrun.
    destruct r as [a | [msg |]]; try reflexivity.
    exfalso. apply (Hne msg w). rewrite Hrun. reflexivity.
  - reflexivity.
Qed.

Lemma tabs_read_then_insert (env : Env) (text url : pystr) (w : World) :
  truthy url = true ->
  show_insert_dialog_upload env (Some (Returns text)) true w
    = handle_insert env text w /\
  show_insert_dialog_website env url true (Returns text) w
    = handle_insert env text w /\
  show_insert_dialog_book env true (Returns text) w
    = handle_insert env text w.
Proof.
  intros Hurl.
  unfold show_insert_dialog_upload, show_insert_dialog_website,
    show_insert_dialog_book.
  rewrite Hurl, !guarded_read_insert. auto.
Qed.

(** X10.  The Upload, Website and Test-book tabs hand what they have read to
    [handle_insert] as it is: a run of the tab is then a run of
    [handle_insert] on that text, and the tab's own error handler never
    fires, whatever the engine or the probe do. *)
Theorem tabs_insert_what_they_read (env : Env) (text url : pystr) (w : World) :
  truthy url = true ->
  show_insert_dialog_upload env (Some (Returns text)) true w
    = handle_insert env text w /\
  show_insert_dialog_website env url true (Returns text) w
    = handle_insert env text w /\
  show_insert_dialog_book env true (Returns text) w
    = handle_insert env text w.
Proof. apply tabs_read_then_insert. Qed.

Lemma tabs_insert_what_they_read_witness :
  show_insert_dialog_website (with_ainsert (Raises (py "rate limit")) env_ok)
    (py "https://example.org") true (Returns (py "Marley was dead.")) session1
  = handle_insert (with_ainsert (Raises (py "rate limit")) env_ok)
      (py "Marley was dead.") session1.
Proof.
  destruct (tabs_insert_what_they_read
              (with_ainsert (Raises (py "rate limit")) env_ok)
              (py "Marley was dead.") (py "https://example.org") session1)
    as (_ & Hweb & _).
  { reflexivity. }
  exact Hweb.
Defined.

(** X11.  Only the Paste tab checks that there is something to insert.  With
    an engine and a passing credential, an empty file, an empty page or an
    empty book is sent to the engine and logged as
    [[*] Processing content (0 chars)...], while an empty paste sends
    nothing and changes nothing. *)
Theorem only_paste_skips_empty_content (env : Env) (url : pystr) (w : World)
    (e : LightRAG) :
  rag w = Some e ->
  credential_ok env w = true ->
  truthy url = true ->
  show_insert_dialog_paste env [] true w = (Ok tt, w) /\
  forall run,
    In run [show_insert_dialog_upload env (Some (Returns [])) true;
            show_insert_dialog_website env url true (Returns []);
            show_insert_dialog_book env true (Returns [])] ->
    engine_calls (added w (snd (run w))) = [Ainsert e []] /\
    In (py "[*] Processing content (0 chars)...") (log_appends (added w (snd (run w)))).
Proof.
  intros Hrag Hcred Hurl. split; [reflexivity |].
  destruct (tabs_read_then_insert env [] url w Hurl) as (Hu & Hw & Hb).
  destruct (handle_insert_effect env [] w) as (_ & _ & H).
  rewrite Hrag, Hcred in H. destruct H as (_ & _ & _ & Hcalls & Hlog & _).
  unfold pystr in Hu, Hw, Hb.
  intros run [<- | [<- | [<- | []]]];
    rewrite ?Hu, ?Hw, ?Hb, Hcalls, Hlog; (split; [reflexivity |]);
    right; left; reflexivity.
Qed.

Lemma only_paste_skips_empty_content_witness :
  show_insert_dialog_paste env_ok [] true session1 = (Ok tt, session1) /\
  engine_calls
    (added session1
       (snd (show_insert_dialog_upload env_ok (Some (Returns [])) true session1)))
  = [Ainsert (engine_for (settings session0) 1536 8192 0) []].
Proof.
  destruct (only_paste_skips_empty_content env_ok (py "https://example.org") session1
              (engine_for (settings session0) 1536 8192 0))
    as (Hpaste & Hrest).
  { reflexivity. }
  { reflexivity. }
  { reflexivity. }
  split; [exact Hpaste |].
  exact (proj1 (Hrest _ (or_introl eq_refl))).
Defined.

(** X12.  When a tab cannot read its source, it shows one error under its own
    heading and does nothing else: no probe, no engine call, no entry in the
    activity log (an insertion that fails inside [handle_insert] is logged,
    a read that fails is not). *)
Theorem failed_read_is_only_shown (env : Env) (msg url : pystr) (w : World) :
  truthy url = true ->
  show_insert_dialog_upload env (Some (Raises msg)) true w
    = (Ok tt, after_error (py "Error inserting file: " ++ msg) w) /\
  show_insert_dialog_website env url true (Raises msg) w
    = (Ok tt, after_error (py "Error inserting website content: " ++ msg) w) /\
  show_insert_dialog_book env true (Raises msg) w
    = (Ok tt, after_error (py "Error inserting Dickens test book: " ++ msg) w) /\
  show_insert_dialog_paper env true (PdfFailed msg) w
    = (Ok tt, after_error (py "Error inserting LightRAG whitepaper: " ++ msg) w) /\
  show_insert_dialog_paper env true PdfNotFound w
    = (Ok tt, after_error
                (py "PDF file not found. Please ensure the file exists in dickens/inbox/") w) /\
  forall text, activity_log (after_error text w) = activity_log w /\
               engine_calls (added w (after_error text w)) = [] /\
               requests_sent (added w (after_error text w)) = [].
Proof.
  intros Hurl.
  unfold show_insert_dialog_upload, show_insert_dialog_website,
    show_insert_dialog_book.
  rewrite Hurl, !guarded_read_insert.
  do 5 (split; [reflexivity |]).
  intros text. unfold after_error. norm_added. repeat split.
Qed.

Lemma failed_read_is_only_shown_witness :
  show_insert_dialog_website env_ok (py "https://example.org") true
    (Raises (py "404 Client Error")) session1
  = (Ok tt,
     after_error (py "Error inserting website content: 404 Client Error") session1).
Proof.
  destruct (failed_read_is_only_shown env_ok (py "404 Client Error")
              (py "https://example.org") session1)
    as (_ & Hweb & _).
  { reflexivity. }
  exact Hweb.
Defined.

(** *** Pages of the PDF *)

Lemma lstrip_blank (s : pystr) : blank s = true -> lstrip s = [].
Proof.
  unfold blank. induction s as [| c s IH]; cbn; [reflexivity |].
  destruct (is_space c); cbn; [exact IH | discriminate].
Qed.

Lemma lstrip_not_blank (s : pystr) :
  blank s = false -> exists c r, lstrip s = c :: r /\ is_space c = false.
Proof.
  unfold blank. induction s as [| c s IH]; cbn; [discriminate |].
  destruct (is_space c) eqn:Hc; cbn; [exact IH |].
  intros _. exists c, s. auto.
Qed.

Lemma lstrip_ends_nonspace (l : pystr) (c : N) :
  is_space c = false -> lstrip (l ++ [c]) <> [].
Proof.
  intros Hc. induction l as [| d l IH]; cbn.
  - rewrite Hc. discriminate.
  - destruct (is_space d); [exact IH | discriminate].
Qed.

Lemma truthy_strip (text : pystr) : truthy (strip text) = negb (blank text).
Proof.
  unfold strip, rstrip. destruct (blank text) eqn:Hb.
  - rewrite (lstrip_blank _ Hb). reflexivity.
  - destruct (lstrip_not_blank _ Hb) as (c & r & -> & Hc). cbn [rev negb].
    pose proof (lstrip_ends_nonspace (rev r) c Hc) as Hne.
    destruct (lstrip (rev r ++ [c])) as [| d l]; [contradiction |].
    cbn [rev]. destruct (rev l); reflexivity.
Qed.

Lemma filter_nil_forallb {A} (f : A -> bool) (l : list A) :
  (List.filter (fun x => negb (f x)) l = []) <-> forallb f l = true.
Proof.
  induction l as [| x l IH]; cbn; [tauto |].
  destruct (f x); cbn; [exact IH |]. split; discriminate.
Qed.

(** X13.  The Test-paper tab keeps a page exactly when it has a character that
    is not white space, and keeps it whole, with its leading and trailing
    white space.  The kept pages, in order and separated by one empty line,
    form the text handed to [handle_insert]; when no page is kept (also when
    the PDF has no page), the tab shows an error and nothing is inserted. *)
Theorem paper_tab_inserts_nonblank_pages (env : Env) (texts : list pystr) (w : World) :
  show_insert_dialog_paper env true (PdfPages texts) w
  = if forallb blank texts
    then (Ok tt, after_error (py "No text could be extracted from the PDF") w)
    else handle_insert env
           (join (NL ++ NL) (List.filter (fun text => negb (blank text)) texts)) w.
Proof.
  unfold show_insert_dialog_paper.
  rewrite (List.filter_ext _ (fun text => negb (blank text)) truthy_strip).
  destruct (forallb blank texts) eqn:Hall.
  - apply (filter_nil_forallb blank) in Hall. rewrite Hall. reflexivity.
  - destruct (List.filter (fun text => negb (blank text)) texts) eqn:Hf;
      [| reflexivity].
    apply (filter_nil_forallb blank) in Hf. congruence.
Qed.

(** X14.  A run of the insert dialog in which no button is pressed on content
    changes nothing and shows nothing; neither does pressing Insert on an
    empty paste or on an empty URL. *)
Theorem insert_dialog_idle (env : Env) (form : InsertForm) (w : World) :
  insert_clicked form = false \/ text_input form = [] ->
  insert_file_clicked form = false \/ uploaded_file form = None ->
  insert_url_clicked form = false \/ url form = [] ->
  book_clicked form = false ->
  paper_clicked form = false ->
  show_insert_dialog env form w = (Ok tt, w).
Proof.
  intros Hpaste Hfile Hurl Hbook Hpaper.
  unfold show_insert_dialog, show_insert_dialog_paste, show_insert_dialog_upload,
    show_insert_dialog_website, show_insert_dialog_book, show_insert_dialog_paper.
  rewrite Hbook, Hpaper.
  destruct Hpaste as [-> | ->], Hfile as [-> | ->], Hurl as [-> | ->];
    destruct (insert_clicked form), (insert_file_clicked form),
      (insert_url_clicked form), (uploaded_file form); reflexivity.
Qed.

Lemma insert_dialog_idle_witness :
  show_insert_dialog env_ok
    (mkInsertForm [] true (Some (Returns (py "text"))) false [] true
       (Returns (py "page")) false (Returns (py "book")) false PdfNotFound)
    session1
  = (Ok tt, session1).
Proof.
  apply insert_dialog_idle; cbn; auto.
Defined.

(** *** What the dialog leaves alone *)

Ltac untouched_leaf :=
  lazymatch goal with
  | H : untouched_by_insert ?w0 ?w |- untouched_by_insert ?w0 _ =>
      let H1 := fresh in let H2 := fresh in let H3 := fresh in let H4 := fresh in
      destruct H as (H1 & H2 & H3 & H4);
      unfold untouched_by_insert; simpl_world;
      repeat split;
      try assumption;
      try congruence;
      try (count_constructions; lia);
      try (destruct (settings w); cbn in *; assumption)
  end.

Lemma untouched_refl (w : World) : untouched_by_insert w w.
Proof.
  unfold untouched_by_insert. repeat split. destruct (settings w); reflexivity.
Qed.

Lemma handle_insert_untouched (env : Env) (text : pystr) (w0 w : World) :
  untouched_by_insert w0 w ->
  wp (handle_insert env text)
     (fun _ => untouched_by_insert w0) (fun _ => untouched_by_insert w0) w.
Proof.
  intros Hw.
  unfold handle_insert, test_api_key, show_api_key_form, rag_ainsert.
  wp_go; untouched_leaf.
Qed.

Lemma after_error_untouched (text : pystr) (w0 w : World) :
  untouched_by_insert w0 w -> untouched_by_insert w0 (after_error text w).
Proof. intros Hw. unfold after_error. untouched_leaf. Qed.

Lemma show_insert_dialog_preserves (I : World -> Prop) (env : Env) (form : InsertForm) :
  (forall text w, I w -> wp (handle_insert env text) (fun _ => I) (fun _ => I) w) ->
  (forall text w, I w -> I (after_error text w)) ->
  forall w, I w -> wp (show_insert_dialog env form) (fun _ => I) (fun _ => I) w.
Proof.
  intros Hins Herr.
  assert (Hseq : forall (m : M unit) (k : unit -> M unit) w,
            wp m (fun _ => I) (fun _ => I) w ->
            (forall a v, I v -> wp (k a) (fun _ => I) (fun _ => I) v) ->
            wp (bind m k) (fun _ => I) (fun _ => I) w).
  { intros m k w Hm Hk. apply wp_bind.
    eapply wp_mono; [exact Hm | | auto]. cbv beta. auto. }
  assert (Hread : forall read prefix w, I w ->
            wp (try_except (text <- call read ;; handle_insert env text)
                  (fun e => emit (Ui (st_error (prefix ++ e)))))
               (fun _ => I) (fun _ => I) w).
  { intros read prefix w Hw. unfold wp. rewrite guarded_read_insert.
    destruct read as [text | msg]; [apply (Hins text w Hw) | apply Herr, Hw]. }
  assert (Hshow : forall text w, I w ->
            wp (emit (Ui (st_error text))) (fun _ => I) (fun _ => I) w).
  { intros text w Hw. apply wp_emit. apply (Herr text w Hw). }
  intros w Hw. unfold show_insert_dialog.
  apply Hseq.
  { unfold show_insert_dialog_paste.
    destruct (insert_clicked form); [| apply wp_ret; exact Hw].
    destruct (truthy (text_input form)); [| apply wp_ret; exact Hw].
    apply Hins; exact Hw. }
  clear w Hw. intros _ w Hw.
  apply Hseq.
  { unfold show_insert_dialog_upload.
    destruct (uploaded_file form); [| apply wp_ret; exact Hw].
    destruct (insert_file_clicked form); [| apply wp_ret; exact Hw].
    apply Hread; exact Hw. }
  clear w Hw. intros _ w Hw.
  apply Hseq.
  { unfold show_insert_dialog_website.
    destruct (insert_url_clicked form); [| apply wp_ret; exact Hw].
    destruct (truthy (url form)); [| apply wp_ret; exact Hw].
    apply Hread; exact Hw. }
  clear w Hw. intros _ w Hw.
  apply Hseq.
  { unfold show_insert_dialog_book.
    destruct (book_clicked form); [| apply wp_ret; exact Hw].
    apply Hread; exact Hw. }
  clear w Hw. intros _ w Hw.
  unfold show_insert_dialog_paper.
  destruct (paper_clicked form); [| apply wp_ret; exact Hw].
  destruct (paper_pdf form) as [| msg | texts]; try (apply Hshow; exact Hw).
  destruct (List.filter _ texts); [apply Hshow | apply Hins]; exact Hw.
Qed.

(** X15.  Whatever is pressed in the insert dialog and whatever the provider
    and the engine answer, a run of the dialog leaves the engine reference
    and the chat history as they were, builds no engine, and changes no
    setting other than the credential. *)
Theorem insert_dialog_leaves_engine_and_history (env : Env) (form : InsertForm)
    (w : World) :
  untouched_by_insert w (snd (show_insert_dialog env form w)).
Proof.
  pose proof (show_insert_dialog_preserves (untouched_by_insert w) env form
                (fun text v => handle_insert_untouched env text w v)
                (fun text v => after_error_untouched text w v)
                w (untouched_refl w)) as H.
  apply wp_run in H. destruct (fst (show_insert_dialog env form w)); exact H.
Qed.

(** ** Settings that are changed but not applied *)

Lemma chat_turn_sends_no_request (env : Env) (prompt : pystr) (w : World) :
  requests_sent (added w (snd (chat_turn env prompt w))) = [].
Proof.
  apply (wp_result (chat_turn env prompt)
           (fun _ w' => requests_sent (added w w') = [])).
  unfold chat_turn, rag_aquery, append_message.
  wp_go; norm_added; reflexivity.
Qed.

(** X16.  Closing the settings dialog without Apply, the credential left as
    it was, stores the dialog's values and keeps the flag and the engine.  The
    next prompt is therefore answered without a probe and without a rebuild,
    by the engine that was built from the earlier settings; only the search
    mode of the dialog reaches that query.  The message appended for the
    answer records the dialog's values, the model included, whatever model
    the engine was built with. *)
Theorem unapplied_settings_keep_engine (env env' : Env) (form : SettingsForm)
    (prompt : pystr) (w : World) (e : LightRAG) :
  settings_offered (settings w) ->
  initialized w = true ->
  rag w = Some e ->
  w_api_key form = api_key (settings w) ->
  w_apply form = false ->
  truthy prompt = true ->
  let w1 := snd (show_settings_dialog env form w) in
  let w2 := snd (script_run env' (Some prompt) w1) in
  fst (show_settings_dialog env form w) = Ok tt /\
  settings w1 = form_settings form /\
  initialized w1 = true /\
  rag w2 = Some e /\
  engine_calls (added w1 w2) = [Aquery e prompt (w_search_mode form)] /\
  requests_sent (added w1 w2) = [] /\
  (forall response, aquery env' = Returns response ->
     exists m, messages w2 = messages w ++ [m] /\
               content m = response /\
               metadata m !! "llm_model" = Some (VStr (w_llm_model form)) /\
               metadata m !! "search_mode" = Some (VStr (w_search_mode form))).
Proof.
  intros (Hllm & Hemb & Hmode) Hinit Hrag Hkey Happly Hp. cbn zeta.
  rewrite (show_settings_dialog_run env form w Hllm Hemb Hmode).
  rewrite Happly, (bool_decide_eq_true_2 _ Hkey). cbn [fst snd].
  set (w1 := mkWorld (initialized w) (form_settings form) (rag w) (messages w)
               (activity_log w) (journal w ++ [])).
  assert (Hrun1 : script_run env' (Some prompt) w1 = chat_turn env' prompt w1).
  { unfold script_run, bind. rewrite (ensure_ready_init env' w1 Hinit). reflexivity. }
  rewrite Hrun1.
  pose proof (chat_turn_sends_no_request env' prompt w1) as Hreq.
  destruct (chat_turn_effect env' prompt w1 Hp) as (mid & Hrun & Hcalls & _ & _).
  rewrite Hrun in *. cbn [fst snd rag messages settings initialized] in *.
  split; [reflexivity |]. split; [reflexivity |]. split; [exact Hinit |].
  split; [exact Hrag |].
  split.
  { rewrite (added_app w1 mid) by reflexivity. rewrite Hcalls.
    unfold aquery_event. cbn [rag settings w1]. rewrite Hrag. reflexivity. }
  split; [exact Hreq |].
  intros response Haq.
  exists (success_message env' (form_settings form) prompt response).
  unfold turn_message, aquery_raises. cbn [rag settings w1]. rewrite Hrag, Haq.
  repeat split.
Qed.

Lemma unapplied_settings_keep_engine_witness :
  let form := form_of (settings session1) (py "sk-live") (py "gpt-4o-mini") false in
  let w1 := snd (show_settings_dialog env_ok form session1) in
  let w2 := snd (script_run env_ok (Some (py "hello")) w1) in
  exists e, rag w2 = Some e /\
            llm_model_name e = py "gpt-4o-mini-2024-07-18" /\
            engine_calls (added w1 w2) = [Aquery e (py "hello") (py "hybrid")] /\
            exists m, messages w2 = [m] /\
                      metadata m !! "llm_model" = Some (VStr (py "gpt-4o-mini")).
Proof.
  cbn zeta.
  destruct (unapplied_settings_keep_engine env_ok env_ok
              (form_of (settings session1) (py "sk-live") (py "gpt-4o-mini") false)
              (py "hello") session1 (engine_for (settings session0) 1536 8192 0))
    as (_ & _ & _ & Hrag & Hcalls & _ & Hmsg).
  { repeat split; apply list_elem_of_In; vm_compute; tauto. }
  { reflexivity. }
  { reflexivity. }
  { reflexivity. }
  { reflexivity. }
  { reflexivity. }
  exists (engine_for (settings session0) 1536 8192 0).
  split; [exact Hrag |]. split; [reflexivity |]. split; [exact Hcalls |].
  destruct (Hmsg (py "world") eq_refl) as (m & Hm & _ & Hmodel & _).
  exists m. split; [exact Hm | exact Hmodel].
Defined.

(** ** Every session a user can bring about *)

Lemma session1_reachable : reachable session1.
Proof.
  exact (reachable_step env_ok (RunScript None) session0
           (reachable_start (py "sk-live")) I).
Qed.

(** X17.  In every session that a sequence of script runs, settings dialogs,
    insert dialogs and downloads can reach, whatever the provider and the
    engine answered on the way: while the flag is set the session holds an
    engine, that engine was built with the credential now in the settings,
    the credential is not empty, and the engine is one of those the journal
    records as built. *)
Theorem initialized_session_holds_keyed_engine (w : World) :
  reachable w ->
  initialized w = true ->
  exists e, rag w = Some e /\
            kw_api_key (llm_model_kwargs e) = api_key (settings w) /\
            api_key (settings w) <> [] /\
            instance e < constructions (journal w).
Proof.
  intros Hw Hinit.
  destruct (reachable_inv w Hw) as (_ & Hcur & Hnum & _).
  destruct (Hcur Hinit) as (e & Hrag & Hkey & Ht).
  exists e. split; [exact Hrag |]. split; [exact Hkey |].
  split; [| exact (Hnum e Hrag)].
  destruct (api_key (settings w)); [discriminate | discriminate].
Qed.

Lemma initialized_session_holds_keyed_engine_witness :
  exists e, rag session1 = Some e /\
            kw_api_key (llm_model_kwargs e) = api_key (settings session1).
Proof.
  destruct (initialized_session_holds_keyed_engine session1) as (e & Hrag & Hkey & _).
  { exact session1_reachable. }
  { reflexivity. }
  exists e. split; [exact Hrag | exact Hkey].
Defined.

Lemma md_section_heading (env : Env) (m : Message) :
  role m = py "assistant" ->
  exists stamp rest,
    md_section env m = NL ++ NL ++ py "### Assistant (" ++ stamp ++ py ")" ++ rest.
Proof.
  intros Hrole. unfold md_section, md_message. rewrite Hrole.
  rewrite (bool_decide_eq_false_2 (py "assistant" = py "user"))
    by (vm_compute; discriminate).
  cbv zeta. cbn [app].
  match goal with
  | |- context [py " (" ++ ?s ++ py ")"] => exists s
  end.
  match goal with
  | |- context [join NL (_ :: ?tl)] => exists (NL ++ join NL tl)
  end.
  rewrite join_cons by discriminate.
  rewrite <- !(@List.app_assoc N). reflexivity.
Qed.

(** X18.  The history of a reachable session holds assistant messages only:
    the prompts are shown and logged but never stored.  Hence every section
    of an export is headed [### Assistant (...)], none [### User (...)]. *)
Theorem history_holds_assistant_messages_only (env : Env) (w : World) (m : Message) :
  reachable w ->
  In m (messages w) ->
  role m = py "assistant" /\
  exists stamp rest,
    md_section env m = NL ++ NL ++ py "### Assistant (" ++ stamp ++ py ")" ++ rest.
Proof.
  intros Hw Hin.
  destruct (reachable_inv w Hw) as (_ & _ & _ & Hhist & _).
  unfold assistant_only in Hhist. rewrite List.Forall_forall in Hhist.
  pose proof (Hhist m Hin) as Hrole.
  split; [exact Hrole | apply md_section_heading; exact Hrole].
Qed.

Lemma history_holds_assistant_messages_only_witness :
  role (success_message env_ok (settings session1) (py "hello") (py "world"))
  = py "assistant".
Proof.
  destruct (history_holds_assistant_messages_only env_ok
              (snd (perform env_ok (RunScript (Some (py "hello"))) session1))
              (success_message env_ok (settings session1) (py "hello") (py "world")))
    as [Hrole _].
  { exact (reachable_step env_ok (RunScript (Some (py "hello"))) session1
             session1_reachable I). }
  { vm_compute. left. reflexivity. }
  exact Hrole.
Defined.

Lemma show_download_dialog_keeps_inv (env : Env) (form : DownloadForm) (w : World) :
  session_inv w ->
  wp (show_download_dialog env form) (fun _ => session_inv) (fun _ => session_inv) w.
Proof.
  intros Hinv.
  unfold show_download_dialog, handle_chat_download, get_all_records_from_graph.
  wp_go; inv_leaf.
Qed.

Lemma reachable_with_downloads_inv (w : World) :
  reachable_with_downloads w -> session_inv w.
Proof.
  induction 1 as [key | env a w Hw IH Ha | env form w Hw IH].
  - apply new_session_inv.
  - apply perform_keeps_inv; assumption.
  - pose proof (show_download_dialog_keeps_inv env form w IH) as Hwp.
    apply wp_run in Hwp.
    destruct (fst (show_download_dialog env form w)); exact Hwp.
Qed.

Lemma session1_reachable_with_downloads : reachable_with_downloads session1.
Proof.
  exact (with_downloads_step env_ok (RunScript None) session0
           (with_downloads_start (py "sk-live")) I).
Qed.

Example download_records_logs_count :
  let w := snd (show_download_dialog env_ok form_records session1) in
  length (records_of graph_two_nodes) = 1 /\
  map rel_target (flat_map record_relationships (records_of graph_two_nodes))
    = [py "MARLEY"] /\
  log_appends (added session1 w) = [py "[" ++ DOWN_ARROW ++ py "] Downloaded 1 records"] /\
  slice_last 1 (activity_log w) = [py "[" ++ DOWN_ARROW ++ py "] Downloaded 1 records"].
Proof. cbn zeta. repeat split; vm_compute; reflexivity. Qed.

(** X19.  The activity log never holds more than 50 entries in any session
    brought about by script runs, settings dialogs, insert dialogs, chat
    downloads and runs of the download dialog with or without its Download
    Records button -- that is, by every part of the script that writes to the
    log -- whatever the provider, the engine, the graph file and [json.dumps]
    answer. *)
Theorem activity_log_never_exceeds_cap (w : World) :
  reachable_with_downloads w -> length (activity_log w) <= 50.
Proof.
  intros Hw.
  destruct (reachable_with_downloads_inv w Hw) as (_ & _ & _ & _ & Hcap).
  exact Hcap.
Qed.

Lemma activity_log_never_exceeds_cap_witness :
  length
    (activity_log
       (snd (show_download_dialog env_ok form_records
               (snd (perform env_rejected_query (RunScript (Some (py "and then?")))
                       session1)))))
  <= 50.
Proof.
  apply activity_log_never_exceeds_cap.
  exact (with_downloads_dialog env_ok form_records
           (snd (perform env_rejected_query (RunScript (Some (py "and then?")))
                   session1))
           (with_downloads_step env_rejected_query (RunScript (Some (py "and then?")))
              session1 session1_reachable_with_downloads I)).
Defined.

(** X20.  The models and the search mode of a reachable session are always
    among the options the settings dialog offers.  So the three
    [options.index(current)] calls of the dialog never raise, and the dialog
    ends normally, or with the rerun when Apply is pressed. *)
Theorem settings_stay_within_options (env : Env) (form : SettingsForm) (w : World) :
  reachable w ->
  settings_offered (settings w) /\
  fst (show_settings_dialog env form w)
    = (if w_apply form then Exc RerunException else Ok tt) /\
  settings (snd (show_settings_dialog env form w)) = form_settings form.
Proof.
  intros Hw.
  destruct (reachable_inv w Hw) as (Hs & _).
  split; [exact Hs |].
  destruct Hs as (Hllm & Hemb & Hmode).
  rewrite (show_settings_dialog_run env form w Hllm Hemb Hmode).
  split; reflexivity.
Qed.

Lemma settings_stay_within_options_witness :
  fst (show_settings_dialog env_ok form_model session1) = Exc RerunException.
Proof.
  destruct (settings_stay_within_options env_ok form_model session1) as (_ & Hr & _).
  { exact session1_reachable. }
  exact Hr.
Defined.

(** ** The export, for any history *)

Lemma join_sections (env : Env) (msgs : list Message) :
  forall l : list pystr,
    l <> [] ->
    join NL (l ++ flat_map (md_message env) msgs)
    = join NL l ++ concat (map (md_section env) msgs).
Proof.
  induction msgs as [| m ms IH]; intros l Hl; cbn [flat_map map concat].
  - now rewrite !app_nil_r.
  - destruct (md_message_join env m) as (Hne & _).
    rewrite app_assoc, IH by (destruct l; discriminate).
    rewrite join_app by assumption.
    unfold md_section. now rewrite <- !app_assoc.
Qed.

Lemma md_content_sections (env : Env) (s : Settings) (msgs : list Message) :
  md_content env s msgs
  = join NL (md_header env s) ++ concat (map (md_section env) msgs).
Proof. unfold md_content. apply join_sections. discriminate. Qed.

(** X21.  With any history that is not empty, the download offered is the
    header followed by one section per message, in the order of the history
    and with nothing between the sections; the session itself is left as it
    was.  The text does not depend on the credential in the settings. *)
Theorem export_is_header_then_sections (env : Env) (w : World) :
  messages w <> [] ->
  let data :=
    join NL (md_header env (settings w)) ++
    concat (map (md_section env) (messages w)) in
  handle_chat_download env w =
    (Ok tt,
     set_journal
       (journal w ++
        [Ui (st_download_button
               (py "Download Chat") data
               (py "chat_session_" ++ strftime env "%Y%m%d_%H%M%S" ++ py ".md")
               (py "text/markdown") (py "download_chat"))]) w) /\
  forall key, md_content env (set_api_key key (settings w)) (messages w) = data.
Proof.
  intros Hm. cbn zeta. split.
  - unfold handle_chat_download, bind, get, emit, modify.
    rewrite md_content_sections.
    destruct (messages w); [congruence | reflexivity].
  - intros key. rewrite md_content_sections.
    destruct (settings w); reflexivity.
Qed.

Lemma export_is_header_then_sections_witness :
  let w := snd (chat_turn env_ok (py "hello") session1) in
  md_content env_ok (set_api_key (py "sk-other") (settings w)) (messages w)
  = join NL (md_header env_ok (settings w)) ++
    concat (map (md_section env_ok) (messages w)).
Proof.
  cbn zeta.
  destruct (export_is_header_then_sections env_ok
              (snd (chat_turn env_ok (py "hello") session1))) as (_ & Hkey).
  { vm_compute. discriminate. }
  exact (Hkey (py "sk-other")).
Defined.

(** X22.  What a turn's message looks like in an export.  An answer gives the
    heading with the time of the answer, the response, and a quoted line
    [{search_mode}@{llm_model} #{prompt_hash}].  An apology gives the heading
    with [N/A] for the time (its metadata has no timestamp), the apology, and
    a quoted line with the warning sign and the error text. *)
Theorem exported_sections_by_outcome (env env_then : Env) (s : Settings)
    (prompt response e : pystr) :
  md_section env (success_message env_then s prompt response)
  = NL ++ NL ++ py "### Assistant (" ++ strftime env_then "%H:%M:%S" ++ py ")" ++ NL ++
    NL ++ response ++ NL ++ NL ++
    NL ++ py "> " ++ search_mode s ++ py "@" ++ llm_model s ++ py " #" ++
    firstn 8 (XXH64.hexdigest (encode prompt))
  /\
  md_section env (fallback_message s e)
  = NL ++ NL ++ py "### Assistant (N/A)" ++ NL ++
    NL ++ FALLBACK_RESPONSE ++ NL ++ NL ++
    NL ++ py "> " ++ WARNING_SIGN ++ py " Error: " ++ e.
Proof.
  assert (Hu : bool_decide (py "assistant" = py "user") = false)
    by (apply bool_decide_eq_false_2; vm_compute; discriminate).
  assert (Ha : bool_decide (py "assistant" = py "assistant") = true)
    by (apply bool_decide_eq_true_2; reflexivity).
  split.
  - unfold md_section, md_message, success_message.
    cbn [role content metadata]. rewrite Hu, Ha.
    assert (H1 : success_metadata env_then s (prompt_fingerprint prompt)
                   (render_query_info s (prompt_fingerprint prompt)) !! "timestamp"
                 = Some (VStr (strftime env_then "%H:%M:%S"))) by reflexivity.
    assert (H2 : success_metadata env_then s (prompt_fingerprint prompt)
                   (render_query_info s (prompt_fingerprint prompt)) !! "query_info"
                 = Some (VStr (render_query_info s (prompt_fingerprint prompt))))
      by reflexivity.
    assert (H3 : success_metadata env_then s (prompt_fingerprint prompt)
                   (render_query_info s (prompt_fingerprint prompt)) !! "error"
                 = None) by reflexivity.
    rewrite H1, H2, H3. cbv zeta. cbn [str_val app].
    rewrite !join_cons by discriminate. cbn [join].
    unfold render_query_info.
    change (prompt_fingerprint prompt) with (firstn 8 (XXH64.hexdigest (encode prompt))).
    rewrite <- !(@List.app_assoc N). reflexivity.
  - unfold md_section, md_message, fallback_message.
    cbn [role content metadata]. rewrite Hu, Ha.
    assert (H1 : error_metadata s e !! "timestamp" = None) by reflexivity.
    assert (H2 : error_metadata s e !! "query_info" = None) by reflexivity.
    assert (H3 : error_metadata s e !! "error" = Some (VStr e)) by reflexivity.
    rewrite H1, H2, H3. cbv zeta. cbn [str_val app].
    rewrite !join_cons by discriminate. cbn [join].
    rewrite <- !(@List.app_assoc N). reflexivity.
Qed.

(** ** The most connected nodes *)

Example sorted_by_degree_ties :
  sorted_by_degree [(py "a", 1); (py "b", 3); (py "c", 1); (py "d", 3)]
  = [(py "b", 3); (py "d", 3); (py "a", 1); (py "c", 1)].
Proof. reflexivity. Qed.

Lemma insert_by_degree_perm (x : pystr * nat) (l : list (pystr * nat)) :
  insert_by_degree x l ≡ₚ x :: l.
Proof.
  induction l as [| y r IH]; cbn [insert_by_degree]; [reflexivity |].
  destruct (snd x <? snd y)%nat; [| reflexivity].
  rewrite IH. apply Permutation_swap.
Qed.

Lemma insert_by_degree_descending (x : pystr * nat) (l : list (pystr * nat)) :
  descending l -> descending (insert_by_degree x l).
Proof.
  induction l as [| y r IH]; cbn [insert_by_degree descending].
  - intros _. split; [constructor | exact I].
  - intros [Hall Hr].
    destruct (snd x <? snd y)%nat eqn:Hlt; cbn [descending].
    + apply Nat.ltb_lt in Hlt. split; [| apply IH; exact Hr].
      rewrite (insert_by_degree_perm x r). constructor; [lia | exact Hall].
    + apply Nat.ltb_ge in Hlt. split; [| split; assumption].
      constructor; [exact Hlt |].
      eapply Forall_impl; [exact Hall |]. cbv beta. intros z Hz. lia.
Qed.

Lemma of_degree_cons (k : nat) (x : pystr * nat) (l : list (pystr * nat)) :
  of_degree k (x :: l)
  = if Nat.eqb (snd x) k then x :: of_degree k l else of_degree k l.
Proof. reflexivity. Qed.

Lemma insert_by_degree_of_degree (k : nat) (x : pystr * nat) (l : list (pystr * nat)) :
  of_degree k (insert_by_degree x l) = of_degree k (x :: l).
Proof.
  induction l as [| y r IH]; cbn [insert_by_degree]; [reflexivity |].
  destruct (snd x <? snd y)%nat eqn:Hlt; [| reflexivity].
  apply Nat.ltb_lt in Hlt.
  rewrite (of_degree_cons k y), IH, !of_degree_cons.
  destruct (Nat.eqb (snd x) k) eqn:Hx, (Nat.eqb (snd y) k) eqn:Hy; try reflexivity.
  apply Nat.eqb_eq in Hx, Hy. lia.
Qed.

Lemma sorted_by_degree_cons (x : pystr * nat) (items : list (pystr * nat)) :
  sorted_by_degree (x :: items) = insert_by_degree x (sorted_by_degree items).
Proof. reflexivity. Qed.

Lemma sorted_by_degree_perm (items : list (pystr * nat)) :
  sorted_by_degree items ≡ₚ items.
Proof.
  induction items as [| x r IH]; [reflexivity |].
  rewrite sorted_by_degree_cons, insert_by_degree_perm. now rewrite IH.
Qed.

Lemma sorted_by_degree_descending (items : list (pystr * nat)) :
  descending (sorted_by_degree items).
Proof.
  induction items as [| x r IH]; [exact I |].
  rewrite sorted_by_degree_cons. apply insert_by_degree_descending, IH.
Qed.

Lemma sorted_by_degree_stable (k : nat) (items : list (pystr * nat)) :
  of_degree k (sorted_by_degree items) = of_degree k items.
Proof.
  induction items as [| x r IH]; [reflexivity |].
  rewrite sorted_by_degree_cons, insert_by_degree_of_degree, !of_degree_cons.
  now rewrite IH.
Qed.

Lemma descending_app (l1 l2 : list (pystr * nat)) :
  descending (l1 ++ l2) ->
  descending l1 /\ forall x y, In x l1 -> In y l2 -> snd y <= snd x.
Proof.
  induction l1 as [| z l1 IH]; cbn [app descending].
  - intros _. split; [exact I |]. intros x y [].
  - intros [Hall Hd]. destruct (IH Hd) as [Hd1 Hcross].
    apply Forall_app in Hall. destruct Hall as [H1 H2].
    split; [split; assumption |].
    intros x y [<- | Hx] Hy.
    + rewrite List.Forall_forall in H2. apply H2, Hy.
    + apply Hcross; assumption.
Qed.

(** X23.  The nodes listed in the statistics dialog: as many as the graph has,
    at most five; in order of decreasing degree; they are the head of the
    stable arrangement of all nodes by decreasing degree, so no node left out
    has a higher degree than a listed one, and nodes of equal degree stand in
    the order of the graph. *)
Theorem top_nodes_are_the_most_connected (degrees : list (pystr * nat)) :
  length (top_nodes degrees) = Nat.min 5 (length degrees) /\
  descending (top_nodes degrees) /\
  exists rest,
    sorted_by_degree degrees = top_nodes degrees ++ rest /\
    top_nodes degrees ++ rest ≡ₚ degrees /\
    (forall x y, In x (top_nodes degrees) -> In y rest -> snd y <= snd x) /\
    (forall k, of_degree k (top_nodes degrees ++ rest) = of_degree k degrees).
Proof.
  unfold top_nodes.
  pose proof (sorted_by_degree_descending degrees) as Hd.
  pose proof (sorted_by_degree_perm degrees) as Hp.
  rewrite <- (firstn_skipn 5 (sorted_by_degree degrees)) in Hd.
  destruct (descending_app _ _ Hd) as [Htop Hcross].
  split.
  { rewrite length_take, (Permutation_length Hp). reflexivity. }
  split; [exact Htop |].
  exists (skipn 5 (sorted_by_degree degrees)).
  rewrite (firstn_skipn 5 (sorted_by_degree degrees)).
  split; [reflexivity |]. split; [exact Hp |]. split; [exact Hcross |].
  intros k. apply sorted_by_degree_stable.
Qed.

(** X24.  The table of the statistics dialog has its two header lines and one
    row per listed node, in the order of the list.  The SHA-12 cell of a row
    holds 12 lower-case hexadecimal digits, the start of the node id's xxh64
    digest; its first 8 digits are what a chat turn records as the prompt
    hash of the same text. *)
Theorem table_has_a_row_per_top_node (degrees : list (pystr * nat)) (node : pystr) :
  length (table_lines degrees) = 2 + Nat.min 5 (length degrees) /\
  length (sha_hash node) = 12 /\
  Forall (fun c => is_hex c = true) (sha_hash node) /\
  firstn 8 (sha_hash node) = prompt_fingerprint node /\
  (forall i item, top_nodes degrees !! i = Some item ->
     table_lines degrees !! (2 + i) =
       Some (py "| `" ++ fst item ++ py "` | `" ++ sha_hash (fst item) ++ py "` | " ++
             str_int (snd item) ++ py " |")).
Proof.
  split.
  { unfold table_lines. rewrite length_app, length_map. cbn [length].
    unfold top_nodes.
    rewrite length_take, (Permutation_length (sorted_by_degree_perm degrees)).
    reflexivity. }
  unfold sha_hash, prompt_fingerprint, XXH64.hexdigest.
  split; [rewrite length_take, hex_length; reflexivity |].
  split; [apply Forall_take, hex_is_hex |].
  split; [rewrite take_take; reflexivity |].
  intros i item Hi. unfold table_lines.
  change (([py "| Node ID | SHA-12 | Connections |";
            py "|---------|--------|-------------|"] ++
           map table_row (top_nodes degrees)) !! (2 + i))
    with (map table_row (top_nodes degrees) !! i).
  change (map table_row (top_nodes degrees)) with (table_row <$> top_nodes degrees).
  rewrite list_lookup_fmap.
  exact (f_equal (fmap table_row) Hi).
Qed.
